(** * Sampler commands: [sampler-get] and [sampler-set]

    A shallow embedding of [index.js] of the SamplerCommands extension: the
    enumerator of sampler parameters over the settings panel, and the two
    slash-command callbacks.  The JavaScript built-ins the script calls
    (string methods, [parseFloat], [String], [Math.min], [Math.max]) and the
    part of the DOM it queries are modelled first, the script itself next,
    the properties last. *)

From Stdlib Require Import ZArith List Bool Ascii String Lia DecimalString.
From Stdlib Require Import Floats.SpecFloat.
From Stdlib Require Import Sorting.Permutation Sorting.Sorted.
From Stdlib Require Structures.OrderedTypeEx.
Import ListNotations.

#[local] Set Warnings "-register-all".

Local Open Scope string_scope.
Local Open Scope Z_scope.

(** ** JavaScript strings

    A string is a sequence of code units.  The model keeps the code units
    0..255 (the Latin-1 part of UTF-16), on which [trim] and [toLowerCase]
    are exactly the functions below. *)
Module JsString.

Definition code (c : ascii) : nat := nat_of_ascii c.

(** WhiteSpace and LineTerminator code units below 256: TAB, LF, VT, FF, CR,
    SP and NBSP. *)
Definition isWhiteSpace (c : ascii) : bool :=
  let n := code c in
  ((9 <=? n)%nat && (n <=? 13)%nat) || (n =? 32)%nat || (n =? 160)%nat.

Fixpoint trimStart (s : string) : string :=
  match s with
  | EmptyString => EmptyString
  | String c s' => if isWhiteSpace c then trimStart s' else s
  end.

Fixpoint trimEnd (s : string) : string :=
  match s with
  | EmptyString => EmptyString
  | String c s' =>
      match trimEnd s' with
      | EmptyString => if isWhiteSpace c then EmptyString else String c EmptyString
      | t => String c t
      end
  end.

(** [String.prototype.trim] *)
Definition trim (s : string) : string := trimEnd (trimStart s).

(** Lower-case mapping of one code unit: A-Z, and the Latin-1 capitals
    U+00C0..U+00DE except the multiplication sign U+00D7. *)
Definition lowerChar (c : ascii) : ascii :=
  let n := code c in
  if ((65 <=? n)%nat && (n <=? 90)%nat)
     || ((192 <=? n)%nat && (n <=? 222)%nat && negb (n =? 215)%nat)
  then ascii_of_nat (n + 32) else c.

(** [String.prototype.toLowerCase] *)
Fixpoint toLowerCase (s : string) : string :=
  match s with
  | EmptyString => EmptyString
  | String c s' => String (lowerChar c) (toLowerCase s')
  end.

Fixpoint drop (n : nat) (s : string) : string :=
  match n, s with
  | O, _ => s
  | S n', String _ s' => drop n' s'
  | S _, EmptyString => EmptyString
  end.

(** [String.prototype.replace] with a string pattern: only the first
    occurrence of [pat], scanning from the left, is replaced by [rep]. *)
Fixpoint replace (pat rep s : string) : string :=
  if prefix pat s then rep ++ drop (String.length pat) s
  else match s with
       | EmptyString => EmptyString
       | String c s' => String c (replace pat rep s')
       end.

(** [s] has an occurrence of [pat] ([String.prototype.includes]). *)
Fixpoint includes (pat s : string) : bool :=
  prefix pat s ||
  match s with
  | EmptyString => false
  | String _ s' => includes pat s'
  end.

Fixpoint repeat (c : ascii) (n : nat) : string :=
  match n with
  | O => EmptyString
  | S n' => String c (repeat c n')
  end.

Definition take (n : nat) (s : string) : string := substring 0 n s.

End JsString.

(** ** JavaScript numbers

    A Number is an IEEE 754 binary64 value: [spec_float] at precision 53 and
    maximal exponent 1024, finite values in canonical form. *)
Module JsNumber.

Definition number : Type := spec_float.

Definition prec : Z := 53.
Definition emax : Z := 1024.

Definition NaN : number := S754_nan.
Definition Infinity : number := S754_infinity false.
Definition NegInfinity : number := S754_infinity true.

(** The Number value for the rational [num / den], sign [neg]: round to
    nearest, ties to even, overflow to an infinity. *)
Definition ofRatio (neg : bool) (num den : positive) : number :=
  SFdiv prec emax (S754_finite neg num 0) (S754_finite false den 0).

(** The Number value for [m * 10 ^ e], sign [neg]. *)
Definition ofDecimal (neg : bool) (m e : Z) : number :=
  match m with
  | Zpos p =>
      if 0 <=? e then ofRatio neg (p * Z.to_pos (10 ^ e)) 1
      else ofRatio neg p (Z.to_pos (10 ^ (- e)))
  | _ => S754_zero neg
  end.

(** [isNaN] and [isFinite] (the global functions, on a Number). *)
Definition isNaN (x : number) : bool :=
  match x with S754_nan => true | _ => false end.

Definition isFinite (x : number) : bool :=
  match x with S754_nan | S754_infinity _ => false | _ => true end.

(** [x < y] on Numbers (false when either is NaN); the two zeros compare
    equal. *)
Definition lt (x y : number) : bool := SFltb x y.
Definition le (x y : number) : bool := SFleb x y.

Definition isPosZero (x : number) : bool :=
  match x with S754_zero false => true | _ => false end.
Definition isNegZero (x : number) : bool :=
  match x with S754_zero true => true | _ => false end.

(** [Math.max]: start from -Infinity; a NaN argument gives NaN; +0 is
    taken as larger than -0. *)
Fixpoint maxFrom (highest : number) (args : list number) : number :=
  match args with
  | [] => highest
  | x :: rest =>
      if isNaN x then NaN
      else
        let highest := if isPosZero x && isNegZero highest then x else highest in
        let highest := if lt highest x then x else highest in
        maxFrom highest rest
  end.

Definition Math_max (args : list number) : number := maxFrom NegInfinity args.

(** [Math.min]: start from +Infinity; a NaN argument gives NaN; -0 is
    taken as smaller than +0. *)
Fixpoint minFrom (lowest : number) (args : list number) : number :=
  match args with
  | [] => lowest
  | x :: rest =>
      if isNaN x then NaN
      else
        let lowest := if isNegZero x && isPosZero lowest then x else lowest in
        let lowest := if lt x lowest then x else lowest in
        minFrom lowest rest
  end.

Definition Math_min (args : list number) : number := minFrom Infinity args.

(** *** [parseFloat] *)

Definition digitValue (c : ascii) : option Z :=
  let n := nat_of_ascii c in
  if (48 <=? n)%nat && (n <=? 57)%nat then Some (Z.of_nat (n - 48)) else None.

(** Reads the decimal digits at the head of [s]: their value after [acc],
    how many there are, and the rest of the string. *)
Fixpoint readDigits (s : string) (acc : Z) (count : nat) : Z * nat * string :=
  match s with
  | EmptyString => (acc, count, s)
  | String c s' =>
      match digitValue c with
      | Some d => readDigits s' (acc * 10 + d) (S count)
      | None => (acc, count, s)
      end
  end.

(** The value of the ExponentPart at the head of [s]; 0 when there is no
    complete one (the literal then ends before it). *)
Definition readExponent (s : string) : Z :=
  match s with
  | String c s1 =>
      if (Ascii.eqb c "e" || Ascii.eqb c "E")%bool then
        let '(neg, s2) :=
          match s1 with
          | String "+" r => (false, r)
          | String "-" r => (true, r)
          | _ => (false, s1)
          end in
        let '(v, k, _) := readDigits s2 0 0 in
        if (k =? 0)%nat then 0 else if neg then - v else v
      else 0
  | EmptyString => 0
  end.

(** The longest StrUnsignedDecimalLiteral (other than Infinity) at the head
    of [s], as a pair [(m, e)] standing for [m * 10 ^ e]. *)
Definition readUnsigned (s : string) : option (Z * Z) :=
  let '(i, ki, s1) := readDigits s 0 0 in
  match s1 with
  | String "." s2 =>
      let '(f, kf, s3) := readDigits s2 0 0 in
      if ((ki =? 0)%nat && (kf =? 0)%nat)%bool then None
      else Some (i * 10 ^ Z.of_nat kf + f, readExponent s3 - Z.of_nat kf)
  | _ => if (ki =? 0)%nat then None else Some (i, readExponent s1)
  end.

Definition parseFloat (s : string) : number :=
  let t := JsString.trimStart s in
  let '(neg, u) :=
    match t with
    | String "+" r => (false, r)
    | String "-" r => (true, r)
    | _ => (false, t)
    end in
  if prefix "Infinity" u then S754_infinity neg
  else match readUnsigned u with
       | Some (m, e) => ofDecimal neg m e
       | None => NaN
       end.

(** *** [Number::toString] at radix 10

    For a finite non-zero value the digits are the [s] and the exponent the
    [n] of the language definition: [k] as small as possible with
    [10^(k-1) <= s < 10^k] and [s * 10^(n-k)] rounding to the value; of two
    such [s] the one nearer the value. *)

(** A positive finite value [m * 2^e] as a fraction. *)
Definition ratioOf (m : positive) (e : Z) : Z * Z :=
  if 0 <=? e then (Zpos m * 2 ^ e, 1) else (Zpos m, 2 ^ (- e)).

(** The fraction divided by [10 ^ t]. *)
Definition scale10 (r : Z * Z) (t : Z) : Z * Z :=
  let (a, b) := r in
  if 0 <=? t then (a, b * 10 ^ t) else (a * 10 ^ (- t), b).

Definition belowPow10 (r : Z * Z) (n : Z) : bool :=
  let (a, b) := scale10 r n in a <? b.

Fixpoint decadeDown (fuel : nat) (r : Z * Z) (n : Z) : Z :=
  match fuel with
  | O => n
  | S fuel' => if belowPow10 r (n - 1) then decadeDown fuel' r (n - 1) else n
  end.

Fixpoint decadeUp (fuel : nat) (r : Z * Z) (n : Z) : Z :=
  match fuel with
  | O => n
  | S fuel' => if belowPow10 r n then n else decadeUp fuel' r (n + 1)
  end.

(** The [n] with [10^(n-1) <= r < 10^n]; every binary64 value lies between
    [10^-324] and [10^309]. *)
Definition decade (r : Z * Z) : Z := decadeUp 700 r (decadeDown 700 r 0).

Definition roundTrips (m : positive) (e : Z) (s n k : Z) : bool :=
  match ofDecimal false s (n - k) with
  | S754_finite false m' e' => Pos.eqb m m' && Z.eqb e e'
  | _ => false
  end.

(** The [k]-digit candidates on either side of the value, if one of them
    rounds to it. *)
Definition digitsAt (m : positive) (e : Z) (n0 k : Z) : option (Z * Z) :=
  let (a, b) := scale10 (ratioOf m e) (n0 - k) in
  let sf := a / b in
  let lo := (sf, n0) in
  let hi := if sf + 1 =? 10 ^ k then (10 ^ (k - 1), n0 + 1) else (sf + 1, n0) in
  match roundTrips m e sf n0 k, roundTrips m e (fst hi) (snd hi) k with
  | true, true =>
      match 2 * a ?= (2 * sf + 1) * b with
      | Lt => Some lo
      | Gt => Some hi
      | Eq => if Z.even sf then Some lo else Some hi
      end
  | true, false => Some lo
  | false, true => Some hi
  | false, false => None
  end.

Fixpoint shortest (fuel : nat) (m : positive) (e : Z) (n0 k : Z) : Z * Z * Z :=
  match fuel with
  | O => (fst (scale10 (ratioOf m e) (n0 - k)) / snd (scale10 (ratioOf m e) (n0 - k)), n0, k)
  | S fuel' =>
      match digitsAt m e n0 k with
      | Some (s, n) => (s, n, k)
      | None => shortest fuel' m e n0 (k + 1)
      end
  end.

Definition decimal (z : Z) : string := NilZero.string_of_uint (N.to_uint (Z.to_N z)).

Definition formatDigits (digits : string) (k n : Z) : string :=
  if (k <=? n) && (n <=? 21) then
    digits ++ JsString.repeat "0" (Z.to_nat (n - k))
  else if (0 <? n) && (n <=? 21) then
    JsString.take (Z.to_nat n) digits ++ "." ++ JsString.drop (Z.to_nat n) digits
  else if (-6 <? n) && (n <=? 0) then
    "0." ++ JsString.repeat "0" (Z.to_nat (- n)) ++ digits
  else
    let e := n - 1 in
    let sign := if e <? 0 then "-" else "+" in
    let mant := if k =? 1 then digits
                else JsString.take 1 digits ++ "." ++ JsString.drop 1 digits in
    mant ++ "e" ++ sign ++ decimal (Z.abs e).

Definition toString (x : number) : string :=
  match x with
  | S754_nan => "NaN"
  | S754_zero _ => "0"
  | S754_infinity s => if s then "-Infinity" else "Infinity"
  | S754_finite s m e =>
      let '(d, n, k) := shortest 17 m e (decade (ratioOf m e)) 1 in
      (if s then "-" else "") ++ formatDigits (decimal d) k n
  end.

End JsNumber.

(** ** The host page

    The part of the DOM the script reads and writes.  An element carries the
    attributes and properties the script touches, its inline style, the
    style the page's style sheets give it, and the size of its layout box
    when it is rendered.  Assigning to [checked] stores what is assigned;
    assigning to the [value] of an input element stores what the browser's
    value sanitization for the element makes of the assigned string. *)
Module Dom.

Local Open Scope string_scope.

(** The three style properties the script handles; the empty string stands
    for no declaration. *)
Record Style : Type := mkStyle {
  display : string;
  visibility : string;
  opacity : string
}.

(** What [instanceof] tells about an element: an HTMLInputElement is an
    HTMLElement; other elements (SVG, MathML) are neither. *)
Inductive Interface : Type :=
| IHTMLInputElement
| IHTMLElement
| IElement.

Record Elem : Type := mkElem {
  iface : Interface;
  localName : string;
  id : string;
  classList : list string;
  dataFor : bool;          (* the element has a data-for attribute *)
  type : string;
  min : string;
  max : string;
  step : string;
  value : string;
  defaultValue : string;   (* the value content attribute *)
  checked : bool;
  style : Style;           (* element.style: the inline declarations *)
  sheet : Style;           (* what the style sheets declare for the element *)
  boxWidth : Z;            (* layout box of the element when it is rendered *)
  boxHeight : Z
}.

Inductive Node : Type :=
| TextNode (data : string)
| ElementNode (e : Elem) (children : list Node).

(** An element is referred to by its path: the child indexes that lead to it
    from the navigation panel. *)
Definition Path : Type := list nat.

(** An ancestor of the navigation panel, with its other children on either
    side. *)
Record Frame : Type := mkFrame {
  frameElem : Elem;
  before : list Node;
  after : list Node
}.

(** The document, seen from the element [document.getElementById
    ('left-nav-panel')] returns.  The host application always renders that
    panel; a page without it, on which [window.getComputedStyle(null)]
    throws a TypeError, has no representation here.  [ancestors] lists the
    panel's ancestors, the parent first. *)
Record Document : Type := mkDocument {
  panelElem : Elem;
  panelChildren : list Node;
  ancestors : list Frame
}.

Definition panelNode (d : Document) : Node :=
  ElementNode (panelElem d) (panelChildren d).

Definition instanceofHTMLElement (e : Elem) : bool :=
  match iface e with IElement => false | _ => true end.

Definition instanceofHTMLInputElement (e : Elem) : bool :=
  match iface e with IHTMLInputElement => true | _ => false end.

(** *** Computed style and layout *)

Definition cascade (inline fromSheet : string) : string :=
  if inline =? "" then fromSheet else inline.

(** [window.getComputedStyle]: an inline declaration wins over the sheets. *)
Definition getComputedStyle (e : Elem) : Style :=
  {| display := cascade (display (style e)) (display (sheet e));
     visibility := cascade (visibility (style e)) (visibility (sheet e));
     opacity := cascade (opacity (style e)) (opacity (sheet e)) |}.

Definition elemOf (n : Node) : option Elem :=
  match n with ElementNode e _ => Some e | TextNode _ => None end.

(** An element has a layout box only if neither it nor an ancestor has
    [display: none]; [chain] is the element followed by its ancestors. *)
Definition rendered (chain : list Node) : bool :=
  forallb (fun n => match elemOf n with
                    | Some e => negb (display (getComputedStyle e) =? "none")
                    | None => true
                    end) chain.

Definition offsetWidth (chain : list Node) : Z :=
  match chain with
  | ElementNode e _ :: _ => if rendered chain then boxWidth e else 0
  | _ => 0
  end.

Definition offsetHeight (chain : list Node) : Z :=
  match chain with
  | ElementNode e _ :: _ => if rendered chain then boxHeight e else 0
  | _ => 0
  end.

(** *** Tree traversal *)

(** The node and everything below it in tree order, each with its path from
    the node. *)
Fixpoint subtree (n : Node) : list (Path * Node) :=
  ([], n) ::
  match n with
  | TextNode _ => []
  | ElementNode _ cs =>
      (fix children (i : nat) (cs : list Node) : list (Path * Node) :=
         match cs with
         | [] => []
         | c :: cs' =>
             (map (fun pn => (i :: fst pn, snd pn)) (subtree c) ++ children (S i) cs')%list
         end) 0%nat cs
  end.

Definition descendants (n : Node) : list (Path * Node) := tl (subtree n).

(** [Node.textContent]: the text of the descendants, in tree order. *)
Definition textContent (n : Node) : string :=
  fold_right (fun pn acc => match snd pn with
                            | TextNode d => d ++ acc
                            | ElementNode _ _ => acc
                            end) "" (subtree n).

(** The node at path [p] below [n], followed by [n]'s side of the way up
    and then [above]: the node first, the outermost last.  Empty when the
    path leads nowhere. *)
Fixpoint ancestry (p : Path) (n : Node) (above : list Node) : list Node :=
  match p with
  | [] => n :: above
  | i :: p' =>
      match n with
      | ElementNode _ cs =>
          match nth_error cs i with
          | Some c => ancestry p' c (n :: above)
          | None => []
          end
      | TextNode _ => []
      end
  end.

(** The ancestors above [n], nearest first, each rebuilt around [n]. *)
Fixpoint plug (n : Node) (fs : list Frame) : list Node :=
  match fs with
  | [] => []
  | f :: fs' =>
      let parent := ElementNode (frameElem f) (before f ++ n :: after f)%list in
      parent :: plug parent fs'
  end.

(** The element at path [p] in the panel, followed by all its ancestors up
    to the root, nearest first. *)
Definition chainOf (d : Document) (p : Path) : list Node :=
  ancestry p (panelNode d) (plug (panelNode d) (ancestors d)).

Fixpoint mapNth {A : Type} (i : nat) (f : A -> A) (l : list A) : list A :=
  match l, i with
  | [], _ => []
  | x :: l', O => f x :: l'
  | x :: l', S i' => x :: mapNth i' f l'
  end.

(** The tree with [f] applied to the element at path [p]. *)
Fixpoint update (p : Path) (f : Elem -> Elem) (n : Node) : Node :=
  match n with
  | TextNode _ => n
  | ElementNode e cs =>
      match p with
      | [] => ElementNode (f e) cs
      | i :: p' => ElementNode e (mapNth i (update p' f) cs)
      end
  end.

Definition updateElem (p : Path) (f : Elem -> Elem) (d : Document) : Document :=
  match update p f (panelNode d) with
  | ElementNode e cs =>
      {| panelElem := e; panelChildren := cs; ancestors := ancestors d |}
  | TextNode _ => d
  end.

(** The node at path [p] below [n]. *)
Fixpoint getNode (p : Path) (n : Node) : option Node :=
  match p with
  | [] => Some n
  | i :: p' =>
      match n with
      | ElementNode _ cs =>
          match nth_error cs i with
          | Some c => getNode p' c
          | None => None
          end
      | TextNode _ => None
      end
  end.

(** The element at path [p] in the panel. *)
Definition getElem (d : Document) (p : Path) : option Elem :=
  match getNode p (panelNode d) with
  | Some (ElementNode e _) => Some e
  | _ => None
  end.

(** *** Selectors *)

Inductive Selector : Type :=
| ByClass (c : string)                (* .c *)
| ByTag (t : string)                  (* t *)
| ById (i : string)                   (* #i *)
| InputOfType (t : string)            (* input[type="t"] *)
| InputOfTypeNoDataFor (t : string).  (* input[type="t"]:not([data-for]) *)

Definition matches (s : Selector) (e : Elem) : bool :=
  match s with
  | ByClass c => existsb (String.eqb c) (classList e)
  | ByTag t => localName e =? t
  | ById i => id e =? i
  | InputOfType t => (localName e =? "input") && (type e =? t)
  | InputOfTypeNoDataFor t =>
      (localName e =? "input") && (type e =? t) && negb (dataFor e)
  end.

(** A selector list [s1, s2, ...] matches when one of its members does. *)
Definition matchesAny (sels : list Selector) (n : Node) : bool :=
  match n with
  | ElementNode e _ => existsb (fun s => matches s e) sels
  | TextNode _ => false
  end.

(** [element.closest]: the element itself or its nearest matching ancestor. *)
Definition closest (sels : list Selector) (chain : list Node) : option Node :=
  find (matchesAny sels) chain.

(** [element.querySelector]: the first matching descendant in tree order. *)
Definition querySelector (sels : list Selector) (n : Node) : option Node :=
  option_map snd (find (fun pn => matchesAny sels (snd pn)) (descendants n)).

(** [leftPanel.querySelectorAll]: the matching descendants of the panel in
    tree order, as paths. *)
Definition querySelectorAll (sels : list Selector) (d : Document) : list Path :=
  map fst (filter (fun pn => matchesAny sels (snd pn)) (descendants (panelNode d))).

End Dom.

(** ** JavaScript values and completions *)

Import JsString JsNumber.

(** ** The value of an input element

    The setter of [HTMLInputElement.value] stores the new string and runs
    the value sanitization algorithm of the element's type.  The algorithm
    is the browser's, not the script's, and the script is modelled for any
    such algorithm.  This module has the algorithm of the HTML Standard for
    the two types whose value the script assigns, number and range.  The
    attributes and the value are taken at their decimal value and the
    arithmetic is exact, as in the browsers, which compute on decimals; a
    result is written as the Number nearest to it is. *)
Module Html.

(** A fraction: numerator and positive denominator. *)
Definition Fraction : Type := (Z * Z)%type.

Definition ltFraction (p q : Fraction) : bool :=
  let (a, b) := p in let (c, d) := q in a * d <? c * b.

(** The Number nearest to a fraction, and how the standard writes a number:
    its best representation as a floating-point number, [ToString] of it. *)
Definition nearest (q : Fraction) : number :=
  let (a, b) := q in
  match a with
  | Zpos p => ofRatio false p (Z.to_pos b)
  | Zneg p => ofRatio true p (Z.to_pos b)
  | Z0 => S754_zero false
  end.

Definition bestRepresentation (q : Fraction) : string := toString (nearest q).

(** ASCII whitespace: TAB, LF, FF, CR and SPACE. *)
Definition isAsciiWhitespace (c : ascii) : bool :=
  let n := nat_of_ascii c in
  ((n =? 9) || (n =? 10) || (n =? 12) || (n =? 13) || (n =? 32))%nat.

Fixpoint skipAsciiWhitespace (s : string) : string :=
  match s with
  | String c s' => if isAsciiWhitespace c then skipAsciiWhitespace s' else s
  | EmptyString => s
  end.

(** The rules for parsing floating-point number values: ASCII whitespace,
    an optional sign, digits with an optional fraction or a fraction alone,
    an optional exponent, whatever follows being ignored.  An error where
    there is no such literal, or where the nearest Number is not finite. *)
Definition parseFloatingPoint (s : string) : option Fraction :=
  let t := skipAsciiWhitespace s in
  let '(neg, u) :=
    match t with
    | String "-" r => (true, r)
    | String "+" r => (false, r)
    | _ => (false, t)
    end in
  match readUnsigned u with
  | Some (m, e) =>
      if isFinite (ofDecimal neg m e) then
        let n := if neg then - m else m in
        Some (if 0 <=? e then (n * 10 ^ e, 1) else (n, 10 ^ (- e)))
      else None
  | None => None
  end.

(** A valid floating-point number: an optional [-]; digits, or digits with
    a fraction, or a fraction alone (a dot with digits after it); an
    optional exponent ([e] or [E], an optional sign, digits); nothing
    else. *)
Definition validExponent (s : string) : bool :=
  match s with
  | EmptyString => true
  | String c r =>
      (Ascii.eqb c "e" || Ascii.eqb c "E")
      && (let r1 := match r with
                    | String "+" x => x
                    | String "-" x => x
                    | _ => r
                    end in
          let '(_, k, rest) := readDigits r1 0 0 in
          negb (k =? 0)%nat && (rest =? "")%string)
  end.

Definition validFloatingPoint (s : string) : bool :=
  let s1 := match s with String "-" r => r | _ => s end in
  let '(_, ki, s2) := readDigits s1 0 0 in
  match s2 with
  | String "." r =>
      let '(_, kf, s3) := readDigits r 0 0 in
      negb (kf =? 0)%nat && validExponent s3
  | _ => negb (ki =? 0)%nat && validExponent s2
  end.

(** The minimum and the maximum of a range input: the [min] and [max]
    attributes where they parse, 0 and 100 otherwise. *)
Definition rangeMinimum (e : Dom.Elem) : Fraction :=
  match parseFloatingPoint (Dom.min e) with
  | Some x => x
  | None => (0, 1)
  end.

Definition rangeMaximum (e : Dom.Elem) : Fraction :=
  match parseFloatingPoint (Dom.max e) with
  | Some x => x
  | None => (100, 1)
  end.

(** The default value of a range input: the minimum plus half the
    difference between the maximum and the minimum, or the minimum when the
    maximum is less than the minimum. *)
Definition rangeDefault (e : Dom.Elem) : Fraction :=
  let lo := rangeMinimum e in
  let hi := rangeMaximum e in
  if ltFraction hi lo then lo
  else
    let (a, b) := lo in
    let (c, d) := hi in
    (a * d + c * b, 2 * b * d).

(** The allowed value step of a range input: none for [step="any"]; the
    [step] attribute where it parses to a number above zero; the default
    step 1 otherwise. *)
Definition allowedValueStep (e : Dom.Elem) : option Fraction :=
  if (toLowerCase (Dom.step e) =? "any")%string then None
  else
    match parseFloatingPoint (Dom.step e) with
    | Some x => if 0 <? fst x then Some x else Some (1, 1)
    | None => Some (1, 1)
    end.

(** The step base: the [min] attribute where it parses, else the [value]
    attribute where it parses, else zero. *)
Definition stepBase (e : Dom.Elem) : Fraction :=
  match parseFloatingPoint (Dom.min e) with
  | Some x => x
  | None =>
      match parseFloatingPoint (Dom.defaultValue e) with
      | Some x => x
      | None => (0, 1)
      end
  end.

(** [(y - base) / s], for [s] above zero. *)
Definition stepsFrom (base s y : Fraction) : Fraction :=
  let (bn, bd) := base in
  let (sn, sd) := s in
  let (yn, yd) := y in
  ((yn * bd - bn * yd) * sd, yd * bd * sn).

(** Step mismatch: [x - base] is not an integral multiple of [s]. *)
Definition stepMismatch (base s x : Fraction) : bool :=
  let (n, d) := stepsFrom base s x in negb (n mod d =? 0).

(** The number nearest to [x] among the [base + k * s], [k] an integer,
    that are not below [lo] nor, unless [hi] is less than [lo], above [hi];
    of two equally near the greater; none when there is no such number. *)
Definition roundToStep (lo hi base s x : Fraction) : option Fraction :=
  let (bn, bd) := base in
  let (sn, sd) := s in
  let (an, ad) := stepsFrom base s x in
  let (cn, cd) := stepsFrom base s lo in
  let (dn, dd) := stepsFrom base s hi in
  let k0 := (2 * an + ad) / (2 * ad) in
  let kLow := - ((- cn) / cd) in
  let kHigh := dn / dd in
  let at_ (k : Z) : Fraction := (bn * sd + k * sn * bd, bd * sd) in
  if ltFraction hi lo then Some (at_ (Z.max k0 kLow))
  else if kHigh <? kLow then None
  else Some (at_ (Z.min (Z.max k0 kLow) kHigh)).

(** Value sanitization for type range: a string that is not a valid
    floating-point number becomes the default value; a value below the
    minimum becomes the minimum; a value above the maximum becomes the
    maximum, unless the maximum is less than the minimum; a value off the
    steps is rounded to the nearest step within the bounds. *)
Definition sanitizeRange (e : Dom.Elem) (v : string) : string :=
  let lo := rangeMinimum e in
  let hi := rangeMaximum e in
  let '(v1, x1) :=
    if validFloatingPoint v then (v, parseFloatingPoint v)
    else (bestRepresentation (rangeDefault e), Some (rangeDefault e)) in
  match x1 with
  | None => v1
  | Some x =>
      let '(v2, x2) :=
        if ltFraction x lo then (bestRepresentation lo, lo)
        else if ltFraction hi x && negb (ltFraction hi lo) then (bestRepresentation hi, hi)
        else (v1, x) in
      match allowedValueStep e with
      | None => v2
      | Some s =>
          if stepMismatch (stepBase e) s x2 then
            match roundToStep lo hi (stepBase e) s x2 with
            | Some y => bestRepresentation y
            | None => v2
            end
          else v2
      end
  end.

(** Value sanitization for type number: a string that is not a valid
    floating-point number becomes the empty string. *)
Definition sanitizeNumber (v : string) : string :=
  if validFloatingPoint v then v else "".

(** What an input element holds after [v] is assigned to its [value].  For
    the types other than number and range, to which the script does not
    assign, the string is kept. *)
Definition sanitize (e : Dom.Elem) (v : string) : string :=
  if (Dom.type e =? "number")%string then sanitizeNumber v
  else if (Dom.type e =? "range")%string then sanitizeRange e v
  else v.

End Html.

(** What a slash-command callback can be handed as an argument. *)
Inductive JsValue : Type :=
| VUndefined
| VNull
| VBoolean (b : bool)
| VNumber (n : number)
| VString (s : string)
| VObject.

(** ToBoolean: what [!v] negates. *)
Definition ToBoolean (v : JsValue) : bool :=
  match v with
  | VUndefined | VNull => false
  | VBoolean b => b
  | VNumber n => match n with S754_nan | S754_zero _ => false | _ => true end
  | VString s => negb (s =? "")%string
  | VObject => true
  end.

(** [typeof v === 'string'] *)
Definition typeofString (v : JsValue) : bool :=
  match v with VString _ => true | _ => false end.

(** [String(b)] on a boolean. *)
Definition String_boolean (b : bool) : string := if b then "true" else "false".

(** The errors the callbacks throw, one constructor for each [throw]. *)
Inductive Failure : Type :=
| NameRequired
| NameNotString
| ParameterNotFound (name : string)
| ValueRequired
| ValueNotString
| ValueNotFinite.

Definition quote : string := String (ascii_of_nat 34) EmptyString.

(** The message of the [Error] thrown. *)
Definition message (f : Failure) : string :=
  match f with
  | NameRequired => "Parameter name is required."
  | NameNotString => "Parameter name must be a string."
  | ParameterNotFound name => "Parameter " ++ quote ++ name ++ quote ++ " not found."
  | ValueRequired => "Value is required."
  | ValueNotString => "Value must be a string."
  | ValueNotFinite => "Value must be convertible to a finite number."
  end.

(** The error taxonomy of the specification, and the kind of each error
    the callbacks throw. *)
Inductive ErrorKind : Type := InvalidArgument | NotFound | InvalidValue.

Definition kind (f : Failure) : ErrorKind :=
  match f with
  | NameRequired | NameNotString | ValueRequired | ValueNotString => InvalidArgument
  | ParameterNotFound _ => NotFound
  | ValueNotFinite => InvalidValue
  end.

Inductive Completion (A : Type) : Type :=
| Return (a : A)
| Throw (f : Failure).

Arguments Return {A} a.
Arguments Throw {A} f.

(** ** The script *)

(** An event that was dispatched: its target, its type, whether it bubbles,
    and the target as the listeners find it at that moment.  What the host's
    listeners then do is not part of the script. *)
Record Dispatched : Type := mkDispatched {
  target : Dom.Path;
  eventType : string;
  bubbles : bool;
  seen : option Dom.Elem
}.

(** The state the callbacks run in: the document and the events dispatched
    so far, oldest first. *)
Record Page : Type := mkPage {
  document : Dom.Document;
  dispatched : list Dispatched
}.

Record SamplerParameter : Type := mkSampler {
  id : string;
  name : string;
  max : number;
  min : number;
  value : number;
  checked : bool;
  type : string;
  control : Dom.Path     (* the input element, a live reference *)
}.

Definition orElse {A : Type} (a b : option A) : option A :=
  match a with Some _ => a | None => b end.

(** [n instanceof HTMLElement && n.textContent.trim()] *)
Definition hasTitle (n : option Dom.Node) : bool :=
  match n with
  | Some (Dom.ElementNode e _ as m) =>
      Dom.instanceofHTMLElement e && negb (trim (Dom.textContent m) =? "")%string
  | _ => false
  end.

(** [getTitleParent]; [chain] is the element followed by its ancestors. *)
Definition getTitleParent (chain : list Dom.Node) : option Dom.Node :=
  let parent :=
    orElse (Dom.closest [Dom.ByClass "range-block"] chain)
      (orElse (Dom.closest [Dom.ByTag "label"] chain)
         (orElse (Dom.closest [Dom.ByTag "h4"] chain)
            (Dom.closest [Dom.ByTag "div"] chain))) in
  match parent with
  | Some (Dom.ElementNode pe _ as parentNode) =>
      if negb (Dom.instanceofHTMLElement pe) then None
      else
        let rangeBlockTitle := Dom.querySelector [Dom.ByClass "range-block-title"] parentNode in
        if hasTitle rangeBlockTitle then rangeBlockTitle
        else
          let smallTextNode := Dom.querySelector [Dom.ByTag "small"] parentNode in
          if hasTitle smallTextNode then smallTextNode
          else
            let checkboxLabel := Dom.querySelector [Dom.ByClass "checkbox_label"] parentNode in
            if hasTitle checkboxLabel then checkboxLabel
            else Some parentNode
  | _ => None
  end.

Definition sanitizeId (id : string) : string :=
  replace "oai_" ""
    (replace "openai_" ""
       (replace "_novel" ""
          (replace "_openai" ""
             (replace "_textgenerationwebui" ""
                (replace "_counter" "" id))))).

Definition isVisible (chain : list Dom.Node) : bool :=
  match chain with
  | Dom.ElementNode e _ :: _ =>
      Dom.instanceofHTMLElement e
      && (0 <? Dom.offsetHeight chain) && (0 <? Dom.offsetWidth chain)
  | _ => false
  end.

Definition setPanelStyle (f : Dom.Style -> Dom.Style) (d : Dom.Document) : Dom.Document :=
  Dom.updateElem [] (fun e =>
    Dom.mkElem (Dom.iface e) (Dom.localName e) (Dom.id e) (Dom.classList e)
      (Dom.dataFor e) (Dom.type e) (Dom.min e) (Dom.max e) (Dom.step e)
      (Dom.value e) (Dom.defaultValue e)
      (Dom.checked e) (f (Dom.style e)) (Dom.sheet e)
      (Dom.boxWidth e) (Dom.boxHeight e)) d.

Definition setDisplay (v : string) (s : Dom.Style) : Dom.Style :=
  Dom.mkStyle v (Dom.visibility s) (Dom.opacity s).
Definition setVisibility (v : string) (s : Dom.Style) : Dom.Style :=
  Dom.mkStyle (Dom.display s) v (Dom.opacity s).
Definition setOpacity (v : string) (s : Dom.Style) : Dom.Style :=
  Dom.mkStyle (Dom.display s) (Dom.visibility s) v.

(** The body of the loop over the controls: [None] where the script
    [continue]s, the sampler it pushes otherwise. *)
Definition samplerOf (d : Dom.Document) (control : Dom.Path) : option SamplerParameter :=
  let chain := Dom.chainOf d control in
  match chain with
  | Dom.ElementNode e _ :: _ =>
      if negb (Dom.instanceofHTMLInputElement e) then None
      else
        match Dom.closest [Dom.ById "openai_settings"] chain with
        | Some _ => None
        | None =>
            match option_map (fun t => trim (Dom.textContent t)) (getTitleParent chain) with
            | Some name =>
                let sampler :=
                  {| id := sanitizeId (Dom.id e);
                     name := name;
                     max := parseFloat (Dom.max e);
                     min := parseFloat (Dom.min e);
                     value := parseFloat (Dom.value e);
                     checked := Dom.checked e;
                     type := Dom.type e;
                     control := control |} in
                if ((id sampler =? "") || (name =? ""))%string then None
                else Some sampler
            | None => None
            end
        end
  | _ => None
  end.

Definition controlSelectors : list Dom.Selector :=
  [Dom.InputOfType "range"; Dom.InputOfType "checkbox"; Dom.InputOfTypeNoDataFor "number"].

Definition enumerateSamplerParameters (d : Dom.Document)
  : list SamplerParameter * Dom.Document :=
  let leftPanelDisplay := Dom.display (Dom.getComputedStyle (Dom.panelElem d)) in
  let d :=
    if (leftPanelDisplay =? "none")%string then
      setPanelStyle (setDisplay "block")
        (setPanelStyle (setVisibility "hidden")
           (setPanelStyle (setOpacity "0") d))
    else d in
  let rangeSliders :=
    filter (fun c => isVisible (Dom.chainOf d c))
      (Dom.querySelectorAll controlSelectors d) in
  let samplerParameters :=
    fold_left (fun acc control =>
                 match samplerOf d control with
                 | Some sampler => (acc ++ [sampler])%list
                 | None => acc
                 end) rangeSliders [] in
  let d :=
    setPanelStyle (setDisplay leftPanelDisplay)
      (setPanelStyle (setOpacity "")
         (setPanelStyle (setVisibility "") d)) in
  (samplerParameters, d).

(** The predicate both callbacks hand to [Array.prototype.find]. *)
Definition matchesName (input : string) (p : SamplerParameter) : bool :=
  ((toLowerCase (name p) =? input) || (toLowerCase (id p) =? input))%string.

(** [control.value = v]: the element holds what [sanitize], the value
    sanitization the browser runs in the setter, makes of [v]. *)
Definition setValue (sanitize : Dom.Elem -> string -> string) (v : string)
           (e : Dom.Elem) : Dom.Elem :=
  Dom.mkElem (Dom.iface e) (Dom.localName e) (Dom.id e) (Dom.classList e)
    (Dom.dataFor e) (Dom.type e) (Dom.min e) (Dom.max e) (Dom.step e)
    (sanitize e v) (Dom.defaultValue e)
    (Dom.checked e) (Dom.style e) (Dom.sheet e)
    (Dom.boxWidth e) (Dom.boxHeight e).

(** [control.checked = b] *)
Definition setChecked (b : bool) (e : Dom.Elem) : Dom.Elem :=
  Dom.mkElem (Dom.iface e) (Dom.localName e) (Dom.id e) (Dom.classList e)
    (Dom.dataFor e) (Dom.type e) (Dom.min e) (Dom.max e) (Dom.step e)
      (Dom.value e) (Dom.defaultValue e)
    b (Dom.style e) (Dom.sheet e)
    (Dom.boxWidth e) (Dom.boxHeight e).

(** [control.dispatchEvent(new Event(type, { bubbles }))] *)
Definition dispatchEvent (c : Dom.Path) (type : string) (bubbles : bool) (pg : Page) : Page :=
  {| document := document pg;
     dispatched := (dispatched pg
                    ++ [mkDispatched c type bubbles (Dom.getElem (document pg) c)])%list |}.

(** The callback of [sampler-get], on its unnamed argument. *)
Definition sampler_get (name : JsValue) (pg : Page) : Completion string * Page :=
  if negb (ToBoolean name) then (Throw NameRequired, pg)
  else
    match name with
    | VString name =>
        let name := toLowerCase (trim name) in
        let (parameters, d) := enumerateSamplerParameters (document pg) in
        let pg := {| document := d; dispatched := dispatched pg |} in
        match find (matchesName name) parameters with
        | None => (Throw (ParameterNotFound name), pg)
        | Some parameter =>
            (Return (if (type parameter =? "checkbox")%string
                     then String_boolean (checked parameter)
                     else toString (value parameter)), pg)
        end
    | _ => (Throw NameNotString, pg)
    end.

Section SetCommand.

(** The host's [isTrueBoolean], imported from its [utils.js]. *)
Variable isTrueBoolean : string -> bool.

(** The browser's value sanitization: what an input element holds after a
    string is assigned to its [value]. *)
Variable sanitize : Dom.Elem -> string -> string.

(** The callback of [sampler-set], on the named argument [name] and the
    unnamed argument. *)
Definition sampler_set (name value : JsValue) (pg : Page) : Completion string * Page :=
  if negb (ToBoolean name) then (Throw NameRequired, pg)
  else
    match name with
    | VString name =>
        let name := toLowerCase (trim name) in
        let (parameters, d) := enumerateSamplerParameters (document pg) in
        let pg := {| document := d; dispatched := dispatched pg |} in
        match find (matchesName name) parameters with
        | None => (Throw (ParameterNotFound name), pg)
        | Some parameter =>
            if negb (ToBoolean value) then (Throw ValueRequired, pg)
            else
              match value with
              | VString value =>
                  if (type parameter =? "checkbox")%string then
                    let isTrue := isTrueBoolean value in
                    let pg := {| document :=
                                   Dom.updateElem (control parameter) (setChecked isTrue)
                                     (document pg);
                                 dispatched := dispatched pg |} in
                    (Return "", dispatchEvent (control parameter) "input" true pg)
                  else
                    let number := parseFloat value in
                    if isNaN number || negb (isFinite number) then
                      (Throw ValueNotFinite, pg)
                    else
                      let clamped :=
                        Math_min [Math_max [number; min parameter]; max parameter] in
                      let pg := {| document :=
                                     Dom.updateElem (control parameter)
                                       (setValue sanitize (toString clamped))
                                       (document pg);
                                   dispatched := dispatched pg |} in
                      (Return "", dispatchEvent (control parameter) "input" true pg)
              | _ => (Throw ValueNotString, pg)
              end
        end
    | _ => (Throw NameNotString, pg)
    end.

End SetCommand.

(** *** The suggestions for the parameter name *)

(** [Array.prototype.sort] with a comparator.  The language fixes the
    result when the comparator is consistent: the elements in ascending
    order, equal ones in their original order.  [Array_sort] computes that
    result by insertion. *)
Fixpoint insertInOrder {A : Type} (cmp : A -> A -> Z) (x : A) (l : list A) : list A :=
  match l with
  | [] => [x]
  | y :: l' => if cmp x y <=? 0 then x :: y :: l' else y :: insertInOrder cmp x l'
  end.

Fixpoint Array_sort {A : Type} (cmp : A -> A -> Z) (l : list A) : list A :=
  match l with
  | [] => []
  | x :: l' => insertInOrder cmp x (Array_sort cmp l')
  end.

(** A [SlashCommandEnumValue] of the host, with the four arguments the
    script gives its constructor. *)
Record SlashCommandEnumValue : Type := mkEnumValue {
  enumValue : string;
  description : string;
  enumType : string;
  typeIcon : string
}.

Section Suggestions.

(** [String.prototype.localeCompare], and the host's constants
    [enumTypes.number], [enumIcons.number] and [enumIcons.boolean]. *)
Variable localeCompare : string -> string -> Z.
Variables enumTypes_number enumIcons_number enumIcons_boolean : string.

(** [enumProvider]: the parameters sorted by name, each as an enum value. *)
Definition enumProvider (d : Dom.Document) : list SlashCommandEnumValue * Dom.Document :=
  let (parameters, d) := enumerateSamplerParameters d in
  (map (fun p => mkEnumValue (id p) (name p) enumTypes_number
                   (if (type p =? "range")%string then enumIcons_number
                    else enumIcons_boolean))
     (Array_sort (fun a b => localeCompare (name a) (name b)) parameters),
   d).

End Suggestions.

(** ** A page to run the script on *)
Module Example.

Definition noStyle : Dom.Style := Dom.mkStyle "" "" "".

Definition element (tag ident : string) (classes : list string) : Dom.Elem :=
  Dom.mkElem Dom.IHTMLElement tag ident classes false "" "" "" "" "" "" false
    noStyle (Dom.mkStyle "block" "visible" "1") 200 20.

(** An input with [step="any"] and no value attribute. *)
Definition input (ident type min max value : string) (checked : bool) : Dom.Elem :=
  Dom.mkElem Dom.IHTMLInputElement "input" ident [] false type min max "any" value ""
    checked noStyle (Dom.mkStyle "inline-block" "visible" "1") 120 16.

Definition text (tag : string) (classes : list string) (t : string) : Dom.Node :=
  Dom.ElementNode (element tag "" classes) [Dom.TextNode t].

(** A slider in its range block: title, then the input. *)
Definition rangeBlock (title : string) (i : Dom.Elem) : Dom.Node :=
  Dom.ElementNode (element "div" "" ["range-block"])
    [text "div" ["range-block-title"] title; Dom.ElementNode i []].

Definition checkboxBlock (title : string) (i : Dom.Elem) : Dom.Node :=
  Dom.ElementNode (element "label" "" ["checkbox_label"])
    [Dom.ElementNode i []; text "small" [] title].

Definition children : list Dom.Node :=
  [ rangeBlock " Temperature " (input "temp_textgenerationwebui" "range" "0" "2" "0.7" false);
    rangeBlock "Top P" (input "TOP_P_openai" "range" "0" "1" "0.9" false);
    checkboxBlock "Do Sample" (input "do_sample_textgenerationwebui" "checkbox" "" "" "on" true);
    rangeBlock "Seed" (input "seed_textgenerationwebui" "number" "-1" "" "-1" false);
    Dom.ElementNode (element "div" "openai_settings" [])
      [rangeBlock "Max context" (input "openai_max_context" "range" "512" "8192" "4096" false)];
    rangeBlock "Scratch" (input "oai_" "range" "0" "1" "0" false) ].

Definition panelWith (inline : Dom.Style) : Dom.Elem :=
  Dom.mkElem Dom.IHTMLElement "div" "left-nav-panel" ["drawer-content"] false
    "" "" "" "" "" "" false inline (Dom.mkStyle "flex" "visible" "1") 400 900.

Definition body : Dom.Frame :=
  Dom.mkFrame (element "body" "" []) [text "div" [] "top bar"] [].

(** The panel closed (hidden by an inline [display: none]) and open. *)
Definition closedPage : Page :=
  mkPage (Dom.mkDocument (panelWith (Dom.mkStyle "none" "" "")) children [body]) [].

Definition openPage : Page :=
  mkPage (Dom.mkDocument (panelWith (Dom.mkStyle "flex" "" "")) children [body]) [].

(** The host's recognition of a true literal: [on], [true] and [1], after
    trimming and lower-casing. *)
Definition hostIsTrueBoolean (s : string) : bool :=
  existsb (String.eqb (toLowerCase (trim s))) ["on"; "true"; "1"].

(** The open panel with an inline opacity of its own. *)
Definition dimmedPage : Page :=
  mkPage (Dom.mkDocument (panelWith (Dom.mkStyle "" "" "0.5")) children [body]) [].

(** A page whose only slider has its bounds the wrong way round. *)
Definition crossedPage : Page :=
  mkPage (Dom.mkDocument (panelWith (Dom.mkStyle "flex" "" ""))
            [rangeBlock "Crossed" (input "crossed" "range" "2" "0" "1" false)] [body]) [].

(** A page whose only slider has a step. *)
Definition slider (ident min max step value : string) : Dom.Elem :=
  Dom.mkElem Dom.IHTMLInputElement "input" ident [] false "range" min max step value ""
    false noStyle (Dom.mkStyle "inline-block" "visible" "1") 120 16.

Definition steppedPage : Page :=
  mkPage (Dom.mkDocument (panelWith (Dom.mkStyle "flex" "" ""))
            [rangeBlock "Temperature" (slider "temp" "0" "2" "0.01" "0.7")] [body]) [].

(** The parameters the enumerator finds on [closedPage] and [openPage]. *)
Definition temp : SamplerParameter :=
  mkSampler "temp" "Temperature" (parseFloat "2") (parseFloat "0") (parseFloat "0.7")
    false "range" [0; 1]%nat.

Definition top_p : SamplerParameter :=
  mkSampler "TOP_P" "Top P" (parseFloat "1") (parseFloat "0") (parseFloat "0.9")
    false "range" [1; 1]%nat.

Definition do_sample : SamplerParameter :=
  mkSampler "do_sample" "Do Sample" (parseFloat "") (parseFloat "") (parseFloat "on")
    true "checkbox" [2; 0]%nat.

Definition seed : SamplerParameter :=
  mkSampler "seed" "Seed" (parseFloat "") (parseFloat "-1") (parseFloat "-1")
    false "number" [3; 1]%nat.

Definition crossed : SamplerParameter :=
  mkSampler "crossed" "Crossed" (parseFloat "0") (parseFloat "2") (parseFloat "1")
    false "range" [0; 1]%nat.

Definition stepped : SamplerParameter :=
  mkSampler "temp" "Temperature" (parseFloat "2") (parseFloat "0") (parseFloat "0.7")
    false "range" [0; 1]%nat.

End Example.

(** ** Vocabulary of the properties *)

(** The strict equality [===] of two Numbers. *)
Definition strictEq (x y : number) : bool := SFeqb x y.

(** The value the script writes: [Math.min(Math.max(x, lo), hi)]. *)
Definition clamp (x lo hi : number) : number :=
  Math_min [Math_max [x; lo]; hi].

(** An element without its inline style: what the enumerator leaves alone
    on every element. *)
Definition unstyled (e : Dom.Elem) : Dom.Elem :=
  Dom.mkElem (Dom.iface e) (Dom.localName e) (Dom.id e) (Dom.classList e)
    (Dom.dataFor e) (Dom.type e) (Dom.min e) (Dom.max e) (Dom.step e)
      (Dom.value e) (Dom.defaultValue e)
    (Dom.checked e) (Dom.mkStyle "" "" "") (Dom.sheet e)
    (Dom.boxWidth e) (Dom.boxHeight e).

(** The document as it is while the enumerator scans it: the panel forced
    to show when it was hidden. *)
Definition shown (d : Dom.Document) : Dom.Document :=
  if (Dom.display (Dom.getComputedStyle (Dom.panelElem d)) =? "none")%string then
    setPanelStyle (setDisplay "block")
      (setPanelStyle (setVisibility "hidden")
         (setPanelStyle (setOpacity "0") d))
  else d.

(** The controls the enumerator loops over. *)
Definition rangeSliders (d : Dom.Document) : list Dom.Path :=
  filter (fun c => isVisible (Dom.chainOf (shown d) c))
    (Dom.querySelectorAll controlSelectors (shown d)).

(** The name the enumerator gives to the control at [c], when there is a
    titled ancestor. *)
Definition titleOf (d : Dom.Document) (c : Dom.Path) : option string :=
  option_map (fun t => trim (Dom.textContent t)) (getTitleParent (Dom.chainOf d c)).

(** The list the enumerator returns, as one expression. *)
Definition enumerated (d : Dom.Document) : list SamplerParameter :=
  flat_map (fun c => match samplerOf (shown d) c with
                     | Some sampler => [sampler]
                     | None => []
                     end) (rangeSliders d).

(** [f] applied to a node that is an element. *)
Definition onElem (f : Dom.Elem -> Dom.Elem) (n : Dom.Node) : Dom.Node :=
  match n with
  | Dom.ElementNode e cs => Dom.ElementNode (f e) cs
  | Dom.TextNode _ => n
  end.

(** The page a callback leaves when it only enumerated. *)
Definition afterLookup (pg : Page) : Page :=
  {| document := snd (enumerateSamplerParameters (document pg));
     dispatched := dispatched pg |}.

(** The input name as the callbacks compare it. *)
Definition normalize (s : string) : string := toLowerCase (trim s).

(** The parameter a callback selects for the input name [s]. *)
Definition lookup (pg : Page) (s : string) : option SamplerParameter :=
  find (matchesName (normalize s)) (fst (enumerateSamplerParameters (document pg))).

(** What [sampler-get] returns for a parameter. *)
Definition readout (p : SamplerParameter) : string :=
  if (type p =? "checkbox")%string then String_boolean (checked p)
  else toString (value p).

(** The page [sampler-set] leaves when it has replaced the control of [p]
    by [f] of it and dispatched the event. *)
Definition written (p : SamplerParameter) (f : Dom.Elem -> Dom.Elem) (pg : Page) : Page :=
  dispatchEvent (control p) "input" true
    {| document := Dom.updateElem (control p) f (document (afterLookup pg));
       dispatched := dispatched pg |}.

(** Input [s] names parameter [p]: after lower-casing, its name or its id
    is [s]. *)
Definition named (s : string) (p : SamplerParameter) : Prop :=
  toLowerCase (name p) = s \/ toLowerCase (id p) = s.

(** The sanitization as the specification words it: a known suffix is
    taken off the end and a known prefix off the start, nothing else. *)
Definition endsWith (suf s : string) : bool :=
  (String.length suf <=? String.length s)%nat
  && (drop (String.length s - String.length suf) s =? suf)%string.

Definition stripSuffix (suf s : string) : string :=
  if endsWith suf s then take (String.length s - String.length suf) s else s.

Definition stripPrefix (pre s : string) : string :=
  if prefix pre s then drop (String.length pre) s else s.

Definition stripKnownAffixes (s : string) : string :=
  stripPrefix "oai_"
    (stripPrefix "openai_"
       (stripSuffix "_novel"
          (stripSuffix "_openai"
             (stripSuffix "_textgenerationwebui"
                (stripSuffix "_counter" s))))).

(** [tok] occurs in [s]. *)
Definition occursIn (tok s : string) : Prop :=
  exists a b, s = (a ++ tok ++ b)%string.

(** What one [replace(tok, '')] does: nothing when [tok] does not occur, and
    otherwise it cuts out the leftmost occurrence, wherever that is. *)
Definition cut (tok s s' : string) : Prop :=
  (~ occursIn tok s /\ s' = s) \/
  (exists a b,
      s = (a ++ tok ++ b)%string /\
      (forall a' b', s = (a' ++ tok ++ b')%string -> (String.length a <= String.length a')%nat) /\
      s' = (a ++ b)%string).

(** The tokens the script removes, in the order of its [replace] calls. *)
Definition suffixTokens : list string :=
  ["_counter"; "_textgenerationwebui"; "_openai"; "_novel"].
Definition prefixTokens : list string := ["openai_"; "oai_"].
Definition tokens : list string := (suffixTokens ++ prefixTokens)%list.

(** The suffix tokens without their leading underscore. *)
Definition suffixWords : list string :=
  ["counter"; "textgenerationwebui"; "openai"; "novel"].

Fixpoint lacks (c : ascii) (s : string) : bool :=
  match s with
  | EmptyString => true
  | String d s' => negb (Ascii.eqb c d) && lacks c s'
  end.

(** [b] is empty or begins with an underscore. *)
Definition atUnderscore (b : string) : Prop :=
  b = "" \/ exists b', b = String "_" b'.

(** ** Vocabulary of the further properties *)

(** The descendants of the children [cs] of an element, the first of them
    being child number [i]. *)
Fixpoint childrenFrom (i : nat) (cs : list Dom.Node) : list (Dom.Path * Dom.Node) :=
  match cs with
  | [] => []
  | c :: cs' =>
      (map (fun pn => (i :: fst pn, snd pn)) (Dom.subtree c) ++ childrenFrom (S i) cs')%list
  end.

(** The element is not laid out: its computed display is [none]. *)
Definition hidden (e : Dom.Elem) : bool :=
  (Dom.display (Dom.getComputedStyle e) =? "none")%string.

(** Two elements that the enumerator cannot tell apart but by their
    [min], [max], [value] and [checked]. *)
Definition alike (e' e : Dom.Elem) : Prop :=
  Dom.iface e' = Dom.iface e /\ Dom.localName e' = Dom.localName e
  /\ Dom.id e' = Dom.id e /\ Dom.classList e' = Dom.classList e
  /\ Dom.dataFor e' = Dom.dataFor e /\ Dom.type e' = Dom.type e
  /\ Dom.boxWidth e' = Dom.boxWidth e /\ Dom.boxHeight e' = Dom.boxHeight e
  /\ hidden e' = hidden e.

(** Two trees of the same shape and text whose elements are alike. *)
Inductive sim : Dom.Node -> Dom.Node -> Prop :=
| sim_text (d : string) : sim (Dom.TextNode d) (Dom.TextNode d)
| sim_elem (e' e : Dom.Elem) (cs' cs : list Dom.Node) :
    alike e' e -> Forall2 sim cs' cs ->
    sim (Dom.ElementNode e' cs') (Dom.ElementNode e cs).

Definition docSim (d' d : Dom.Document) : Prop :=
  sim (Dom.panelNode d') (Dom.panelNode d) /\ Dom.ancestors d' = Dom.ancestors d.

Definition optSim (a' a : option Dom.Node) : Prop :=
  match a', a with
  | Some n', Some n => sim n' n
  | None, None => True
  | _, _ => False
  end.

(** Entries of two tree listings: the same path, similar nodes. *)
Definition entrySim (x' x : Dom.Path * Dom.Node) : Prop :=
  fst x' = fst x /\ sim (snd x') (snd x).

(** The enumerator's loop over a document as it stands. *)
Definition scan (d : Dom.Document) : list SamplerParameter :=
  flat_map (fun c => match samplerOf d c with
                     | Some sampler => [sampler]
                     | None => []
                     end)
    (filter (fun c => isVisible (Dom.chainOf d c))
       (Dom.querySelectorAll controlSelectors d)).

(** A sampler with the numbers and the checked state read again from its
    control in [d]. *)
Definition reread (d : Dom.Document) (p : SamplerParameter) : SamplerParameter :=
  match Dom.getElem d (control p) with
  | Some e =>
      {| id := id p; name := name p;
         max := parseFloat (Dom.max e); min := parseFloat (Dom.min e);
         value := parseFloat (Dom.value e); checked := Dom.checked e;
         type := type p; control := control p |}
  | None => p
  end.

(** A sampler with another checked state, and with another value. *)
Definition withChecked (b : bool) (p : SamplerParameter) : SamplerParameter :=
  mkSampler (id p) (name p) (max p) (min p) (value p) b (type p) (control p).

Definition withValue (x : number) (p : SamplerParameter) : SamplerParameter :=
  mkSampler (id p) (name p) (max p) (min p) x (checked p) (type p) (control p).

(** [change] applied to the samplers whose control is [c]. *)
Definition rewritten (c : Dom.Path) (change : SamplerParameter -> SamplerParameter)
           (q : SamplerParameter) : SamplerParameter :=
  if list_eq_dec Nat.eq_dec (control q) c then change q else q.

(** What the control of [p] holds once a [sampler-set] on page [pg] has
    assigned [v] to its value. *)
Definition held (sanitize : Dom.Elem -> string -> string) (pg : Page)
           (p : SamplerParameter) (v : string) : string :=
  match Dom.getElem (document (afterLookup pg)) (control p) with
  | Some e => sanitize e v
  | None => v
  end.

(** A value as a callback's name check sees it: absent or not a string. *)
Definition invalid (v : JsValue) : Prop :=
  ToBoolean v = false \/ typeofString v = false.

(** The error thrown for an invalid name. *)
Definition nameFailure (v : JsValue) : Failure :=
  if ToBoolean v then NameNotString else NameRequired.

(** The byte-wise comparison of two strings, as a comparator. *)
Definition byteCompare (a b : string) : Z :=
  match String.compare a b with
  | Lt => -1
  | Eq => 0
  | Gt => 1
  end.

(** ** Facts on numbers *)
Module NumberFacts.

Lemma compare_refl (x : number) :
  isNaN x = false -> SFcompare x x = Some Eq.
Proof.
  destruct x as [s | s | | s m e]; simpl; intros H; try discriminate.
  - reflexivity.
  - destruct s; reflexivity.
  - rewrite Z.compare_refl.
    change (Pos.compare_cont Eq m m) with (Pos.compare m m).
    rewrite Pos.compare_refl. destruct s; reflexivity.
Qed.

Lemma compare_antisym (x y : number) (c : comparison) :
  SFcompare x y = Some c -> SFcompare y x = Some (CompOpp c).
Proof.
  destruct x as [s1 | s1 | | s1 m1 e1], y as [s2 | s2 | | s2 m2 e2]; simpl;
    intros H; try discriminate; inversion H; subst; clear H;
    try (destruct s1; reflexivity); try (destruct s2; reflexivity);
    try (destruct s1, s2; reflexivity).
  change (Pos.compare_cont Eq m1 m2) with (Pos.compare m1 m2).
  change (Pos.compare_cont Eq m2 m1) with (Pos.compare m2 m1).
  rewrite (Z.compare_antisym e1 e2), (Pos.compare_antisym m1 m2).
  destruct s1, s2; simpl; try reflexivity;
    destruct (e1 ?= e2); simpl; try reflexivity;
    destruct (m1 ?= m2)%positive; reflexivity.
Qed.

Lemma compare_some (x y : number) :
  isNaN x = false -> isNaN y = false -> exists c, SFcompare x y = Some c.
Proof.
  destruct x, y; simpl; intros; try discriminate; eauto.
Qed.

Lemma le_not_nan (x y : number) :
  le x y = true -> isNaN x = false /\ isNaN y = false.
Proof.
  destruct x, y; simpl; intros H; try discriminate; split; reflexivity.
Qed.

Lemma strictEq_cases (x y : number) :
  strictEq x y = true ->
  x = y \/ exists s t, x = S754_zero s /\ y = S754_zero t.
Proof.
  unfold strictEq, SFeqb.
  destruct x as [s1 | s1 | | s1 m1 e1], y as [s2 | s2 | | s2 m2 e2]; simpl;
    intros H; try discriminate; try (destruct s1; discriminate);
    try (destruct s2; discriminate).
  - right; eauto.
  - destruct s1, s2; try discriminate; left; reflexivity.
  - change (Pos.compare_cont Eq m1 m2) with (Pos.compare m1 m2) in H.
    destruct s1, s2; try discriminate;
      destruct (e1 ?= e2) eqn:He; try discriminate;
      destruct (m1 ?= m2)%positive eqn:Hm; try discriminate;
      apply Z.compare_eq in He; apply Pos.compare_eq in Hm; subst; left; reflexivity.
Qed.

(** Numbers that are [===] print the same. *)
Lemma strictEq_toString (x y : number) :
  strictEq x y = true -> toString x = toString y.
Proof.
  intros H. destruct (strictEq_cases _ _ H) as [-> | (s & t & -> & ->)]; reflexivity.
Qed.

Lemma strictEq_refl (x : number) : isNaN x = false -> strictEq x x = true.
Proof.
  intros H. unfold strictEq, SFeqb. rewrite compare_refl by assumption. reflexivity.
Qed.

Lemma Math_max_pair (x lo : number) :
  isNaN x = false -> isNaN lo = false ->
  Math_max [x; lo] =
    if lt x lo then lo
    else if isPosZero lo && isNegZero x then lo else x.
Proof.
  intros Hx Hl. unfold Math_max; simpl. rewrite Hx, Hl.
  rewrite andb_false_r.
  destruct x as [s1 | s1 | | s1 m1 e1]; try discriminate;
    try (destruct s1); simpl;
    destruct lo as [s2 | s2 | | s2 m2 e2]; try discriminate;
    try (destruct s2); simpl; try reflexivity;
    unfold lt, SFltb; simpl;
    repeat match goal with
           | |- context [match ?c with Eq => _ | Lt => _ | Gt => _ end] =>
               destruct c; simpl
           end; reflexivity.
Qed.

Lemma Math_min_pair (x hi : number) :
  isNaN x = false -> isNaN hi = false ->
  Math_min [x; hi] =
    if lt hi x then hi
    else if isNegZero hi && isPosZero x then hi else x.
Proof.
  intros Hx Hh. unfold Math_min; simpl. rewrite Hx, Hh.
  rewrite andb_false_r.
  destruct x as [s1 | s1 | | s1 m1 e1]; try discriminate;
    try (destruct s1); simpl;
    destruct hi as [s2 | s2 | | s2 m2 e2]; try discriminate;
    try (destruct s2); simpl; try reflexivity;
    unfold lt, SFltb; simpl;
    repeat match goal with
           | |- context [match ?c with Eq => _ | Lt => _ | Gt => _ end] =>
               destruct c; simpl
           end; reflexivity.
Qed.

Lemma lt_trans (a b c : number) :
  lt a b = true -> lt b c = true -> lt a c = true.
Proof.
  unfold lt, SFltb.
  destruct a as [[] | [] | | [] m1 e1], b as [[] | [] | | [] m2 e2],
    c as [[] | [] | | [] m3 e3]; simpl; try discriminate; try reflexivity;
    change (Pos.compare_cont Eq m1 m2) with (Pos.compare m1 m2);
    change (Pos.compare_cont Eq m2 m3) with (Pos.compare m2 m3);
    change (Pos.compare_cont Eq m1 m3) with (Pos.compare m1 m3);
    destruct (Z.compare_spec e1 e2), (Z.compare_spec e2 e3); simpl;
    try discriminate;
    destruct (Pos.compare_spec m1 m2); simpl; try discriminate;
    destruct (Pos.compare_spec m2 m3); simpl; try discriminate;
    intros _ _;
    destruct (Z.compare_spec e1 e3); simpl; try reflexivity; try lia;
    destruct (Pos.compare_spec m1 m3); simpl; try reflexivity; lia.
Qed.

Lemma lt_le_trans (a b c : number) :
  lt a b = true -> le b c = true -> lt a c = true.
Proof.
  unfold lt, le, SFltb, SFleb.
  destruct a as [[] | [] | | [] m1 e1], b as [[] | [] | | [] m2 e2],
    c as [[] | [] | | [] m3 e3]; simpl; try discriminate; try reflexivity;
    change (Pos.compare_cont Eq m1 m2) with (Pos.compare m1 m2);
    change (Pos.compare_cont Eq m2 m3) with (Pos.compare m2 m3);
    change (Pos.compare_cont Eq m1 m3) with (Pos.compare m1 m3);
    destruct (Z.compare_spec e1 e2), (Z.compare_spec e2 e3); simpl;
    try discriminate;
    destruct (Pos.compare_spec m1 m2); simpl; try discriminate;
    destruct (Pos.compare_spec m2 m3); simpl; try discriminate;
    intros _ _;
    destruct (Z.compare_spec e1 e3); simpl; try reflexivity; try lia;
    destruct (Pos.compare_spec m1 m3); simpl; try reflexivity; lia.
Qed.

Lemma not_lt_le (x y : number) :
  isNaN x = false -> isNaN y = false -> lt x y = false -> le y x = true.
Proof.
  intros Hx Hy. destruct (compare_some x y Hx Hy) as [c Hc].
  unfold lt, le, SFltb, SFleb. rewrite Hc, (compare_antisym _ _ _ Hc).
  destruct c; simpl; congruence.
Qed.

Lemma le_not_lt (x y : number) : le x y = true -> lt y x = false.
Proof.
  unfold lt, le, SFltb, SFleb.
  destruct (SFcompare x y) as [c |] eqn:Hc; try discriminate.
  rewrite (compare_antisym _ _ _ Hc). destruct c; simpl; congruence.
Qed.

Lemma lt_le (x y : number) : lt x y = true -> le x y = true.
Proof.
  unfold lt, le, SFltb, SFleb. destruct (SFcompare x y) as [[] |]; congruence.
Qed.

Lemma le_refl (x : number) : isNaN x = false -> le x x = true.
Proof.
  intros H. unfold le, SFleb. rewrite compare_refl by assumption. reflexivity.
Qed.

Lemma lt_not_nan (x y : number) :
  lt x y = true -> isNaN x = false /\ isNaN y = false.
Proof.
  intros H. apply le_not_nan, lt_le, H.
Qed.

Lemma isNegZero_eq (x : number) : isNegZero x = true -> x = S754_zero true.
Proof. destruct x as [[] | | |]; simpl; congruence. Qed.

Lemma isPosZero_eq (x : number) : isPosZero x = true -> x = S754_zero false.
Proof. destruct x as [[] | | |]; simpl; congruence. Qed.

(** The two zeros are interchangeable in comparisons. *)
Lemma compare_zero_r (x : number) (s t : bool) :
  SFcompare x (S754_zero s) = SFcompare x (S754_zero t).
Proof. destruct x; reflexivity. Qed.

Lemma compare_zero_l (x : number) (s t : bool) :
  SFcompare (S754_zero s) x = SFcompare (S754_zero t) x.
Proof. destruct x; reflexivity. Qed.

(** [Math.max(x, lo)] is one of its arguments, at least [lo], and [===] to
    [x] unless [x < lo]. *)
Lemma Math_max_pair_spec (x lo : number) :
  isNaN x = false -> isNaN lo = false ->
  let m := Math_max [x; lo] in
  isNaN m = false /\ le lo m = true /\
  (lt x lo = true -> m = lo) /\
  (lt x lo = false -> strictEq m x = true /\ forall y, SFcompare y m = SFcompare y x).
Proof.
  intros Hx Hl m. subst m. rewrite Math_max_pair by assumption.
  destruct (lt x lo) eqn:Hlt.
  - split; [assumption |]. split; [apply le_refl; assumption |].
    split; [reflexivity | discriminate].
  - destruct (isPosZero lo && isNegZero x) eqn:Hz.
    + apply andb_true_iff in Hz. destruct Hz as [Hz1 Hz2].
      apply isPosZero_eq in Hz1. apply isNegZero_eq in Hz2. subst.
      split; [reflexivity |]. split; [reflexivity |].
      split; [discriminate |].
      intros _. split; [reflexivity | intros y; apply compare_zero_r].
    + split; [assumption |]. split; [apply not_lt_le; assumption |].
      split; [discriminate |].
      intros _. split; [apply strictEq_refl; assumption | reflexivity].
Qed.

Lemma Math_min_pair_spec (m hi : number) :
  isNaN m = false -> isNaN hi = false ->
  let c := Math_min [m; hi] in
  isNaN c = false /\ le c hi = true /\
  (lt hi m = true -> c = hi) /\
  (lt hi m = false -> strictEq c m = true /\ forall y, SFcompare y c = SFcompare y m).
Proof.
  intros Hm Hh c. subst c. rewrite Math_min_pair by assumption.
  destruct (lt hi m) eqn:Hlt.
  - split; [assumption |]. split; [apply le_refl; assumption |].
    split; [reflexivity | discriminate].
  - destruct (isNegZero hi && isPosZero m) eqn:Hz.
    + apply andb_true_iff in Hz. destruct Hz as [Hz1 Hz2].
      apply isNegZero_eq in Hz1. apply isPosZero_eq in Hz2. subst.
      split; [reflexivity |]. split; [reflexivity |].
      split; [discriminate |].
      intros _. split; [reflexivity | intros y; apply compare_zero_r].
    + split; [assumption |]. split; [apply not_lt_le; assumption |].
      split; [discriminate |].
      intros _. split; [apply strictEq_refl; assumption | reflexivity].
Qed.

Lemma le_congr_r (x a b : number) :
  (forall y, SFcompare y a = SFcompare y b) -> le x a = le x b.
Proof. intros H. unfold le, SFleb. rewrite H. reflexivity. Qed.

Lemma lt_congr_r (x a b : number) :
  (forall y, SFcompare y a = SFcompare y b) -> lt x a = lt x b.
Proof. intros H. unfold lt, SFltb. rewrite H. reflexivity. Qed.

Lemma strictEq_trans_congr (c m x : number) :
  strictEq c m = true -> strictEq m x = true -> strictEq c x = true.
Proof.
  intros H1 H2.
  destruct (strictEq_cases _ _ H1) as [-> | (s & t & -> & ->)]; [assumption |].
  destruct (strictEq_cases _ _ H2) as [<- | (s' & t' & _ & ->)]; reflexivity.
Qed.

(** With proper bounds the clamped value lies within them, is the parsed
    number when that is within them, and is the bound it passes otherwise. *)
Lemma clamp_spec (x lo hi : number) :
  isNaN x = false -> le lo hi = true ->
  let c := clamp x lo hi in
  le lo c = true /\ le c hi = true /\
  (le lo x = true -> le x hi = true -> strictEq c x = true) /\
  (lt x lo = true -> strictEq c lo = true) /\
  (lt hi x = true -> strictEq c hi = true).
Proof.
  intros Hx Hb c. subst c. unfold clamp.
  destruct (le_not_nan _ _ Hb) as [Hlo Hhi].
  destruct (Math_max_pair_spec x lo Hx Hlo) as (Hm & Hlm & Hm1 & Hm2).
  destruct (Math_min_pair_spec (Math_max [x; lo]) hi Hm Hhi) as (Hc & Hch & Hc1 & Hc2).
  set (m := Math_max [x; lo]) in *. set (c := Math_min [m; hi]) in *.
  assert (Hloc : le lo c = true).
  { destruct (lt hi m) eqn:E.
    - rewrite (Hc1 eq_refl). assumption.
    - destruct (Hc2 eq_refl) as [_ Hcong].
      rewrite (le_congr_r lo c m Hcong). assumption. }
  repeat split; try assumption.
  - intros H1 H2.
    destruct (Hm2 (le_not_lt _ _ H1)) as [Hmx Hcong].
    assert (E : lt hi m = false).
    { rewrite (lt_congr_r hi m x Hcong). apply le_not_lt; assumption. }
    destruct (Hc2 E) as [Hcm _].
    apply strictEq_trans_congr with m; assumption.
  - intros H. rewrite (Hm1 H) in *.
    destruct (Hc2 (le_not_lt _ _ Hb)) as [Hcm _]. assumption.
  - intros H.
    assert (E : lt x lo = false).
    { destruct (lt x lo) eqn:E; [| reflexivity].
      pose proof (lt_trans _ _ _ H E) as Hcontra.
      rewrite (le_not_lt _ _ Hb) in Hcontra. discriminate. }
    destruct (Hm2 E) as [_ Hcong].
    assert (E' : lt hi m = true) by (rewrite (lt_congr_r hi m x Hcong); assumption).
    rewrite (Hc1 E'). apply strictEq_refl; assumption.
Qed.

End NumberFacts.

(** ** Facts on strings *)
Module StringFacts.

Lemma append_nil_r (s : string) : (s ++ "")%string = s.
Proof. induction s; simpl; congruence. Qed.

Lemma append_assoc (a b c : string) : ((a ++ b) ++ c = a ++ (b ++ c))%string.
Proof. induction a; simpl; congruence. Qed.

Lemma toLowerCase_nil (s : string) : toLowerCase s = "" -> s = "".
Proof. destruct s; simpl; [reflexivity | discriminate]. Qed.

Lemma prefix_nil (s : string) : prefix "" s = true.
Proof. destruct s; reflexivity. Qed.

Lemma prefix_cons (a b : ascii) (p s : string) :
  prefix (String a p) (String b s) = if Ascii.eqb a b then prefix p s else false.
Proof.
  simpl. destruct (ascii_dec a b) as [-> | Hne].
  - rewrite Ascii.eqb_refl. reflexivity.
  - destruct (Ascii.eqb a b) eqn:E; [| reflexivity].
    apply Ascii.eqb_eq in E. contradiction.
Qed.

(** [pat] is a prefix of [s] exactly when [s] is [pat] followed by the rest
    of [s]. *)
Lemma prefix_drop (pat s : string) :
  prefix pat s = true -> s = (pat ++ drop (String.length pat) s)%string.
Proof.
  revert s. induction pat as [| a pat IH]; intros s H.
  - reflexivity.
  - destruct s as [| b s]; [discriminate |].
    rewrite prefix_cons in H. destruct (Ascii.eqb a b) eqn:E; [| discriminate].
    apply Ascii.eqb_eq in E. subst b. simpl. f_equal. apply IH, H.
Qed.

Lemma prefix_app (pat b : string) : prefix pat (pat ++ b) = true.
Proof.
  induction pat as [| a pat IH]; simpl.
  - apply prefix_nil.
  - destruct (ascii_dec a a); [assumption | contradiction].
Qed.

Lemma drop_app (pat b : string) : drop (String.length pat) (pat ++ b) = b.
Proof. induction pat; simpl; auto. Qed.

Lemma includes_unfold (tok s : string) :
  includes tok s =
    prefix tok s || match s with
                    | EmptyString => false
                    | String _ s' => includes tok s'
                    end.
Proof. destruct s; reflexivity. Qed.

Lemma replace_unfold (tok rep s : string) :
  replace tok rep s =
    if prefix tok s then (rep ++ drop (String.length tok) s)%string
    else match s with
         | EmptyString => EmptyString
         | String c s' => String c (replace tok rep s')
         end.
Proof. destruct s; reflexivity. Qed.

Lemma includes_prefix (tok s : string) :
  prefix tok s = true -> includes tok s = true.
Proof. intros H. rewrite includes_unfold, H. reflexivity. Qed.

Lemma includes_occursIn (tok s : string) :
  includes tok s = true <-> occursIn tok s.
Proof.
  split.
  - induction s as [| c s IH]; rewrite includes_unfold; intros H.
    + rewrite orb_false_r in H. exists "", (drop (String.length tok) "").
      apply (prefix_drop tok ""), H.
    + apply orb_true_iff in H. destruct H as [H | H].
      * exists "", (drop (String.length tok) (String c s)).
        apply (prefix_drop tok (String c s)), H.
      * destruct (IH H) as (a & b & ->). exists (String c a), b. reflexivity.
  - intros (a & b & ->). induction a as [| c a IH].
    + change (includes tok (tok ++ b) = true). apply includes_prefix, prefix_app.
    + change (includes tok (String c (a ++ tok ++ b)) = true).
      rewrite includes_unfold, IH. apply orb_true_r.
Qed.

Lemma not_includes (tok s : string) :
  includes tok s = false <-> ~ occursIn tok s.
Proof.
  rewrite <- includes_occursIn. destruct (includes tok s); split; congruence.
Qed.

Lemma replace_cut (tok s : string) : cut tok s (replace tok "" s).
Proof.
  induction s as [| c s IH]; rewrite replace_unfold.
  - destruct (prefix tok "") eqn:E.
    + right. exists "", (drop (String.length tok) "").
      split; [apply (prefix_drop tok ""), E |].
      split; [intros; simpl; lia | reflexivity].
    + left. split; [| reflexivity].
      apply not_includes. rewrite includes_unfold, E. reflexivity.
  - destruct (prefix tok (String c s)) eqn:E.
    + right. exists "", (drop (String.length tok) (String c s)).
      split; [apply (prefix_drop tok (String c s)), E |].
      split; [intros; simpl; lia | reflexivity].
    + destruct IH as [[Hno ->] | (a & b & Hs & Hmin & ->)].
      * left. split; [| reflexivity].
        apply not_includes. rewrite includes_unfold, E. simpl.
        apply not_includes, Hno.
      * right. exists (String c a), b.
        split; [rewrite Hs at 1; reflexivity |].
        split; [| reflexivity].
        intros a' b' Ha'. destruct a' as [| c' a'].
        -- simpl in Ha'. rewrite Ha', prefix_app in E. discriminate.
        -- simpl in Ha'. injection Ha' as _ Ha'.
           simpl. apply le_n_S, (Hmin a' b'), Ha'.
Qed.

Lemma replace_absent (tok s : string) :
  includes tok s = false -> replace tok "" s = s.
Proof.
  induction s as [| c s IH]; rewrite includes_unfold, replace_unfold; intros H;
    apply orb_false_iff in H; destruct H as [H1 H2]; rewrite H1.
  - reflexivity.
  - f_equal. apply IH, H2.
Qed.

End StringFacts.

(** ** Facts on [sanitizeId] *)
Module SanitizeFacts.

Import StringFacts.

Lemma prefix_before_underscore (r a b : string) :
  lacks "_" r = true -> atUnderscore b ->
  prefix r (a ++ b) = true -> prefix r a = true.
Proof.
  revert a. induction r as [| c r IH]; intros a Hr Hb H.
  - apply prefix_nil.
  - change (negb (Ascii.eqb "_" c) && lacks "_" r = true) in Hr.
    apply andb_true_iff in Hr. destruct Hr as [Hc Hr].
    destruct a as [| d a]; simpl append in H.
    + destruct Hb as [-> | [b' ->]]; [discriminate |].
      rewrite prefix_cons in H. rewrite Ascii.eqb_sym in Hc.
      destruct (Ascii.eqb c "_"); discriminate.
    + rewrite prefix_cons in *. destruct (Ascii.eqb c d); [| discriminate].
      apply IH; assumption.
Qed.

(** A token [_word] that does not occur in [a] cannot start inside [a] and
    run into a [b] that begins with an underscore: the replacement passes
    over [a]. *)
Lemma replace_skip (r a b : string) :
  lacks "_" r = true -> atUnderscore b ->
  includes (String "_" r) a = false ->
  replace (String "_" r) "" (a ++ b) = (a ++ replace (String "_" r) "" b)%string.
Proof.
  intros Hr Hb. induction a as [| c a IH]; intros Ha.
  - reflexivity.
  - rewrite includes_unfold in Ha. apply orb_false_iff in Ha.
    destruct Ha as [Hp Ha].
    assert (E : prefix (String "_" r) (String c (a ++ b)) = false).
    { rewrite prefix_cons in *. destruct (Ascii.eqb "_" c); [| reflexivity].
      destruct (prefix r (a ++ b)) eqn:E; [| reflexivity].
      rewrite (prefix_before_underscore r a b Hr Hb E) in Hp. discriminate. }
    simpl append. rewrite replace_unfold, E. f_equal. apply IH, Ha.
Qed.

Lemma atUnderscore_nil : atUnderscore "".
Proof. left; reflexivity. Qed.

Lemma atUnderscore_cons (b : string) : atUnderscore (String "_" b).
Proof. right; eexists; reflexivity. Qed.

Create HintDb sanitize.
#[local] Hint Resolve atUnderscore_nil atUnderscore_cons : sanitize.

(** One suffix replacement passes over [a] and is worked out on what
    follows it. *)
Ltac pass_over word :=
  rewrite (replace_skip word) by (auto with sanitize);
  match goal with
  | |- context [replace (String "_" word) "" ?b] =>
      let v := eval vm_compute in (replace (String "_" word) "" b) in
      change (replace (String "_" word) "" b) with v
  end.

(** The four suffix replacements, on a string whose part before the suffix
    holds none of the suffix tokens. *)
Lemma strip_suffix (a suf : string) :
  In suf ("" :: suffixTokens) ->
  (forall t, In t suffixTokens -> includes t a = false) ->
  replace "_novel" ""
    (replace "_openai" ""
       (replace "_textgenerationwebui" ""
          (replace "_counter" "" (a ++ suf)))) = a.
Proof.
  intros Hsuf Ha.
  assert (H1 : includes "_counter" a = false) by (apply Ha; simpl; auto).
  assert (H2 : includes "_textgenerationwebui" a = false) by (apply Ha; simpl; auto).
  assert (H3 : includes "_openai" a = false) by (apply Ha; simpl; auto).
  assert (H4 : includes "_novel" a = false) by (apply Ha; simpl; auto).
  simpl in Hsuf.
  destruct Hsuf as [<- | [<- | [<- | [<- | [<- | []]]]]];
    pass_over "counter"; pass_over "textgenerationwebui";
    pass_over "openai"; pass_over "novel";
    apply append_nil_r.
Qed.

(** The two prefix replacements. *)
Lemma strip_prefix (pre stem : string) :
  In pre ("" :: prefixTokens) ->
  (forall t, In t prefixTokens -> includes t stem = false) ->
  replace "oai_" "" (replace "openai_" "" (pre ++ stem)) = stem.
Proof.
  intros Hpre Hstem.
  assert (H1 : includes "openai_" stem = false) by (apply Hstem; simpl; auto).
  assert (H2 : includes "oai_" stem = false) by (apply Hstem; simpl; auto).
  simpl in Hpre. destruct Hpre as [<- | [<- | [<- | []]]].
  - simpl append. rewrite (replace_absent _ _ H1). apply replace_absent, H2.
  - rewrite (replace_unfold "openai_"), prefix_app, (drop_app "openai_" stem).
    change ("" ++ stem)%string with stem. apply replace_absent, H2.
  - rewrite (replace_absent "openai_") by (simpl; rewrite H1; reflexivity).
    rewrite (replace_unfold "oai_"), prefix_app, (drop_app "oai_" stem).
    reflexivity.
Qed.

(** A stem that holds no token, and after a prefix does not begin with a
    suffix word, is what is left of prefix + stem + suffix. *)
Lemma sanitizeId_affixes (pre stem suf : string) :
  In pre ("" :: prefixTokens) ->
  In suf ("" :: suffixTokens) ->
  (forall t, In t tokens -> ~ occursIn t stem) ->
  (pre <> "" -> forall w, In w suffixWords -> prefix w stem = false) ->
  sanitizeId (pre ++ stem ++ suf) = stem.
Proof.
  intros Hpre Hsuf Hstem Hstart.
  assert (Hinc : forall t, In t tokens -> includes t stem = false).
  { intros t Ht. apply not_includes, Hstem, Ht. }
  assert (H1 : includes "_counter" stem = false) by (apply Hinc; simpl; auto).
  assert (H2 : includes "_textgenerationwebui" stem = false) by (apply Hinc; simpl; auto).
  assert (H3 : includes "_openai" stem = false) by (apply Hinc; simpl; auto).
  assert (H4 : includes "_novel" stem = false) by (apply Hinc; simpl; auto).
  assert (Hin : forall t, In t suffixTokens -> includes t (pre ++ stem) = false).
  { intros t Ht. simpl in Hpre. destruct Hpre as [<- | Hpre].
    - simpl append. apply Hinc. unfold tokens. apply in_or_app. left. exact Ht.
    - assert (Hne : pre <> "").
      { destruct Hpre as [<- | [<- | []]]; discriminate. }
      pose proof (Hstart Hne "counter" ltac:(simpl; auto)) as S1.
      pose proof (Hstart Hne "textgenerationwebui" ltac:(simpl; auto)) as S2.
      pose proof (Hstart Hne "openai" ltac:(simpl; auto)) as S3.
      pose proof (Hstart Hne "novel" ltac:(simpl; auto)) as S4.
      simpl in Ht.
      destruct Hpre as [<- | [<- | []]];
        destruct Ht as [<- | [<- | [<- | [<- | []]]]]; simpl;
        rewrite ?S1, ?S2, ?S3, ?S4, ?H1, ?H2, ?H3, ?H4; reflexivity. }
  unfold sanitizeId. rewrite <- append_assoc.
  rewrite (strip_suffix (pre ++ stem) suf Hsuf Hin).
  apply strip_prefix; [assumption |].
  intros t Ht. apply Hinc. unfold tokens. apply in_or_app. right. exact Ht.
Qed.

(** Every call of [sanitizeId] is six cuts in a row. *)
Lemma sanitizeId_cuts (raw : string) :
  exists s1 s2 s3 s4 s5,
    cut "_counter" raw s1 /\ cut "_textgenerationwebui" s1 s2 /\
    cut "_openai" s2 s3 /\ cut "_novel" s3 s4 /\
    cut "openai_" s4 s5 /\ cut "oai_" s5 (sanitizeId raw).
Proof.
  unfold sanitizeId. do 5 eexists. repeat split; apply replace_cut.
Qed.

End SanitizeFacts.

(** ** Facts on the document *)
Module DomFacts.

Lemma ancestry_head (p : Dom.Path) :
  forall (n : Dom.Node) (above : list Dom.Node) (m : Dom.Node) (rest : list Dom.Node),
    Dom.ancestry p n above = m :: rest -> Dom.getNode p n = Some m.
Proof.
  induction p as [| i p IH]; intros n above m rest H; simpl in *.
  - congruence.
  - destruct n as [t | e cs]; [discriminate |].
    destruct (nth_error cs i) as [c |]; [| discriminate].
    apply (IH _ _ _ _ H).
Qed.

Lemma chain_getElem (d : Dom.Document) (c : Dom.Path) (e : Dom.Elem)
      (cs rest : list Dom.Node) :
  Dom.chainOf d c = Dom.ElementNode e cs :: rest -> Dom.getElem d c = Some e.
Proof.
  intros H. unfold Dom.getElem. unfold Dom.chainOf in H.
  rewrite (ancestry_head _ _ _ _ _ H). reflexivity.
Qed.

Lemma nth_error_mapNth {A : Type} (g : A -> A) (l : list A) :
  forall i, nth_error (Dom.mapNth i g l) i = option_map g (nth_error l i).
Proof.
  induction l as [| x l IH]; intros [| i]; simpl; auto.
Qed.

Lemma getNode_update (f : Dom.Elem -> Dom.Elem) (p : Dom.Path) :
  forall n, Dom.getNode p (Dom.update p f n) = option_map (onElem f) (Dom.getNode p n).
Proof.
  induction p as [| i p IH]; intros [t | e cs]; simpl; try reflexivity.
  rewrite nth_error_mapNth. destruct (nth_error cs i) as [c |]; simpl; auto.
Qed.

Lemma panelNode_updateElem (c : Dom.Path) (f : Dom.Elem -> Dom.Elem) (d : Dom.Document) :
  Dom.panelNode (Dom.updateElem c f d) = Dom.update c f (Dom.panelNode d).
Proof. destruct c; reflexivity. Qed.

(** Writing to the element at [c] changes that element by [f]. *)
Lemma getElem_updateElem (c : Dom.Path) (f : Dom.Elem -> Dom.Elem) (d : Dom.Document) :
  Dom.getElem (Dom.updateElem c f d) c = option_map f (Dom.getElem d c).
Proof.
  unfold Dom.getElem. rewrite panelNode_updateElem, getNode_update.
  destruct (Dom.getNode c (Dom.panelNode d)) as [[t | e cs] |]; reflexivity.
Qed.

(** A change of the panel's inline style changes nothing else. *)
Lemma getElem_setPanelStyle (f : Dom.Style -> Dom.Style) (d : Dom.Document) (c : Dom.Path) :
  option_map unstyled (Dom.getElem (setPanelStyle f d) c)
  = option_map unstyled (Dom.getElem d c).
Proof.
  destruct c as [| i c]; [reflexivity |].
  unfold Dom.getElem, setPanelStyle. reflexivity.
Qed.

Lemma getElem_shown (d : Dom.Document) (c : Dom.Path) :
  option_map unstyled (Dom.getElem (shown d) c) = option_map unstyled (Dom.getElem d c).
Proof.
  unfold shown. destruct (_ =? _)%string; [| reflexivity].
  rewrite !getElem_setPanelStyle. reflexivity.
Qed.

End DomFacts.

(** ** Facts on the enumerator *)
Module EnumFacts.

Import DomFacts.

Lemma push_fold {A B : Type} (f : A -> option B) (l : list A) :
  forall acc,
    fold_left (fun acc c => match f c with
                            | Some s => (acc ++ [s])%list
                            | None => acc
                            end) l acc
    = (acc ++ flat_map (fun c => match f c with
                                 | Some s => [s]
                                 | None => []
                                 end) l)%list.
Proof.
  induction l as [| c l IH]; intros acc; simpl.
  - symmetry. apply app_nil_r.
  - rewrite IH. destruct (f c); simpl.
    + rewrite <- app_assoc. reflexivity.
    + reflexivity.
Qed.

Lemma enumerate_fst (d : Dom.Document) :
  fst (enumerateSamplerParameters d) = enumerated d.
Proof.
  cbv beta iota zeta delta [fst enumerateSamplerParameters].
  rewrite push_fold. reflexivity.
Qed.

Lemma enumerate_snd (d : Dom.Document) :
  snd (enumerateSamplerParameters d)
  = setPanelStyle (setDisplay (Dom.display (Dom.getComputedStyle (Dom.panelElem d))))
      (setPanelStyle (setOpacity "") (setPanelStyle (setVisibility "") (shown d))).
Proof. reflexivity. Qed.

(** The enumerator leaves every element as it was, the inline style of the
    panel apart. *)
Lemma getElem_enumerate (d : Dom.Document) (c : Dom.Path) :
  option_map unstyled (Dom.getElem (snd (enumerateSamplerParameters d)) c)
  = option_map unstyled (Dom.getElem d c).
Proof.
  rewrite enumerate_snd, !getElem_setPanelStyle. apply getElem_shown.
Qed.

Lemma In_enumerated (d : Dom.Document) (p : SamplerParameter) :
  In p (fst (enumerateSamplerParameters d)) <->
  exists c, In c (rangeSliders d) /\ samplerOf (shown d) c = Some p.
Proof.
  rewrite enumerate_fst. unfold enumerated. rewrite in_flat_map. split.
  - intros (c & Hc & Hp). exists c. split; [assumption |].
    destruct (samplerOf (shown d) c) as [q |]; simpl in Hp; [| contradiction].
    destruct Hp as [-> | []]. reflexivity.
  - intros (c & Hc & Hp). exists c. split; [assumption |].
    rewrite Hp. left; reflexivity.
Qed.

(** What a pushed sampler records of its control. *)
Lemma samplerOf_Some (d : Dom.Document) (c : Dom.Path) (p : SamplerParameter) :
  samplerOf d c = Some p ->
  exists e,
    Dom.getElem d c = Some e /\
    Dom.instanceofHTMLInputElement e = true /\
    Dom.closest [Dom.ById "openai_settings"] (Dom.chainOf d c) = None /\
    titleOf d c = Some (name p) /\
    p = {| id := sanitizeId (Dom.id e);
           name := name p;
           max := parseFloat (Dom.max e);
           min := parseFloat (Dom.min e);
           value := parseFloat (Dom.value e);
           checked := Dom.checked e;
           type := Dom.type e;
           control := c |} /\
    id p <> "" /\ name p <> "".
Proof.
  unfold samplerOf, titleOf.
  destruct (Dom.chainOf d c) as [| [t | e cs] rest] eqn:Hchain; try discriminate.
  destruct (Dom.instanceofHTMLInputElement e) eqn:Hin; cbn [negb]; [| discriminate].
  destruct (Dom.closest [Dom.ById "openai_settings"] (Dom.ElementNode e cs :: rest))
    eqn:Hclosest; [discriminate |].
  destruct (option_map _ (getTitleParent _)) as [nm |] eqn:Hname; [| discriminate].
  cbv zeta. cbn [id name].
  destruct (sanitizeId (Dom.id e) =? "")%string eqn:Hid; cbn [orb]; [discriminate |].
  destruct (nm =? "")%string eqn:Hnm; [discriminate |].
  intros H. injection H as <-. cbn [id name].
  exists e. split; [apply (chain_getElem _ _ _ _ _ Hchain) |].
  repeat split; auto.
  - apply String.eqb_neq, Hid.
  - apply String.eqb_neq, Hnm.
Qed.

(** A control whose sanitized id or whose name is empty is passed over. *)
Lemma samplerOf_None (d : Dom.Document) (c : Dom.Path) (e : Dom.Elem) :
  Dom.getElem d c = Some e ->
  sanitizeId (Dom.id e) = "" \/ titleOf d c = None \/ titleOf d c = Some "" ->
  samplerOf d c = None.
Proof.
  intros He Hbad. destruct (samplerOf d c) as [p |] eqn:Hp; [| reflexivity].
  destruct (samplerOf_Some _ _ _ Hp) as (e' & He' & _ & _ & Ht & Heq & Hid & Hnm).
  rewrite He in He'. injection He' as <-.
  rewrite Heq in Hid. simpl in Hid.
  destruct Hbad as [H | [H | H]]; try contradiction; rewrite Ht in H;
    [discriminate | injection H as H; contradiction].
Qed.

Lemma enumerated_nonempty (d : Dom.Document) (p : SamplerParameter) :
  In p (fst (enumerateSamplerParameters d)) -> id p <> "" /\ name p <> "".
Proof.
  intros H. apply In_enumerated in H. destruct H as (c & _ & Hp).
  destruct (samplerOf_Some _ _ _ Hp) as (e & _ & _ & _ & _ & _ & Hid & Hnm).
  split; assumption.
Qed.

(** A sampler of the list is a snapshot of its control in the document the
    callback started from. *)
Lemma enumerated_control (d : Dom.Document) (p : SamplerParameter) :
  In p (fst (enumerateSamplerParameters d)) ->
  exists e,
    Dom.getElem d (control p) = Some e /\
    id p = sanitizeId (Dom.id e) /\
    max p = parseFloat (Dom.max e) /\ min p = parseFloat (Dom.min e) /\
    value p = parseFloat (Dom.value e) /\
    checked p = Dom.checked e /\ type p = Dom.type e.
Proof.
  intros H. apply In_enumerated in H. destruct H as (c & _ & Hp).
  destruct (samplerOf_Some _ _ _ Hp) as (e & He & _ & _ & _ & Heq & _ & _).
  pose proof (getElem_shown d c) as Hs. rewrite He in Hs.
  destruct (Dom.getElem d c) as [e0 |] eqn:He0; [| discriminate].
  cbn [option_map] in Hs.
  assert (Hu : unstyled e = unstyled e0) by congruence. clear Hs.
  assert (Hc : control p = c) by (rewrite Heq; reflexivity).
  exists e0. rewrite Hc. split; [assumption |].
  rewrite Heq. simpl.
  assert (Hf : forall (A : Type) (g : Dom.Elem -> A),
             (forall x, g (unstyled x) = g x) -> g e = g e0).
  { intros A g Hg. rewrite <- (Hg e), <- (Hg e0), Hu. reflexivity. }
  repeat split.
  - apply (Hf _ (fun x => sanitizeId (Dom.id x))). reflexivity.
  - apply (Hf _ (fun x => parseFloat (Dom.max x))). reflexivity.
  - apply (Hf _ (fun x => parseFloat (Dom.min x))). reflexivity.
  - apply (Hf _ (fun x => parseFloat (Dom.value x))). reflexivity.
  - apply (Hf _ Dom.checked). reflexivity.
  - apply (Hf _ Dom.type). reflexivity.
Qed.

End EnumFacts.

(** ** Facts on the callbacks *)
Module CallbackFacts.

Import DomFacts EnumFacts.

Lemma find_first {A : Type} (f : A -> bool) (l : list A) (x : A) :
  find f l = Some x ->
  exists l1 l2, l = (l1 ++ x :: l2)%list /\ f x = true /\
                forall y, In y l1 -> f y = false.
Proof.
  induction l as [| a l IH]; simpl; [discriminate |].
  destruct (f a) eqn:Fa.
  - intros H. injection H as <-. exists [], l. simpl. repeat split; auto.
    intros y [].
  - intros H. destruct (IH H) as (l1 & l2 & -> & Hx & Hl1).
    exists (a :: l1), l2. repeat split; auto.
    intros y [<- | Hy]; auto.
Qed.

Lemma matchesName_true (n : string) (p : SamplerParameter) :
  matchesName n p = true <-> named n p.
Proof.
  unfold matchesName, named. rewrite orb_true_iff, !String.eqb_eq. reflexivity.
Qed.

Lemma matchesName_false (n : string) (p : SamplerParameter) :
  matchesName n p = false <-> ~ named n p.
Proof.
  rewrite <- matchesName_true. destruct (matchesName n p); split; congruence.
Qed.

(** No enumerated parameter answers to the empty name. *)
Lemma lookup_nonempty (pg : Page) (s : string) (p : SamplerParameter) :
  lookup pg s = Some p -> s <> "".
Proof.
  unfold lookup. intros H ->. apply find_some in H. destruct H as [Hin Hm].
  apply enumerated_nonempty in Hin. destruct Hin as [Hid Hnm].
  apply matchesName_true in Hm. change (normalize "") with "" in Hm.
  destruct Hm as [Hm | Hm]; apply StringFacts.toLowerCase_nil in Hm; contradiction.
Qed.

Lemma ToBoolean_string (s : string) : s <> "" -> ToBoolean (VString s) = true.
Proof.
  intros H. simpl. apply String.eqb_neq in H. rewrite H. reflexivity.
Qed.

Lemma get_unfold (pg : Page) (s : string) :
  s <> "" ->
  sampler_get (VString s) pg =
    match lookup pg s with
    | None => (Throw (ParameterNotFound (normalize s)), afterLookup pg)
    | Some p => (Return (readout p), afterLookup pg)
    end.
Proof.
  intros Hs. unfold sampler_get, lookup, afterLookup, readout, normalize.
  rewrite (ToBoolean_string s Hs). cbn [negb].
  destruct (enumerateSamplerParameters (document pg)) as [params d']. cbn [fst snd].
  destruct (find _ params); reflexivity.
Qed.

Lemma set_unfold (isTrueBoolean : string -> bool) (sanitize : Dom.Elem -> string -> string)
      (pg : Page) (s : string) (v : JsValue) :
  s <> "" ->
  sampler_set isTrueBoolean sanitize (VString s) v pg =
    match lookup pg s with
    | None => (Throw (ParameterNotFound (normalize s)), afterLookup pg)
    | Some p =>
        if negb (ToBoolean v) then (Throw ValueRequired, afterLookup pg)
        else
          match v with
          | VString v =>
              if (type p =? "checkbox")%string then
                (Return "", written p (setChecked (isTrueBoolean v)) pg)
              else if isNaN (parseFloat v) || negb (isFinite (parseFloat v)) then
                (Throw ValueNotFinite, afterLookup pg)
              else
                (Return "",
                 written p (setValue sanitize (toString (clamp (parseFloat v) (min p) (max p)))) pg)
          | _ => (Throw ValueNotString, afterLookup pg)
          end
    end.
Proof.
  intros Hs. unfold sampler_set, lookup, written, normalize, clamp. unfold afterLookup.
  rewrite (ToBoolean_string s Hs). cbn [negb].
  destruct (enumerateSamplerParameters (document pg)) as [params d']. cbn [fst snd].
  destruct (find _ params) as [p |]; [| reflexivity].
  destruct (negb (ToBoolean v)); [reflexivity |].
  destruct v; try reflexivity.
Qed.

(** The control of an enumerated parameter in the page left by the lookup:
    the element the callback started from, its inline style apart. *)
Lemma control_afterLookup (pg : Page) (p : SamplerParameter) :
  In p (fst (enumerateSamplerParameters (document pg))) ->
  exists e e',
    Dom.getElem (document pg) (control p) = Some e /\
    Dom.getElem (document (afterLookup pg)) (control p) = Some e' /\
    unstyled e' = unstyled e /\
    max p = parseFloat (Dom.max e) /\ min p = parseFloat (Dom.min e) /\
    value p = parseFloat (Dom.value e) /\
    checked p = Dom.checked e /\ type p = Dom.type e.
Proof.
  intros Hin. destruct (enumerated_control _ _ Hin) as (e & He & _ & H).
  pose proof (getElem_enumerate (document pg) (control p)) as Hs.
  rewrite He in Hs. unfold afterLookup. cbn [document].
  destruct (Dom.getElem (snd _) (control p)) as [e' |]; [| discriminate].
  cbn [option_map] in Hs. exists e, e'.
  split; [assumption |]. split; [reflexivity |]. split; [congruence | exact H].
Qed.

Lemma lookup_In (pg : Page) (s : string) (p : SamplerParameter) :
  lookup pg s = Some p -> In p (fst (enumerateSamplerParameters (document pg))).
Proof. intros H. apply find_some in H. apply H. Qed.

(** The page after a write: the control holds [f] of what it held, and the
    event, dispatched after the write, finds it so. *)
Lemma written_spec (pg : Page) (p : SamplerParameter) (f : Dom.Elem -> Dom.Elem) (e' : Dom.Elem) :
  Dom.getElem (document (afterLookup pg)) (control p) = Some e' ->
  Dom.getElem (document (written p f pg)) (control p) = Some (f e') /\
  dispatched (written p f pg)
  = (dispatched pg ++ [mkDispatched (control p) "input" true (Some (f e'))])%list.
Proof.
  intros He. unfold written, dispatchEvent. cbn [document dispatched].
  rewrite getElem_updateElem, He. split; reflexivity.
Qed.

(** A lookup changes no value and no checked state. *)
Lemma afterLookup_frame (pg : Page) (c : Dom.Path) :
  option_map Dom.value (Dom.getElem (document (afterLookup pg)) c)
  = option_map Dom.value (Dom.getElem (document pg) c)
  /\ option_map Dom.checked (Dom.getElem (document (afterLookup pg)) c)
     = option_map Dom.checked (Dom.getElem (document pg) c).
Proof.
  pose proof (getElem_enumerate (document pg) c) as H.
  unfold afterLookup. cbn [document].
  destruct (Dom.getElem (snd _) c) as [e1 |], (Dom.getElem (document pg) c) as [e2 |];
    try discriminate; [| split; reflexivity].
  cbn [option_map] in *.
  assert (Hu : unstyled e1 = unstyled e2) by congruence.
  split; f_equal.
  - change (Dom.value (unstyled e1) = Dom.value (unstyled e2)). rewrite Hu. reflexivity.
  - change (Dom.checked (unstyled e1) = Dom.checked (unstyled e2)). rewrite Hu. reflexivity.
Qed.

Lemma not_finite (x : number) :
  isNaN x = true \/ isFinite x = false -> isNaN x || negb (isFinite x) = true.
Proof. destruct x; simpl; intros [H | H]; congruence. Qed.

Lemma finite_passes (x : number) :
  isFinite x = true -> isNaN x || negb (isFinite x) = false /\ isNaN x = false.
Proof. destruct x; simpl; intros H; split; congruence. Qed.

End CallbackFacts.

(** ** Properties of the commands *)

Import StringFacts NumberFacts DomFacts EnumFacts CallbackFacts SanitizeFacts.

Section Commands.

Variable isTrueBoolean : string -> bool.
Variable sanitize : Dom.Elem -> string -> string.

(** C10. In [sampler-set] the lookup comes before the value is looked at:
    with a valid name (a non-empty string) that matches no parameter and a
    value that is absent or not a string, the command fails with NotFound,
    not with the value-required InvalidArgument, and it leaves the page as
    one enumeration leaves it. *)
Theorem set_lookup_before_value (pg : Page) (s : string) (v : JsValue) :
  s <> "" ->
  lookup pg s = None ->
  ToBoolean v = false \/ typeofString v = false ->
  sampler_set isTrueBoolean sanitize (VString s) v pg
  = (Throw (ParameterNotFound (normalize s)), afterLookup pg)
  /\ kind (ParameterNotFound (normalize s)) = NotFound
  /\ ParameterNotFound (normalize s) <> ValueRequired
  /\ ParameterNotFound (normalize s) <> ValueNotString.
Proof.
  intros Hs Hl _. rewrite (set_unfold _ _ _ _ _ Hs), Hl.
  repeat split; discriminate.
Qed.

(** C9, amended. [sampler-set] fails with InvalidArgument when the name is
    absent or not a string, and when the name finds a parameter and the
    value is absent or not a string. *)
Theorem set_invalid_argument (pg : Page) (name v : JsValue) :
  (ToBoolean name = false \/ typeofString name = false)
  \/ (exists s p, name = VString s /\ lookup pg s = Some p
                  /\ (ToBoolean v = false \/ typeofString v = false)) ->
  exists f, fst (sampler_set isTrueBoolean sanitize name v pg) = Throw f
            /\ kind f = InvalidArgument.
Proof.
  intros [Hname | (s & p & -> & Hl & Hv)].
  - unfold sampler_set. destruct (ToBoolean name) eqn:Hb; cbn [negb].
    + destruct Hname as [Hname | Hname]; [discriminate |].
      destruct name; try discriminate; exists NameNotString; split; reflexivity.
    + exists NameRequired. split; reflexivity.
  - rewrite (set_unfold _ _ _ _ _ (lookup_nonempty _ _ _ Hl)), Hl.
    destruct (ToBoolean v) eqn:Hb; cbn [negb].
    + destruct Hv as [Hv | Hv]; [discriminate |].
      destruct v; try discriminate; exists ValueNotString; split; reflexivity.
    + exists ValueRequired. split; reflexivity.
Qed.

(** C2, amended. For a name that is a non-empty string, both commands
    compare the trimmed, lower-cased name with the lower-cased name and id
    of each enumerated parameter, and take the first parameter, in
    enumeration order, that one of them equals; when there is none they
    fail with NotFound. *)
Theorem lookup_first_match (pg : Page) (s : string) :
  s <> "" ->
  let n := toLowerCase (trim s) in
  let parameters := fst (enumerateSamplerParameters (document pg)) in
  match lookup pg s with
  | Some p =>
      (exists before after,
          parameters = (before ++ p :: after)%list
          /\ named n p
          /\ forall q, In q before -> ~ named n q)
      /\ sampler_get (VString s) pg = (Return (readout p), afterLookup pg)
      /\ forall v, v <> "" ->
           sampler_set isTrueBoolean sanitize (VString s) (VString v) pg =
             if (type p =? "checkbox")%string then
               (Return "", written p (setChecked (isTrueBoolean v)) pg)
             else if isFinite (parseFloat v) then
               (Return "",
                written p (setValue sanitize (toString (clamp (parseFloat v) (min p) (max p)))) pg)
             else (Throw ValueNotFinite, afterLookup pg)
  | None =>
      (forall q, In q parameters -> ~ named n q)
      /\ sampler_get (VString s) pg = (Throw (ParameterNotFound n), afterLookup pg)
      /\ (forall v, sampler_set isTrueBoolean sanitize (VString s) v pg
                    = (Throw (ParameterNotFound n), afterLookup pg))
      /\ kind (ParameterNotFound n) = NotFound
  end.
Proof.
  intros Hs n parameters.
  destruct (lookup pg s) as [p |] eqn:Hl.
  - split; [| split].
    + destruct (find_first _ _ _ Hl) as (l1 & l2 & Hsplit & Hp & Hl1).
      exists l1, l2. split; [exact Hsplit |].
      split; [apply matchesName_true, Hp |].
      intros q Hq. apply matchesName_false, Hl1, Hq.
    + rewrite (get_unfold _ _ Hs), Hl. reflexivity.
    + intros v Hv. rewrite (set_unfold _ _ _ _ _ Hs), Hl.
      rewrite (ToBoolean_string v Hv). cbn [negb].
      destruct (type p =? "checkbox")%string; [reflexivity |].
      destruct (parseFloat v); reflexivity.
  - split; [| split; [| split]].
    + intros q Hq. apply matchesName_false.
      apply (find_none _ _ Hl q Hq).
    + rewrite (get_unfold _ _ Hs), Hl. reflexivity.
    + intros v. rewrite (set_unfold _ _ _ _ _ Hs), Hl. reflexivity.
    + reflexivity.
Qed.

End Commands.

(** C3. When [sampler-get] finds a parameter it returns the string of the
    control's checked state, ["true"] or ["false"], for a checkbox, and the
    string of the control's numeric value otherwise; no element of the page
    changes its value or its checked state, and no event is dispatched. *)
Theorem get_returns_readout (pg : Page) (s : string) (p : SamplerParameter) :
  lookup pg s = Some p ->
  let r := sampler_get (VString s) pg in
  (exists e,
      Dom.getElem (document pg) (control p) = Some e
      /\ type p = Dom.type e
      /\ (type p = "checkbox" ->
          fst r = Return (String_boolean (Dom.checked e))
          /\ (fst r = Return "true" \/ fst r = Return "false"))
      /\ (type p <> "checkbox" ->
          fst r = Return (toString (parseFloat (Dom.value e)))))
  /\ (forall c, option_map Dom.value (Dom.getElem (document (snd r)) c)
                = option_map Dom.value (Dom.getElem (document pg) c)
                /\ option_map Dom.checked (Dom.getElem (document (snd r)) c)
                   = option_map Dom.checked (Dom.getElem (document pg) c))
  /\ dispatched (snd r) = dispatched pg.
Proof.
  intros Hl r. subst r.
  rewrite (get_unfold _ _ (lookup_nonempty _ _ _ Hl)), Hl. cbn [fst snd].
  split; [| split].
  - destruct (control_afterLookup _ _ (lookup_In _ _ _ Hl))
      as (e & e' & He & _ & _ & _ & _ & Hv & Hc & Ht).
    exists e. split; [exact He |]. split; [exact Ht |]. unfold readout. split.
    + intros Hty. rewrite Hty, String.eqb_refl, <- Hc.
      split; [reflexivity |]. destruct (checked p); [left | right]; reflexivity.
    + intros Hty. apply String.eqb_neq in Hty. rewrite Hty, Hv. reflexivity.
  - intros c. apply afterLookup_frame.
  - reflexivity.
Qed.

Section Writes.

Variable isTrueBoolean : string -> bool.
Variable sanitize : Dom.Elem -> string -> string.

(** C5, amended. On a checkbox parameter [sampler-set] does not fail on any
    non-empty value string: it sets the control's checked state to what the
    host's recognition of a true literal says of the string, true for a
    recognized token and false for every other string, without parsing a
    number, and then dispatches a bubbling input event on the control. *)
Theorem set_checkbox (pg : Page) (s v : string) (p : SamplerParameter) :
  lookup pg s = Some p ->
  type p = "checkbox" ->
  v <> "" ->
  let r := sampler_set isTrueBoolean sanitize (VString s) (VString v) pg in
  fst r = Return ""
  /\ option_map Dom.checked (Dom.getElem (document (snd r)) (control p))
     = Some (isTrueBoolean v)
  /\ exists e,
       Dom.getElem (document (afterLookup pg)) (control p) = Some e
       /\ Dom.getElem (document (snd r)) (control p)
          = Some (setChecked (isTrueBoolean v) e)
       /\ dispatched (snd r)
          = (dispatched pg
             ++ [mkDispatched (control p) "input" true
                   (Some (setChecked (isTrueBoolean v) e))])%list.
Proof.
  intros Hl Hty Hv r. subst r.
  rewrite (set_unfold _ _ _ _ _ (lookup_nonempty _ _ _ Hl)), Hl.
  rewrite (ToBoolean_string v Hv). cbn [negb]. rewrite Hty, String.eqb_refl. cbn [fst snd].
  destruct (control_afterLookup _ _ (lookup_In _ _ _ Hl)) as (e0 & e & _ & He & _).
  destruct (written_spec pg p (setChecked (isTrueBoolean v)) e He) as [Hw Hd].
  split; [reflexivity |]. split.
  - rewrite Hw. reflexivity.
  - exists e. repeat split; assumption.
Qed.

(** C4, amended. On a range or number parameter, a non-empty value string
    that parses to NaN or to an infinity makes [sampler-set] fail with
    InvalidValue; no element changes its value or checked state and no event
    is dispatched. *)
Theorem set_not_finite (pg : Page) (s v : string) (p : SamplerParameter) :
  lookup pg s = Some p ->
  type p <> "checkbox" ->
  v <> "" ->
  isNaN (parseFloat v) = true \/ isFinite (parseFloat v) = false ->
  let r := sampler_set isTrueBoolean sanitize (VString s) (VString v) pg in
  fst r = Throw ValueNotFinite
  /\ kind ValueNotFinite = InvalidValue
  /\ (forall c, option_map Dom.value (Dom.getElem (document (snd r)) c)
                = option_map Dom.value (Dom.getElem (document pg) c)
                /\ option_map Dom.checked (Dom.getElem (document (snd r)) c)
                   = option_map Dom.checked (Dom.getElem (document pg) c))
  /\ dispatched (snd r) = dispatched pg.
Proof.
  intros Hl Hty Hv Hnf r. subst r.
  rewrite (set_unfold _ _ _ _ _ (lookup_nonempty _ _ _ Hl)), Hl.
  rewrite (ToBoolean_string v Hv). cbn [negb].
  apply String.eqb_neq in Hty. rewrite Hty, (not_finite _ Hnf). cbn [fst snd].
  split; [reflexivity |]. split; [reflexivity |]. split; [| reflexivity].
  intros c. apply afterLookup_frame.
Qed.

(** C1, amended. On a range or number parameter whose bounds are numbers
    with min <= max, a value string that parses to a finite number makes
    [sampler-set] assign to the control's value the string of the parsed
    number clamped into [min, max]: a number within the bounds, the parsed
    number itself when that is within them, and the bound it passes
    otherwise.  The control then holds what its value sanitization makes
    of that string, the string itself where the sanitization keeps it, and
    the command dispatches a bubbling input event on the control. *)
Theorem set_number_clamped (pg : Page) (s v : string) (p : SamplerParameter) :
  lookup pg s = Some p ->
  type p <> "checkbox" ->
  isFinite (parseFloat v) = true ->
  le (min p) (max p) = true ->
  let x := parseFloat v in
  let c := clamp x (min p) (max p) in
  let r := sampler_set isTrueBoolean sanitize (VString s) (VString v) pg in
  fst r = Return ""
  /\ snd r = written p (setValue sanitize (toString c)) pg
  /\ le (min p) c = true /\ le c (max p) = true
  /\ (le (min p) x = true -> le x (max p) = true -> toString c = toString x)
  /\ (lt x (min p) = true -> toString c = toString (min p))
  /\ (lt (max p) x = true -> toString c = toString (max p))
  /\ exists e0 e,
       Dom.getElem (document pg) (control p) = Some e0
       /\ Dom.getElem (document (afterLookup pg)) (control p) = Some e
       /\ unstyled e = unstyled e0
       /\ Dom.getElem (document (snd r)) (control p)
          = Some (setValue sanitize (toString c) e)
       /\ option_map Dom.value (Dom.getElem (document (snd r)) (control p))
          = Some (sanitize e (toString c))
       /\ (sanitize e (toString c) = toString c ->
           option_map Dom.value (Dom.getElem (document (snd r)) (control p))
           = Some (toString c))
       /\ dispatched (snd r)
          = (dispatched pg
             ++ [mkDispatched (control p) "input" true
                   (Some (setValue sanitize (toString c) e))])%list.
Proof.
  intros Hl Hty Hfin Hb x c r. subst r.
  assert (Hv : v <> "") by (intros ->; discriminate Hfin).
  rewrite (set_unfold _ _ _ _ _ (lookup_nonempty _ _ _ Hl)), Hl.
  rewrite (ToBoolean_string v Hv). cbn [negb].
  apply String.eqb_neq in Hty. rewrite Hty.
  destruct (finite_passes _ Hfin) as [Hpass Hnan]. rewrite Hpass. cbn [fst snd].
  fold x. fold c.
  destruct (control_afterLookup _ _ (lookup_In _ _ _ Hl)) as (e0 & e & He0 & He & Hu & _).
  destruct (written_spec pg p (setValue sanitize (toString c)) e He) as [Hw Hd].
  destruct (clamp_spec x (min p) (max p) Hnan Hb) as (C1 & C2 & C3 & C4 & C5).
  split; [reflexivity |]. split; [reflexivity |].
  split; [exact C1 |]. split; [exact C2 |].
  split; [intros H1 H2; apply strictEq_toString, C3; assumption |].
  split; [intros H; apply strictEq_toString, C4, H |].
  split; [intros H; apply strictEq_toString, C5, H |].
  exists e0, e. split; [exact He0 |]. split; [exact He |]. split; [exact Hu |].
  split; [exact Hw |]. rewrite Hw. cbn [option_map setValue Dom.value].
  split; [reflexivity |]. split; [intros ->; reflexivity | exact Hd].
Qed.

End Writes.

(** ** Properties of the enumerator *)

(** C6, amended. Whether the panel starts hidden or visible, when the
    enumerator returns the panel's computed display is what it was before
    the call, its inline display is that computed value and its inline
    visibility and opacity are cleared; nothing else of the panel changes.
    So the three inline properties are exactly what they were if and only
    if, before the call, the inline display was the computed display and
    the inline visibility and opacity were not set. *)
Theorem enumerate_panel_style (d : Dom.Document) :
  let before := Dom.panelElem d in
  let after := Dom.panelElem (snd (enumerateSamplerParameters d)) in
  Dom.style after = Dom.mkStyle (Dom.display (Dom.getComputedStyle before)) "" ""
  /\ Dom.display (Dom.getComputedStyle after) = Dom.display (Dom.getComputedStyle before)
  /\ unstyled after = unstyled before
  /\ (Dom.style after = Dom.style before <->
      Dom.display (Dom.style before) = Dom.display (Dom.getComputedStyle before)
      /\ Dom.visibility (Dom.style before) = ""
      /\ Dom.opacity (Dom.style before) = "").
Proof.
  intros before after.
  assert (Hstyle : Dom.style after
                   = Dom.mkStyle (Dom.display (Dom.getComputedStyle before)) "" "").
  { subst after. rewrite enumerate_snd. unfold shown.
    destruct (_ =? _)%string; reflexivity. }
  assert (Hrest : unstyled after = unstyled before).
  { subst after. rewrite enumerate_snd. unfold shown.
    destruct (_ =? _)%string; reflexivity. }
  split; [exact Hstyle |]. split; [| split; [exact Hrest |]].
  - assert (Hsheet : Dom.sheet after = Dom.sheet before).
    { change (Dom.sheet (unstyled after) = Dom.sheet (unstyled before)).
      rewrite Hrest. reflexivity. }
    unfold Dom.getComputedStyle at 1. cbn [Dom.display].
    rewrite Hstyle, Hsheet. cbn [Dom.display].
    unfold Dom.getComputedStyle. cbn [Dom.display]. unfold Dom.cascade.
    destruct (Dom.display (Dom.style before) =? "")%string eqn:E1.
    + destruct (Dom.display (Dom.sheet before) =? "")%string; reflexivity.
    + rewrite E1. reflexivity.
  - rewrite Hstyle. destruct (Dom.style before) as [dsp vis opa]. cbn. split.
    + intros H. injection H as H1 H2 H3. auto.
    + intros (H1 & <- & <-). rewrite <- H1. reflexivity.
Qed.

(** C7, amended. The id is the raw identifier after six cuts in a row, each
    removing the leftmost occurrence of one token wherever it lies:
    [_counter], [_textgenerationwebui], [_openai], [_novel], [openai_],
    [oai_]; every other character stays in place.  When the raw identifier
    is an optional known prefix, a stem and an optional known suffix, the
    stem holding none of the tokens and, after a prefix, not beginning with
    a suffix word, the id is the stem. *)
Theorem sanitizeId_first_occurrences (raw pre stem suf : string) :
  (exists s1 s2 s3 s4 s5,
      cut "_counter" raw s1 /\ cut "_textgenerationwebui" s1 s2 /\
      cut "_openai" s2 s3 /\ cut "_novel" s3 s4 /\
      cut "openai_" s4 s5 /\ cut "oai_" s5 (sanitizeId raw))
  /\ (In pre ("" :: prefixTokens) ->
      In suf ("" :: suffixTokens) ->
      (forall t, In t tokens -> includes t stem = false) ->
      (pre <> "" -> forall w, In w suffixWords -> prefix w stem = false) ->
      sanitizeId (pre ++ stem ++ suf) = stem).
Proof.
  split; [apply sanitizeId_cuts |].
  intros Hpre Hsuf Hstem Hstart.
  apply sanitizeId_affixes; try assumption.
  intros t Ht. apply not_includes, Hstem, Ht.
Qed.

(** C8, amended. Every parameter the enumerator returns has a non-empty id
    and a non-empty name: the id is the sanitized identifier of its control,
    in the letter case the identifier has, and the name the trimmed text of
    its title element.  A control whose sanitized identifier or whose name
    is empty is left out of the list. *)
Theorem enumerated_nonempty_id_name (d : Dom.Document) :
  let parameters := fst (enumerateSamplerParameters d) in
  (forall p, In p parameters ->
     id p <> "" /\ name p <> ""
     /\ titleOf (shown d) (control p) = Some (name p)
     /\ exists e, Dom.getElem d (control p) = Some e /\ id p = sanitizeId (Dom.id e))
  /\ (forall c e,
        Dom.getElem (shown d) c = Some e ->
        sanitizeId (Dom.id e) = "" \/ titleOf (shown d) c = None
        \/ titleOf (shown d) c = Some "" ->
        forall p, In p parameters -> control p <> c).
Proof.
  intros parameters. subst parameters. split.
  - intros p Hin. destruct (enumerated_nonempty _ _ Hin) as [Hid Hnm].
    split; [exact Hid |]. split; [exact Hnm |]. split.
    + apply In_enumerated in Hin. destruct Hin as (c & _ & Hp).
      destruct (samplerOf_Some _ _ _ Hp) as (e & _ & _ & _ & Ht & Heq & _).
      assert (Hc : control p = c) by (rewrite Heq; reflexivity).
      rewrite Hc. exact Ht.
    + destruct (enumerated_control _ _ Hin) as (e & He & Hide & _).
      exists e. split; assumption.
  - intros c e He Hbad p Hin Hc.
    apply In_enumerated in Hin. destruct Hin as (c' & _ & Hp).
    destruct (samplerOf_Some _ _ _ Hp) as (e' & _ & _ & _ & _ & Heq & _).
    assert (Hc' : control p = c') by (rewrite Heq; reflexivity).
    rewrite Hc in Hc'. subst c'.
    rewrite (samplerOf_None _ _ _ He Hbad) in Hp. discriminate.
Qed.

(** ** The properties on the example pages *)

Import Example.

(** [sampler-set name=nope] without a value, on the closed page. *)
Lemma set_lookup_before_value_witness :
  "nope" <> ""
  /\ lookup closedPage "nope" = None
  /\ (ToBoolean VUndefined = false \/ typeofString VUndefined = false)
  /\ sampler_set hostIsTrueBoolean Html.sanitize (VString "nope") VUndefined closedPage
     = (Throw (ParameterNotFound "nope"), afterLookup closedPage).
Proof.
  assert (H1 : "nope" <> "") by discriminate.
  assert (H2 : lookup closedPage "nope" = None) by (vm_compute; reflexivity).
  assert (H3 : ToBoolean VUndefined = false \/ typeofString VUndefined = false)
    by (left; reflexivity).
  split; [exact H1 |]. split; [exact H2 |]. split; [exact H3 |].
  exact (proj1 (set_lookup_before_value hostIsTrueBoolean Html.sanitize closedPage "nope" VUndefined
                  H1 H2 H3)).
Defined.

(** A name that matches nothing and no value: the failure is NotFound,
    although the value is absent. *)
Lemma set_absent_value_not_found :
  lookup closedPage "missing-param" = None
  /\ fst (sampler_set hostIsTrueBoolean Html.sanitize
      (VString "missing-param") VUndefined closedPage)
     = Throw (ParameterNotFound "missing-param")
  /\ kind (ParameterNotFound "missing-param") <> InvalidArgument.
Proof.
  split; [vm_compute; reflexivity |]. split; [vm_compute; reflexivity |].
  discriminate.
Qed.

(** No name at all, and [name=temp] without a value. *)
Lemma set_invalid_argument_witness :
  (exists f, fst (sampler_set hostIsTrueBoolean Html.sanitize
      VUndefined (VString "1") closedPage) = Throw f
             /\ kind f = InvalidArgument)
  /\ lookup closedPage "temp" = Some temp
  /\ (exists f, fst (sampler_set hostIsTrueBoolean Html.sanitize
      (VString "temp") VUndefined closedPage)
                = Throw f /\ kind f = InvalidArgument).
Proof.
  assert (H : lookup closedPage "temp" = Some temp) by (vm_compute; reflexivity).
  split; [| split; [exact H |]].
  - apply (set_invalid_argument hostIsTrueBoolean Html.sanitize
      closedPage VUndefined (VString "1")).
    left. left. reflexivity.
  - apply (set_invalid_argument hostIsTrueBoolean Html.sanitize
      closedPage (VString "temp") VUndefined).
    right. exists "temp", temp. split; [reflexivity |]. split; [exact H |].
    left. reflexivity.
Defined.

(** The empty name matches no parameter, and both commands fail on it with
    InvalidArgument, not NotFound. *)
Lemma empty_name_not_notfound :
  (forall q, In q (fst (enumerateSamplerParameters (document closedPage))) ->
             ~ named (toLowerCase (trim "")) q)
  /\ fst (sampler_get (VString "") closedPage) = Throw NameRequired
  /\ fst (sampler_set hostIsTrueBoolean Html.sanitize (VString "") (VString "1") closedPage)
     = Throw NameRequired
  /\ kind NameRequired <> NotFound.
Proof.
  split; [| split; [reflexivity | split; [reflexivity | discriminate]]].
  intros q Hq [H | H]; apply toLowerCase_nil in H;
    destruct (enumerated_nonempty _ _ Hq); contradiction.
Qed.

(** [" TEMP "] finds the temperature slider, the first of the list. *)
Lemma lookup_first_match_witness :
  " TEMP " <> ""
  /\ lookup closedPage " TEMP " = Some temp
  /\ sampler_get (VString " TEMP ") closedPage = (Return "0.7", afterLookup closedPage).
Proof.
  assert (H1 : " TEMP " <> "") by discriminate.
  assert (H2 : lookup closedPage " TEMP " = Some temp) by (vm_compute; reflexivity).
  split; [exact H1 |]. split; [exact H2 |].
  pose proof (lookup_first_match hostIsTrueBoolean Html.sanitize closedPage " TEMP " H1) as H.
  cbv zeta in H. rewrite H2 in H.
  exact (proj1 (proj2 H)).
Defined.

(** Reading the temperature slider of the closed page. *)
Lemma get_returns_readout_witness :
  lookup closedPage "temperature" = Some temp
  /\ fst (sampler_get (VString "temperature") closedPage) = Return "0.7"
  /\ dispatched (snd (sampler_get (VString "temperature") closedPage)) = [].
Proof.
  assert (H : lookup closedPage "temperature" = Some temp) by (vm_compute; reflexivity).
  split; [exact H |].
  destruct (get_returns_readout closedPage "temperature" temp H)
    as ((e & He & Hty & _ & Hnum) & _ & Hd).
  split; [| exact Hd].
  assert (Hne : type temp <> "checkbox") by discriminate.
  rewrite (Hnum Hne). vm_compute in He. injection He as <-. reflexivity.
Defined.

(** Setting the checkbox to ["no"]. *)
Lemma set_checkbox_witness :
  lookup closedPage "do_sample" = Some do_sample
  /\ type do_sample = "checkbox"
  /\ "no" <> ""
  /\ option_map Dom.checked
       (Dom.getElem
          (document (snd (sampler_set hostIsTrueBoolean Html.sanitize (VString "do_sample")
                            (VString "no") closedPage)))
          (control do_sample))
     = Some false.
Proof.
  assert (H1 : lookup closedPage "do_sample" = Some do_sample) by (vm_compute; reflexivity).
  assert (H2 : type do_sample = "checkbox") by reflexivity.
  assert (H3 : "no" <> "") by discriminate.
  split; [exact H1 |]. split; [exact H2 |]. split; [exact H3 |].
  exact (proj1 (proj2 (set_checkbox hostIsTrueBoolean Html.sanitize closedPage "do_sample" "no"
                         do_sample H1 H2 H3))).
Defined.

(** The empty string is no true literal, yet the checkbox stays checked:
    the command fails before it reads the value. *)
Lemma set_checkbox_empty_value_fails :
  lookup closedPage "do_sample" = Some do_sample
  /\ type do_sample = "checkbox"
  /\ hostIsTrueBoolean "" = false
  /\ fst (sampler_set hostIsTrueBoolean Html.sanitize (VString "do_sample") (VString "") closedPage)
     = Throw ValueRequired
  /\ option_map Dom.checked
       (Dom.getElem
          (document (snd (sampler_set hostIsTrueBoolean Html.sanitize (VString "do_sample")
                            (VString "") closedPage)))
          (control do_sample))
     = Some true.
Proof. repeat split; vm_compute; reflexivity. Qed.

(** [sampler-set name=temp abc]. *)
Lemma set_not_finite_witness :
  lookup closedPage "temp" = Some temp
  /\ type temp <> "checkbox"
  /\ "abc" <> ""
  /\ (isNaN (parseFloat "abc") = true \/ isFinite (parseFloat "abc") = false)
  /\ fst (sampler_set hostIsTrueBoolean Html.sanitize (VString "temp") (VString "abc") closedPage)
     = Throw ValueNotFinite.
Proof.
  assert (H1 : lookup closedPage "temp" = Some temp) by (vm_compute; reflexivity).
  assert (H2 : type temp <> "checkbox") by discriminate.
  assert (H3 : "abc" <> "") by discriminate.
  assert (H4 : isNaN (parseFloat "abc") = true \/ isFinite (parseFloat "abc") = false)
    by (left; reflexivity).
  split; [exact H1 |]. split; [exact H2 |]. split; [exact H3 |]. split; [exact H4 |].
  exact (proj1 (set_not_finite hostIsTrueBoolean Html.sanitize
      closedPage "temp" "abc" temp H1 H2 H3 H4)).
Defined.

(** The empty string parses to NaN, and the failure is the value-required
    InvalidArgument. *)
Lemma set_empty_value_invalid_argument :
  lookup closedPage "temp" = Some temp
  /\ type temp = "range"
  /\ isNaN (parseFloat "") = true
  /\ fst (sampler_set hostIsTrueBoolean Html.sanitize (VString "temp") (VString "") closedPage)
     = Throw ValueRequired
  /\ kind ValueRequired <> InvalidValue.
Proof.
  split; [vm_compute; reflexivity |]. split; [reflexivity |].
  split; [reflexivity |]. split; [vm_compute; reflexivity | discriminate].
Qed.

(** [sampler-set name=temp 1.1] and [sampler-set name=temp 5] on bounds
    [0, 2]. *)
Lemma set_number_clamped_witness :
  lookup closedPage "temp" = Some temp
  /\ type temp <> "checkbox"
  /\ isFinite (parseFloat "1.1") = true /\ isFinite (parseFloat "5") = true
  /\ le (min temp) (max temp) = true
  /\ option_map Dom.value
       (Dom.getElem
          (document (snd (sampler_set hostIsTrueBoolean Html.sanitize (VString "temp")
                            (VString "1.1") closedPage)))
          (control temp))
     = Some "1.1"
  /\ option_map Dom.value
       (Dom.getElem
          (document (snd (sampler_set hostIsTrueBoolean Html.sanitize (VString "temp")
                            (VString "5") closedPage)))
          (control temp))
     = Some "2".
Proof.
  assert (H1 : lookup closedPage "temp" = Some temp) by (vm_compute; reflexivity).
  assert (H2 : type temp <> "checkbox") by discriminate.
  assert (H3 : isFinite (parseFloat "1.1") = true) by reflexivity.
  assert (H3' : isFinite (parseFloat "5") = true) by reflexivity.
  assert (H4 : le (min temp) (max temp) = true) by reflexivity.
  split; [exact H1 |]. split; [exact H2 |]. split; [exact H3 |].
  split; [exact H3' |]. split; [exact H4 |]. split.
  - pose proof (set_number_clamped hostIsTrueBoolean Html.sanitize closedPage "temp" "1.1" temp
                  H1 H2 H3 H4) as H.
    cbv zeta in H. rewrite (proj1 (proj2 H)). vm_compute. reflexivity.
  - pose proof (set_number_clamped hostIsTrueBoolean Html.sanitize closedPage "temp" "5" temp
                  H1 H2 H3' H4) as H.
    cbv zeta in H. rewrite (proj1 (proj2 H)). vm_compute. reflexivity.
Defined.

(** On a slider with bounds [0, 2] and step 0.01 the value 1.234, which is
    within the bounds, is assigned as it is and held as 1.23; on a slider
    with min 2 and max 0 the value 1 is assigned as 0 and held as 2, which
    is above the max. *)
Lemma set_number_control_sanitizes :
  (lookup steppedPage "temp" = Some stepped
   /\ type stepped = "range"
   /\ isFinite (parseFloat "1.234") = true
   /\ le (min stepped) (parseFloat "1.234") = true
   /\ le (parseFloat "1.234") (max stepped) = true
   /\ toString (clamp (parseFloat "1.234") (min stepped) (max stepped)) = "1.234"
   /\ option_map Dom.value
        (Dom.getElem
           (document (snd (sampler_set hostIsTrueBoolean Html.sanitize (VString "temp")
                             (VString "1.234") steppedPage)))
           (control stepped))
      = Some "1.23")
  /\ (lookup crossedPage "crossed" = Some crossed
      /\ type crossed = "range"
      /\ isFinite (parseFloat "1") = true
      /\ toString (clamp (parseFloat "1") (min crossed) (max crossed)) = "0"
      /\ option_map Dom.value
           (Dom.getElem
              (document (snd (sampler_set hostIsTrueBoolean Html.sanitize
                                (VString "crossed") (VString "1") crossedPage)))
              (control crossed))
         = Some "2"
      /\ le (parseFloat "2") (max crossed) = false
      /\ forall x, le (min crossed) x = true -> le x (max crossed) = true -> False).
Proof.
  split; [repeat split; vm_compute; reflexivity |].
  do 6 (split; [vm_compute; reflexivity |]).
  intros x H1 H2.
  assert (H : lt (max crossed) (min crossed) = true) by reflexivity.
  pose proof (NumberFacts.lt_le_trans _ _ _ H H1) as H3.
  rewrite (NumberFacts.le_not_lt _ _ H2) in H3. discriminate.
Qed.

(** The enumerator on the closed and on the open page. *)
Lemma enumerate_panel_style_witness :
  Dom.style (Dom.panelElem (snd (enumerateSamplerParameters (document closedPage))))
  = Dom.style (Dom.panelElem (document closedPage))
  /\ Dom.style (Dom.panelElem (snd (enumerateSamplerParameters (document openPage))))
     = Dom.style (Dom.panelElem (document openPage)).
Proof.
  split.
  - apply (proj2 (proj2 (proj2 (enumerate_panel_style (document closedPage))))).
    repeat split; reflexivity.
  - apply (proj2 (proj2 (proj2 (enumerate_panel_style (document openPage))))).
    repeat split; reflexivity.
Defined.

(** An inline opacity on the panel does not survive the enumerator, and the
    inline display it leaves was not there before. *)
Lemma enumerate_clears_inline_opacity :
  let before := Dom.panelElem (document dimmedPage) in
  let after := Dom.panelElem (snd (enumerateSamplerParameters (document dimmedPage))) in
  Dom.style before = Dom.mkStyle "" "" "0.5"
  /\ Dom.style after = Dom.mkStyle "flex" "" ""
  /\ Dom.opacity (Dom.getComputedStyle before) = "0.5"
  /\ Dom.opacity (Dom.getComputedStyle after) = "1"
  /\ Dom.style after <> Dom.style before.
Proof.
  cbv zeta. split; [reflexivity |]. split; [reflexivity |]. split; [reflexivity |].
  split; [reflexivity |]. vm_compute. discriminate.
Qed.

(** [openai_max_context_counter] and [temp_textgenerationwebui]. *)
Lemma sanitizeId_first_occurrences_witness :
  sanitizeId "openai_max_context_counter" = "max_context"
  /\ sanitizeId "temp_textgenerationwebui" = "temp".
Proof.
  split.
  - apply (proj2 (sanitizeId_first_occurrences "" "openai_" "max_context" "_counter")).
    + simpl; auto.
    + simpl; auto.
    + intros t Ht. simpl in Ht.
      destruct Ht as [<- | [<- | [<- | [<- | [<- | [<- | []]]]]]]; reflexivity.
    + intros _ w Hw. simpl in Hw.
      destruct Hw as [<- | [<- | [<- | [<- | []]]]]; reflexivity.
  - apply (proj2 (sanitizeId_first_occurrences "" "" "temp" "_textgenerationwebui")).
    + simpl; auto.
    + simpl; auto 6.
    + intros t Ht. simpl in Ht.
      destruct Ht as [<- | [<- | [<- | [<- | [<- | [<- | []]]]]]]; reflexivity.
    + intros H. contradiction H. reflexivity.
Defined.

(** A token inside the identifier is cut out too, and so is one that only
    appears once an earlier cut has been made. *)
Lemma sanitizeId_cuts_inside :
  sanitizeId "a_novel_b" = "a_b"
  /\ stripKnownAffixes "a_novel_b" = "a_novel_b"
  /\ sanitizeId "koai_x" = "kx"
  /\ stripKnownAffixes "koai_x" = "koai_x".
Proof. repeat split; vm_compute; reflexivity. Qed.

(** The parameters of the closed page; the slider whose identifier is only
    a token is not among them. *)
Lemma enumerated_nonempty_id_name_witness :
  fst (enumerateSamplerParameters (document closedPage)) = [temp; top_p; do_sample; seed]
  /\ id temp <> "" /\ name temp <> ""
  /\ Dom.getElem (shown (document closedPage)) [5; 1]%nat
     = Some (input "oai_" "range" "0" "1" "0" false)
  /\ sanitizeId "oai_" = ""
  /\ forall p, In p (fst (enumerateSamplerParameters (document closedPage))) ->
               control p <> [5; 1]%nat.
Proof.
  assert (H : fst (enumerateSamplerParameters (document closedPage))
              = [temp; top_p; do_sample; seed]) by (vm_compute; reflexivity).
  assert (He : Dom.getElem (shown (document closedPage)) [5; 1]%nat
               = Some (input "oai_" "range" "0" "1" "0" false)) by (vm_compute; reflexivity).
  assert (Hid : sanitizeId "oai_" = "") by reflexivity.
  split; [exact H |].
  destruct (proj1 (enumerated_nonempty_id_name (document closedPage)) temp) as (H1 & H2 & _).
  - rewrite H. left. reflexivity.
  - split; [exact H1 |]. split; [exact H2 |]. split; [exact He |]. split; [exact Hid |].
    apply (proj2 (enumerated_nonempty_id_name (document closedPage)) _ _ He).
    left. exact Hid.
Defined.

(** The id keeps the capitals of the control's identifier. *)
Lemma enumerated_id_not_lowercase :
  In top_p (fst (enumerateSamplerParameters (document closedPage)))
  /\ id top_p = "TOP_P"
  /\ toLowerCase (id top_p) = "top_p"
  /\ toLowerCase (id top_p) <> id top_p.
Proof.
  split; [vm_compute; right; left; reflexivity |].
  split; [reflexivity |]. split; [reflexivity | discriminate].
Qed.

(** ** Trees the enumerator cannot tell apart *)
Module SimFacts.

Lemma Node_induction (P : Dom.Node -> Prop) :
  (forall d, P (Dom.TextNode d)) ->
  (forall e cs, Forall P cs -> P (Dom.ElementNode e cs)) ->
  forall n, P n.
Proof.
  intros Ht He. fix IH 1. intros [d | e cs].
  - apply Ht.
  - apply He. revert cs. fix IHcs 1. intros [| c cs].
    + constructor.
    + constructor; [apply IH | apply IHcs].
Qed.

Lemma subtree_unfold (e : Dom.Elem) (cs : list Dom.Node) :
  Dom.subtree (Dom.ElementNode e cs)
  = ([], Dom.ElementNode e cs) :: childrenFrom 0 cs.
Proof. reflexivity. Qed.

Lemma alike_refl (e : Dom.Elem) : alike e e.
Proof. repeat split. Qed.

Lemma sim_refl : forall n, sim n n.
Proof.
  apply Node_induction.
  - intros d. constructor.
  - intros e cs H. constructor; [apply alike_refl |].
    induction H; constructor; assumption.
Qed.

Lemma Forall2_sim_refl (l : list Dom.Node) : Forall2 sim l l.
Proof. induction l; constructor; [apply sim_refl | assumption]. Qed.

Lemma sim_subtree : forall n' n, sim n' n -> Forall2 entrySim (Dom.subtree n') (Dom.subtree n).
Proof.
  apply (Node_induction (fun n' => forall n, sim n' n ->
                           Forall2 entrySim (Dom.subtree n') (Dom.subtree n))).
  - intros d n H. inversion H; subst. simpl. constructor; [| constructor].
    split; [reflexivity | assumption].
  - intros e' cs' IH n H. inversion H as [| ? e ? cs Ha Hcs]; subst.
    rewrite !subtree_unfold. constructor; [split; [reflexivity | assumption] |].
    generalize 0%nat. clear H Ha.
    induction Hcs as [| c' c cs' cs Hc Hcs IHcs]; intros i; simpl; [constructor |].
    inversion IH as [| ? ? IHc IHrest]; subst.
    apply Forall2_app; [| apply IHcs; assumption].
    specialize (IHc c Hc).
    induction IHc as [| x' x l' l [Hx1 Hx2] _ IHl]; simpl; constructor.
    + split; cbn [fst snd]; [f_equal; exact Hx1 | assumption].
    + assumption.
Qed.

Lemma sim_textContent (n' n : Dom.Node) :
  sim n' n -> Dom.textContent n' = Dom.textContent n.
Proof.
  intros H. apply sim_subtree in H. unfold Dom.textContent.
  induction H as [| x' x l' l [_ Hx] _ IH]; simpl; [reflexivity |].
  rewrite IH. inversion Hx; reflexivity.
Qed.

Lemma alike_matches (s : Dom.Selector) (e' e : Dom.Elem) :
  alike e' e -> Dom.matches s e' = Dom.matches s e.
Proof.
  intros (H1 & H2 & H3 & H4 & H5 & H6 & _).
  destruct s; simpl; rewrite ?H2, ?H3, ?H4, ?H5, ?H6; reflexivity.
Qed.

Lemma sim_matchesAny (sels : list Dom.Selector) (n' n : Dom.Node) :
  sim n' n -> Dom.matchesAny sels n' = Dom.matchesAny sels n.
Proof.
  intros H. inversion H as [| e' e cs' cs Ha _]; subst; simpl; [reflexivity |].
  induction sels as [| s sels IH]; simpl; [reflexivity |].
  rewrite (alike_matches s _ _ Ha), IH. reflexivity.
Qed.

Lemma find_sim (sels : list Dom.Selector) (l' l : list Dom.Node) :
  Forall2 sim l' l ->
  optSim (find (Dom.matchesAny sels) l') (find (Dom.matchesAny sels) l).
Proof.
  induction 1 as [| n' n l' l Hn _ IH]; simpl; [exact I |].
  rewrite (sim_matchesAny sels _ _ Hn).
  destruct (Dom.matchesAny sels n); [exact Hn | exact IH].
Qed.

Lemma closest_sim (sels : list Dom.Selector) (chain' chain : list Dom.Node) :
  Forall2 sim chain' chain ->
  optSim (Dom.closest sels chain') (Dom.closest sels chain).
Proof. apply find_sim. Qed.

Lemma sim_descendants (n' n : Dom.Node) :
  sim n' n -> Forall2 entrySim (Dom.descendants n') (Dom.descendants n).
Proof.
  intros H. apply sim_subtree in H. unfold Dom.descendants.
  inversion H; simpl; [constructor | assumption].
Qed.

Lemma querySelector_sim (sels : list Dom.Selector) (n' n : Dom.Node) :
  sim n' n ->
  optSim (Dom.querySelector sels n') (Dom.querySelector sels n).
Proof.
  intros H. apply sim_descendants in H. unfold Dom.querySelector.
  induction H as [| x' x l' l [_ Hx] _ IH]; simpl; [exact I |].
  rewrite (sim_matchesAny sels _ _ Hx).
  destruct (Dom.matchesAny sels (snd x)); [exact Hx | exact IH].
Qed.

Lemma hasTitle_sim (t' t : option Dom.Node) :
  optSim t' t -> hasTitle t' = hasTitle t.
Proof.
  destruct t' as [n' |], t as [n |]; simpl; try contradiction; [| reflexivity].
  intros H. pose proof (sim_textContent _ _ H) as Ht.
  inversion H as [| e' e cs' cs Ha _]; subst; [reflexivity |].
  rewrite Ht. destruct Ha as (Hi & _).
  unfold Dom.instanceofHTMLElement. rewrite Hi. reflexivity.
Qed.

Lemma orElse_sim (a' a b' b : option Dom.Node) :
  optSim a' a -> optSim b' b -> optSim (orElse a' b') (orElse a b).
Proof.
  destruct a', a; simpl; try contradiction; auto.
Qed.

Lemma getTitleParent_sim (chain' chain : list Dom.Node) :
  Forall2 sim chain' chain ->
  optSim (getTitleParent chain') (getTitleParent chain).
Proof.
  intros H. unfold getTitleParent.
  assert (Hp : optSim
                 (orElse (Dom.closest [Dom.ByClass "range-block"] chain')
                    (orElse (Dom.closest [Dom.ByTag "label"] chain')
                       (orElse (Dom.closest [Dom.ByTag "h4"] chain')
                          (Dom.closest [Dom.ByTag "div"] chain'))))
                 (orElse (Dom.closest [Dom.ByClass "range-block"] chain)
                    (orElse (Dom.closest [Dom.ByTag "label"] chain)
                       (orElse (Dom.closest [Dom.ByTag "h4"] chain)
                          (Dom.closest [Dom.ByTag "div"] chain))))).
  { repeat apply orElse_sim; apply closest_sim; assumption. }
  destruct (orElse (Dom.closest _ chain') _) as [p' |],
           (orElse (Dom.closest _ chain) _) as [p |];
    simpl in Hp; try contradiction; [| exact I].
  inversion Hp as [| e' e cs' cs Ha Hcs]; subst; [exact I |].
  assert (Hi : Dom.instanceofHTMLElement e' = Dom.instanceofHTMLElement e).
  { destruct Ha as (Hi & _). unfold Dom.instanceofHTMLElement. rewrite Hi. reflexivity. }
  rewrite Hi. destruct (Dom.instanceofHTMLElement e); cbn [negb]; [| exact I].
  pose proof (querySelector_sim [Dom.ByClass "range-block-title"] _ _ Hp) as Q1.
  pose proof (querySelector_sim [Dom.ByTag "small"] _ _ Hp) as Q2.
  pose proof (querySelector_sim [Dom.ByClass "checkbox_label"] _ _ Hp) as Q3.
  rewrite (hasTitle_sim _ _ Q1), (hasTitle_sim _ _ Q2), (hasTitle_sim _ _ Q3).
  destruct (hasTitle (Dom.querySelector [Dom.ByClass "range-block-title"] _)); [exact Q1 |].
  destruct (hasTitle (Dom.querySelector [Dom.ByTag "small"] _)); [exact Q2 |].
  destruct (hasTitle (Dom.querySelector [Dom.ByClass "checkbox_label"] _)); [exact Q3 |].
  exact Hp.
Qed.

Lemma plug_sim (fs : list Dom.Frame) :
  forall n' n, sim n' n -> Forall2 sim (Dom.plug n' fs) (Dom.plug n fs).
Proof.
  induction fs as [| f fs IH]; intros n' n H; simpl; [constructor |].
  assert (Hp : sim (Dom.ElementNode (Dom.frameElem f) (Dom.before f ++ n' :: Dom.after f))
                   (Dom.ElementNode (Dom.frameElem f) (Dom.before f ++ n :: Dom.after f))).
  { constructor; [apply alike_refl |].
    apply Forall2_app; [apply Forall2_sim_refl |].
    constructor; [assumption | apply Forall2_sim_refl]. }
  constructor; [exact Hp | apply IH, Hp].
Qed.

Lemma nth_error_sim (cs' cs : list Dom.Node) :
  Forall2 sim cs' cs -> forall i, optSim (nth_error cs' i) (nth_error cs i).
Proof.
  induction 1 as [| c' c cs' cs Hc _ IH]; intros [| i]; simpl; auto.
Qed.

Lemma ancestry_sim (q : Dom.Path) :
  forall n' n above' above,
    sim n' n -> Forall2 sim above' above ->
    Forall2 sim (Dom.ancestry q n' above') (Dom.ancestry q n above).
Proof.
  induction q as [| i q IH]; intros n' n above' above Hn Ha; simpl.
  - constructor; assumption.
  - inversion Hn as [| e' e cs' cs Hal Hcs]; subst; [constructor |].
    pose proof (nth_error_sim _ _ Hcs i) as Hi.
    destruct (nth_error cs' i) as [c' |], (nth_error cs i) as [c |];
      simpl in Hi; try contradiction; [| constructor].
    apply IH; [assumption |]. constructor; assumption.
Qed.

Lemma chainOf_sim (d' d : Dom.Document) (q : Dom.Path) :
  docSim d' d -> Forall2 sim (Dom.chainOf d' q) (Dom.chainOf d q).
Proof.
  intros [Hp Ha]. unfold Dom.chainOf. rewrite Ha.
  apply ancestry_sim; [assumption | apply plug_sim; assumption].
Qed.

Lemma rendered_sim (chain' chain : list Dom.Node) :
  Forall2 sim chain' chain -> Dom.rendered chain' = Dom.rendered chain.
Proof.
  unfold Dom.rendered.
  induction 1 as [| n' n l' l Hn _ IH]; cbn [forallb]; [reflexivity |].
  rewrite IH. f_equal.
  inversion Hn as [| e' e cs' cs Hal _]; subst; cbn [Dom.elemOf]; [reflexivity |].
  destruct Hal as (_ & _ & _ & _ & _ & _ & _ & _ & Hh).
  unfold hidden in Hh. rewrite Hh. reflexivity.
Qed.

Lemma isVisible_sim (chain' chain : list Dom.Node) :
  Forall2 sim chain' chain -> isVisible chain' = isVisible chain.
Proof.
  intros H. pose proof (rendered_sim _ _ H) as Hr.
  destruct H as [| n' n l' l Hn Hl]; [reflexivity |].
  inversion Hn as [| e' e cs' cs Hal _]; subst; [reflexivity |].
  unfold isVisible, Dom.offsetHeight, Dom.offsetWidth. rewrite Hr.
  destruct Hal as (Hi & _ & _ & _ & _ & _ & Hw & Hh & _).
  unfold Dom.instanceofHTMLElement. rewrite Hi, Hw, Hh. reflexivity.
Qed.

Lemma querySelectorAll_sim (sels : list Dom.Selector) (d' d : Dom.Document) :
  docSim d' d -> Dom.querySelectorAll sels d' = Dom.querySelectorAll sels d.
Proof.
  intros [Hp _]. apply sim_descendants in Hp. unfold Dom.querySelectorAll.
  induction Hp as [| x' x l' l [Hx1 Hx2] _ IH]; simpl; [reflexivity |].
  rewrite (sim_matchesAny sels _ _ Hx2).
  destruct (Dom.matchesAny sels (snd x)); simpl; rewrite IH; [rewrite Hx1 |]; reflexivity.
Qed.

(** On documents it cannot tell apart the loop body gives the same sampler,
    up to the numbers and the checked state of the control. *)
Lemma samplerOf_sim (d' d : Dom.Document) (q : Dom.Path) :
  docSim d' d -> samplerOf d' q = option_map (reread d') (samplerOf d q).
Proof.
  intros Hd. pose proof (chainOf_sim d' d q Hd) as Hc.
  pose proof (closest_sim [Dom.ById "openai_settings"] _ _ Hc) as Ho.
  pose proof (getTitleParent_sim _ _ Hc) as Ht.
  unfold samplerOf, reread.
  destruct (Dom.chainOf d' q) as [| n' chain'] eqn:E', (Dom.chainOf d q) as [| n chain] eqn:E;
    inversion Hc as [| ? ? ? ? Hn Hrest]; subst; [reflexivity |].
  inversion Hn as [| e' e cs' cs Hal Hcs]; subst; [reflexivity |].
  pose proof Hal as (Hi & _ & Hid & _ & _ & Hty & _).
  unfold Dom.instanceofHTMLInputElement. rewrite Hi.
  destruct (Dom.iface e); cbn [negb option_map]; try reflexivity.
  destruct (Dom.closest _ (Dom.ElementNode e' cs' :: chain')),
           (Dom.closest _ (Dom.ElementNode e cs :: chain));
    simpl in Ho; try contradiction; [reflexivity |].
  destruct (getTitleParent (Dom.ElementNode e' cs' :: chain')) as [t' |],
           (getTitleParent (Dom.ElementNode e cs :: chain)) as [t |];
    simpl in Ht; try contradiction; [| reflexivity].
  cbn [option_map]. rewrite (sim_textContent _ _ Ht), Hid. cbv zeta. cbn [id name].
  destruct ((sanitizeId (Dom.id e) =? "") || (trim (Dom.textContent t) =? ""))%string;
    [reflexivity |].
  cbn [option_map control id name type].
  rewrite (DomFacts.chain_getElem _ _ _ _ _ E'), Hty. reflexivity.
Qed.

Lemma flat_map_option_map {A B C : Type} (f : A -> option B) (g : B -> C) (l : list A) :
  flat_map (fun c => match option_map g (f c) with Some s => [s] | None => [] end) l
  = map g (flat_map (fun c => match f c with Some s => [s] | None => [] end) l).
Proof.
  induction l as [| a l IH]; simpl; [reflexivity |].
  rewrite IH, map_app. destruct (f a); reflexivity.
Qed.

(** The loop over two documents it cannot tell apart. *)
Lemma scan_sim (d' d : Dom.Document) :
  docSim d' d -> scan d' = map (reread d') (scan d).
Proof.
  intros Hd. unfold scan.
  rewrite (querySelectorAll_sim _ _ _ Hd).
  rewrite (filter_ext _ (fun c => isVisible (Dom.chainOf d c)))
    by (intros c; apply isVisible_sim, chainOf_sim, Hd).
  rewrite <- flat_map_option_map.
  apply flat_map_ext. intros c. rewrite (samplerOf_sim _ _ _ Hd). reflexivity.
Qed.

Lemma mapNth_sim (g : Dom.Node -> Dom.Node) (l : list Dom.Node) :
  (forall n, sim (g n) n) -> forall i, Forall2 sim (Dom.mapNth i g l) l.
Proof.
  intros Hg. induction l as [| x l IH]; intros [| i]; simpl; constructor;
    auto using sim_refl, Forall2_sim_refl.
Qed.

(** A change of elements into alike elements gives a similar tree. *)
Lemma update_sim (f : Dom.Elem -> Dom.Elem) (p : Dom.Path) :
  (forall e, alike (f e) e) -> forall n, sim (Dom.update p f n) n.
Proof.
  intros Hf. induction p as [| i p IH]; intros [d | e cs]; simpl;
    try apply sim_refl.
  - constructor; [apply Hf | apply Forall2_sim_refl].
  - constructor; [apply alike_refl | apply mapNth_sim, IH].
Qed.

End SimFacts.

(** ** Enumerating again, and after a write *)
Module AgainFacts.

Import DomFacts EnumFacts CallbackFacts SimFacts.

Lemma enumerate_scan (d : Dom.Document) :
  fst (enumerateSamplerParameters d) = scan (shown d).
Proof. rewrite enumerate_fst. reflexivity. Qed.

Lemma shown_not_hidden (d : Dom.Document) : hidden (Dom.panelElem (shown d)) = false.
Proof.
  unfold shown. fold (hidden (Dom.panelElem d)).
  destruct (hidden (Dom.panelElem d)) eqn:E; [reflexivity | exact E].
Qed.

Lemma shown_rest (d : Dom.Document) :
  unstyled (Dom.panelElem (shown d)) = unstyled (Dom.panelElem d)
  /\ Dom.panelChildren (shown d) = Dom.panelChildren d
  /\ Dom.ancestors (shown d) = Dom.ancestors d.
Proof. unfold shown. destruct (_ =? _)%string; repeat split. Qed.

Lemma unstyled_alike (e' e : Dom.Elem) :
  unstyled e' = unstyled e -> hidden e' = hidden e -> alike e' e.
Proof.
  intros Hu Hh.
  assert (Hf : forall (A : Type) (g : Dom.Elem -> A),
             (forall x, g (unstyled x) = g x) -> g e' = g e).
  { intros A g Hg. rewrite <- (Hg e'), <- (Hg e), Hu. reflexivity. }
  repeat split; try exact Hh;
    match goal with |- ?g e' = _ => apply (Hf _ g); reflexivity end.
Qed.

(** Two documents with the same panel, its inline style apart, similar
    children and the same ancestors look the same while they are scanned. *)
Lemma docSim_shown (d1 d2 : Dom.Document) :
  unstyled (Dom.panelElem d1) = unstyled (Dom.panelElem d2) ->
  Forall2 sim (Dom.panelChildren d1) (Dom.panelChildren d2) ->
  Dom.ancestors d1 = Dom.ancestors d2 ->
  docSim (shown d1) (shown d2).
Proof.
  intros Hp Hc Ha.
  destruct (shown_rest d1) as (P1 & C1 & A1), (shown_rest d2) as (P2 & C2 & A2).
  split; [| congruence].
  unfold Dom.panelNode. rewrite C1, C2. constructor; [| exact Hc].
  apply unstyled_alike; [congruence |].
  rewrite !shown_not_hidden. reflexivity.
Qed.

Lemma In_scan (d : Dom.Document) (p : SamplerParameter) :
  In p (scan d) -> exists c, samplerOf d c = Some p.
Proof.
  unfold scan. rewrite in_flat_map. intros (c & _ & H). exists c.
  destruct (samplerOf d c) as [q |]; simpl in H; [| contradiction].
  destruct H as [-> | []]. reflexivity.
Qed.

(** Reading a sampler again from a document in which its control has the
    same attributes gives the sampler. *)
Lemma reread_same (d d' : Dom.Document) (c : Dom.Path) (p : SamplerParameter) :
  samplerOf d c = Some p ->
  option_map unstyled (Dom.getElem d' c) = option_map unstyled (Dom.getElem d c) ->
  reread d' p = p.
Proof.
  intros Hp Hu.
  destruct (samplerOf_Some _ _ _ Hp) as (e & He & _ & _ & _ & Heq & _).
  rewrite He in Hu.
  destruct (Dom.getElem d' c) as [e' |] eqn:He'; [| discriminate].
  cbn [option_map] in Hu. assert (Hu' : unstyled e' = unstyled e) by congruence.
  assert (Hf : forall (A : Type) (g : Dom.Elem -> A),
             (forall x, g (unstyled x) = g x) -> g e' = g e).
  { intros A g Hg. rewrite <- (Hg e'), <- (Hg e), Hu'. reflexivity. }
  destruct p as [pid pname pmax pmin pvalue pchecked ptype pcontrol].
  cbn [name] in Heq. injection Heq as -> -> -> -> -> -> ->.
  unfold reread. cbn [id name type control]. rewrite He'.
  rewrite (Hf _ Dom.max), (Hf _ Dom.min), (Hf _ Dom.value), (Hf _ Dom.checked);
    reflexivity.
Qed.

Lemma map_reread_same (d d' : Dom.Document) :
  (forall c, option_map unstyled (Dom.getElem d' c)
             = option_map unstyled (Dom.getElem d c)) ->
  map (reread d') (scan d) = scan d.
Proof.
  intros H. rewrite <- (map_id (scan d)) at 2. apply map_ext_in.
  intros p Hp. destruct (In_scan _ _ Hp) as [c Hc].
  apply (reread_same d d' c p Hc (H c)).
Qed.

(** The list does not depend on the inline style of the panel. *)
Lemma enumerate_restyled (g : Dom.Style -> Dom.Style) (d : Dom.Document) :
  fst (enumerateSamplerParameters (setPanelStyle g d))
  = fst (enumerateSamplerParameters d).
Proof.
  rewrite !enumerate_scan.
  rewrite (scan_sim (shown (setPanelStyle g d)) (shown d)).
  - apply map_reread_same. intros c.
    rewrite !getElem_shown. apply getElem_setPanelStyle.
  - apply docSim_shown; try reflexivity. apply Forall2_sim_refl.
Qed.

Lemma enumerate_snd_normal (d : Dom.Document) :
  snd (enumerateSamplerParameters d)
  = setPanelStyle
      (fun _ => Dom.mkStyle (Dom.display (Dom.getComputedStyle (Dom.panelElem d))) "" "") d.
Proof.
  rewrite enumerate_snd. unfold shown. destruct (_ =? _)%string; reflexivity.
Qed.

End AgainFacts.

(** ** Facts on the commands in sequence *)
Module SequenceFacts.

Import DomFacts EnumFacts CallbackFacts SimFacts AgainFacts.

Lemma cascade_again (a b : string) : Dom.cascade (Dom.cascade a b) b = Dom.cascade a b.
Proof.
  unfold Dom.cascade. destruct (a =? "")%string eqn:Ea.
  - destruct (b =? "")%string; reflexivity.
  - rewrite Ea. reflexivity.
Qed.

(** A second enumeration finds the document as the first left it. *)
Lemma enumerate_snd_again (d : Dom.Document) :
  snd (enumerateSamplerParameters (snd (enumerateSamplerParameters d)))
  = snd (enumerateSamplerParameters d).
Proof.
  rewrite (enumerate_snd_normal (snd _)), (enumerate_snd_normal d).
  unfold setPanelStyle, Dom.updateElem. cbn.
  unfold Dom.getComputedStyle. cbn [Dom.display Dom.style Dom.sheet].
  rewrite cascade_again. reflexivity.
Qed.

Lemma enumerate_fst_again (d : Dom.Document) :
  fst (enumerateSamplerParameters (snd (enumerateSamplerParameters d)))
  = fst (enumerateSamplerParameters d).
Proof. rewrite enumerate_snd_normal. apply enumerate_restyled. Qed.

Lemma afterLookup_again (pg : Page) : afterLookup (afterLookup pg) = afterLookup pg.
Proof.
  unfold afterLookup. cbn [document dispatched]. rewrite enumerate_snd_again. reflexivity.
Qed.

Lemma lookup_afterLookup (pg : Page) (s : string) :
  lookup (afterLookup pg) s = lookup pg s.
Proof.
  unfold lookup, afterLookup. cbn [document]. rewrite enumerate_fst_again. reflexivity.
Qed.

Lemma value_cases (v : JsValue) :
  invalid v \/ exists s, v = VString s /\ s <> "".
Proof.
  destruct v as [| | b | n | s |]; try (left; right; reflexivity).
  destruct (String.eqb_spec s "") as [-> | Hne].
  - left. left. reflexivity.
  - right. exists s. split; [reflexivity | assumption].
Qed.

Lemma get_invalid (v : JsValue) (pg : Page) :
  invalid v -> sampler_get v pg = (Throw (nameFailure v), pg).
Proof.
  intros Hv. unfold sampler_get, nameFailure.
  destruct (ToBoolean v) eqn:Hb; cbn [negb]; [| reflexivity].
  destruct Hv as [Hv | Hv]; [congruence |].
  destruct v; try discriminate; reflexivity.
Qed.

Lemma set_invalid (isTrueBoolean : string -> bool) (sanitize : Dom.Elem -> string -> string)
      (name v : JsValue) (pg : Page) :
  invalid name -> sampler_set isTrueBoolean sanitize name v pg = (Throw (nameFailure name), pg).
Proof.
  intros Hv. unfold sampler_set, nameFailure.
  destruct (ToBoolean name) eqn:Hb; cbn [negb]; [| reflexivity].
  destruct Hv as [Hv | Hv]; [congruence |].
  destruct name; try discriminate; reflexivity.
Qed.

Lemma nameFailure_kind (v : JsValue) : kind (nameFailure v) = InvalidArgument.
Proof. unfold nameFailure. destruct (ToBoolean v); reflexivity. Qed.

(** The page a [sampler-get] leaves: the one it found, or that one after a
    lookup. *)
Lemma get_page (v : JsValue) (pg : Page) :
  snd (sampler_get v pg) = pg \/ snd (sampler_get v pg) = afterLookup pg.
Proof.
  destruct (value_cases v) as [Hv | (s & -> & Hs)].
  - rewrite (get_invalid v pg Hv). left. reflexivity.
  - rewrite (get_unfold _ _ Hs). right. destruct (lookup pg s); reflexivity.
Qed.

(** What [sampler-get] returns depends on the page only through the lookup. *)
Lemma get_fst_lookup (v : JsValue) (pg pg' : Page) :
  (forall s, lookup pg' s = lookup pg s) ->
  fst (sampler_get v pg') = fst (sampler_get v pg).
Proof.
  intros H. destruct (value_cases v) as [Hv | (s & -> & Hs)].
  - rewrite !(get_invalid v _ Hv). reflexivity.
  - rewrite !(get_unfold _ _ Hs), H. destruct (lookup pg s); reflexivity.
Qed.

Lemma childrenFrom_nonempty (cs : list Dom.Node) :
  forall i x, In x (childrenFrom i cs) -> fst x <> [].
Proof.
  induction cs as [| c cs IH]; intros i x; simpl; [contradiction |].
  rewrite in_app_iff, in_map_iff. intros [(y & <- & _) | H].
  - discriminate.
  - apply (IH _ _ H).
Qed.

(** A control is a proper descendant of the panel. *)
Lemma control_nonempty (d : Dom.Document) (p : SamplerParameter) :
  In p (fst (enumerateSamplerParameters d)) -> control p <> [].
Proof.
  intros H. apply In_enumerated in H. destruct H as (c & Hc & Hp).
  destruct (samplerOf_Some _ _ _ Hp) as (e & _ & _ & _ & _ & Heq & _).
  assert (E : control p = c) by (rewrite Heq; reflexivity). rewrite E.
  unfold rangeSliders in Hc. apply filter_In in Hc. destruct Hc as [Hc _].
  unfold Dom.querySelectorAll in Hc. apply in_map_iff in Hc.
  destruct Hc as (x & <- & Hx). apply filter_In in Hx. destruct Hx as [Hx _].
  unfold Dom.descendants, Dom.panelNode in Hx. rewrite subtree_unfold in Hx.
  apply (childrenFrom_nonempty _ _ _ Hx).
Qed.

Lemma nth_error_mapNth_other {A : Type} (g : A -> A) (l : list A) :
  forall i j, i <> j -> nth_error (Dom.mapNth i g l) j = nth_error l j.
Proof.
  induction l as [| x l IH]; intros [| i] [| j] H; simpl; auto; congruence.
Qed.

Lemma getNode_update_other (f : Dom.Elem -> Dom.Elem) (q : Dom.Path) :
  forall c n, q <> c ->
    option_map Dom.elemOf (Dom.getNode q (Dom.update c f n))
    = option_map Dom.elemOf (Dom.getNode q n).
Proof.
  induction q as [| j q IH]; intros c n H.
  - destruct c as [| i c]; [congruence |]. destruct n; reflexivity.
  - destruct n as [t | e cs]; [destruct c; reflexivity |].
    destruct c as [| i c]; [reflexivity |]. simpl.
    destruct (Nat.eq_dec i j) as [-> | Hij].
    + rewrite DomFacts.nth_error_mapNth.
      destruct (nth_error cs j) as [c0 |]; [| reflexivity]. simpl.
      apply IH. congruence.
    + rewrite (nth_error_mapNth_other _ _ _ _ Hij). reflexivity.
Qed.

(** A write to one element leaves every other element as it was. *)
Lemma getElem_updateElem_other (f : Dom.Elem -> Dom.Elem) (c q : Dom.Path) (d : Dom.Document) :
  q <> c -> Dom.getElem (Dom.updateElem c f d) q = Dom.getElem d q.
Proof.
  intros H. unfold Dom.getElem. rewrite panelNode_updateElem.
  pose proof (getNode_update_other f q c (Dom.panelNode d) H) as E.
  destruct (Dom.getNode q (Dom.update c f (Dom.panelNode d))) as [[t | e cs] |],
           (Dom.getNode q (Dom.panelNode d)) as [[t0 | e0 cs0] |];
    simpl in E; congruence.
Qed.

(** After a write to a control that leaves its element alike, the scan sees
    a similar document. *)
Lemma docSim_written (d : Dom.Document) (c : Dom.Path) (f : Dom.Elem -> Dom.Elem) :
  c <> [] -> (forall e, alike (f e) e) ->
  docSim (shown (Dom.updateElem c f (snd (enumerateSamplerParameters d)))) (shown d).
Proof.
  intros Hc Hf. destruct c as [| i c]; [congruence |].
  rewrite enumerate_snd_normal. apply docSim_shown; try reflexivity.
  cbn. apply mapNth_sim. intros n. apply update_sim, Hf.
Qed.

Lemma enumerate_after_write (d : Dom.Document) (c : Dom.Path) (f : Dom.Elem -> Dom.Elem) :
  c <> [] -> (forall e, alike (f e) e) ->
  fst (enumerateSamplerParameters
         (Dom.updateElem c f (snd (enumerateSamplerParameters d))))
  = map (reread (shown (Dom.updateElem c f (snd (enumerateSamplerParameters d)))))
      (fst (enumerateSamplerParameters d)).
Proof.
  intros Hc Hf. rewrite !enumerate_scan.
  apply scan_sim, docSim_written; assumption.
Qed.

Lemma reread_other (d : Dom.Document) (c cq : Dom.Path) (f : Dom.Elem -> Dom.Elem)
      (q : SamplerParameter) :
  samplerOf (shown d) cq = Some q -> cq <> c ->
  reread (shown (Dom.updateElem c f (snd (enumerateSamplerParameters d)))) q = q.
Proof.
  intros Hq Hne. apply (reread_same (shown d) _ cq q Hq).
  rewrite !getElem_shown, (getElem_updateElem_other f c cq _ Hne).
  apply getElem_enumerate.
Qed.

(** The control after a write, as the next scan finds it. *)
Lemma getElem_written (d : Dom.Document) (c : Dom.Path) (f : Dom.Elem -> Dom.Elem)
      (e : Dom.Elem) :
  Dom.getElem (shown d) c = Some e ->
  exists e1 e2,
    unstyled e1 = unstyled e
    /\ Dom.getElem (shown (Dom.updateElem c f (snd (enumerateSamplerParameters d)))) c
       = Some e2
    /\ unstyled e2 = unstyled (f e1)
    /\ Dom.getElem (snd (enumerateSamplerParameters d)) c = Some e1.
Proof.
  intros He.
  pose proof (getElem_shown d c) as H0. rewrite He in H0.
  pose proof (getElem_enumerate d c) as H1.
  destruct (Dom.getElem d c) as [e0 |]; [| discriminate].
  destruct (Dom.getElem (snd (enumerateSamplerParameters d)) c) as [e1 |] eqn:E1;
    [| discriminate].
  cbn [option_map] in H0, H1.
  pose proof (getElem_shown (Dom.updateElem c f (snd (enumerateSamplerParameters d))) c) as H2.
  rewrite getElem_updateElem, E1 in H2. cbn [option_map] in H2.
  destruct (Dom.getElem
              (shown (Dom.updateElem c f (snd (enumerateSamplerParameters d)))) c)
    as [e2 |]; [| discriminate].
  cbn [option_map] in H2. exists e1, e2.
  split; [congruence |]. split; [reflexivity |]. split; [congruence | reflexivity].
Qed.

Lemma reread_setChecked (d : Dom.Document) (c : Dom.Path) (b : bool) (q : SamplerParameter) :
  samplerOf (shown d) c = Some q ->
  reread (shown (Dom.updateElem c (setChecked b) (snd (enumerateSamplerParameters d)))) q
  = withChecked b q.
Proof.
  intros Hq.
  destruct (samplerOf_Some _ _ _ Hq) as (e & He & _ & _ & _ & Heq & _).
  destruct (getElem_written d c (setChecked b) e He) as (e1 & e2 & H1 & H2 & H3 & _).
  assert (Hf : forall (A : Type) (g : Dom.Elem -> A),
             (forall x, g (unstyled x) = g x) ->
             (forall x, g (setChecked b x) = g x) -> g e2 = g e).
  { intros A g Hg Hs. rewrite <- (Hg e2), H3, Hg, Hs, <- (Hg e1), H1, Hg. reflexivity. }
  assert (Hb : Dom.checked e2 = b).
  { change (Dom.checked (unstyled e2) = b). rewrite H3. reflexivity. }
  destruct q as [qid qname qmax qmin qvalue qchecked qtype qcontrol].
  cbn [name] in Heq. injection Heq as -> -> -> -> -> -> ->.
  unfold reread, withChecked. cbn [id name max min value type control]. rewrite H2, Hb.
  rewrite (Hf _ Dom.max), (Hf _ Dom.min), (Hf _ Dom.value); reflexivity.
Qed.

Lemma reread_setValue (sanitize : Dom.Elem -> string -> string)
      (d : Dom.Document) (c : Dom.Path) (v : string) (q : SamplerParameter)
      (e1 : Dom.Elem) :
  samplerOf (shown d) c = Some q ->
  Dom.getElem (snd (enumerateSamplerParameters d)) c = Some e1 ->
  reread (shown (Dom.updateElem c (setValue sanitize v) (snd (enumerateSamplerParameters d)))) q
  = withValue (parseFloat (sanitize e1 v)) q.
Proof.
  intros Hq He1.
  destruct (samplerOf_Some _ _ _ Hq) as (e & He & _ & _ & _ & Heq & _).
  destruct (getElem_written d c (setValue sanitize v) e He) as (e1' & e2 & H1 & H2 & H3 & H4).
  rewrite He1 in H4. injection H4 as <-.
  assert (Hf : forall (A : Type) (g : Dom.Elem -> A),
             (forall x, g (unstyled x) = g x) ->
             (forall x, g (setValue sanitize v x) = g x) -> g e2 = g e).
  { intros A g Hg Hs. rewrite <- (Hg e2), H3, Hg, Hs, <- (Hg e1), H1, Hg. reflexivity. }
  assert (Hb : Dom.value e2 = sanitize e1 v).
  { change (Dom.value (unstyled e2) = sanitize e1 v). rewrite H3. reflexivity. }
  destruct q as [qid qname qmax qmin qvalue qchecked qtype qcontrol].
  cbn [name] in Heq. injection Heq as -> -> -> -> -> -> ->.
  unfold reread, withValue. cbn [id name max min checked type control]. rewrite H2, Hb.
  rewrite (Hf _ Dom.max), (Hf _ Dom.min), (Hf _ Dom.checked); reflexivity.
Qed.

Lemma setChecked_alike (b : bool) (e : Dom.Elem) : alike (setChecked b e) e.
Proof. repeat split. Qed.

Lemma setValue_alike (sanitize : Dom.Elem -> string -> string) (v : string) (e : Dom.Elem) :
  alike (setValue sanitize v e) e.
Proof. repeat split. Qed.

Lemma In_enumerate_samplerOf (d : Dom.Document) (q : SamplerParameter) :
  In q (fst (enumerateSamplerParameters d)) -> samplerOf (shown d) (control q) = Some q.
Proof.
  intros H. apply In_enumerated in H. destruct H as (c & _ & Hq).
  destruct (samplerOf_Some _ _ _ Hq) as (e & _ & _ & _ & _ & Heq & _).
  assert (E : control q = c) by (rewrite Heq; reflexivity). rewrite E. exact Hq.
Qed.

(** The parameters after [control.checked = b]: the same list, the checked
    state of that control apart. *)
Lemma enumerate_after_setChecked (d : Dom.Document) (c : Dom.Path) (b : bool) :
  c <> [] ->
  fst (enumerateSamplerParameters
         (Dom.updateElem c (setChecked b) (snd (enumerateSamplerParameters d))))
  = map (rewritten c (withChecked b)) (fst (enumerateSamplerParameters d)).
Proof.
  intros Hc. rewrite (enumerate_after_write d c _ Hc (setChecked_alike b)).
  apply map_ext_in. intros q Hq. apply In_enumerate_samplerOf in Hq.
  unfold rewritten. destruct (list_eq_dec Nat.eq_dec (control q) c) as [E | E].
  - rewrite E in Hq. apply reread_setChecked, Hq.
  - apply (reread_other d c (control q) _ q Hq E).
Qed.

(** The parameters after [control.value = v]. *)
Lemma enumerate_after_setValue (sanitize : Dom.Elem -> string -> string)
      (d : Dom.Document) (c : Dom.Path) (v : string) (e1 : Dom.Elem) :
  c <> [] ->
  Dom.getElem (snd (enumerateSamplerParameters d)) c = Some e1 ->
  fst (enumerateSamplerParameters
         (Dom.updateElem c (setValue sanitize v) (snd (enumerateSamplerParameters d))))
  = map (rewritten c (withValue (parseFloat (sanitize e1 v))))
      (fst (enumerateSamplerParameters d)).
Proof.
  intros Hc He1. rewrite (enumerate_after_write d c _ Hc (setValue_alike sanitize v)).
  apply map_ext_in. intros q Hq. apply In_enumerate_samplerOf in Hq.
  unfold rewritten. destruct (list_eq_dec Nat.eq_dec (control q) c) as [E | E].
  - rewrite E in Hq. apply reread_setValue; assumption.
  - apply (reread_other d c (control q) _ q Hq E).
Qed.

Lemma find_rewritten (n : string) (c : Dom.Path)
      (change : SamplerParameter -> SamplerParameter) (l : list SamplerParameter) :
  (forall q, id (change q) = id q /\ name (change q) = name q) ->
  find (matchesName n) (map (rewritten c change) l)
  = option_map (rewritten c change) (find (matchesName n) l).
Proof.
  intros H. induction l as [| q l IH]; simpl; [reflexivity |].
  assert (E : matchesName n (rewritten c change q) = matchesName n q).
  { unfold rewritten. destruct (list_eq_dec _ _ _); [| reflexivity].
    unfold matchesName. destruct (H q) as [-> ->]. reflexivity. }
  rewrite E. destruct (matchesName n q); [reflexivity | exact IH].
Qed.

(** The lookup on the page left by a write. *)
Lemma lookup_written_checked (pg : Page) (p : SamplerParameter) (b : bool) (s : string) :
  In p (fst (enumerateSamplerParameters (document pg))) ->
  lookup (written p (setChecked b) pg) s
  = option_map (rewritten (control p) (withChecked b)) (lookup pg s).
Proof.
  intros Hp. unfold lookup, written, dispatchEvent, afterLookup. cbn [document].
  rewrite (enumerate_after_setChecked _ _ _ (control_nonempty _ _ Hp)).
  apply find_rewritten. intros q. split; reflexivity.
Qed.

Lemma lookup_written_value (sanitize : Dom.Elem -> string -> string)
      (pg : Page) (p : SamplerParameter) (v : string) (s : string) (e : Dom.Elem) :
  In p (fst (enumerateSamplerParameters (document pg))) ->
  Dom.getElem (document (afterLookup pg)) (control p) = Some e ->
  lookup (written p (setValue sanitize v) pg) s
  = option_map (rewritten (control p) (withValue (parseFloat (sanitize e v)))) (lookup pg s).
Proof.
  intros Hp He. unfold lookup, written, dispatchEvent, afterLookup. cbn [document].
  rewrite (enumerate_after_setValue _ _ _ _ e (control_nonempty _ _ Hp) He).
  apply find_rewritten. intros q. split; reflexivity.
Qed.

End SequenceFacts.

(** ** Further properties of the commands *)

Import SimFacts AgainFacts SequenceFacts.

(** X1. With a name that is absent or not a string both commands fail with
    InvalidArgument before they look at the page: the page, the panel's
    inline style included, is exactly as it was. *)
Theorem invalid_name_touches_nothing
        (isTrueBoolean : string -> bool) (sanitize : Dom.Elem -> string -> string)
        (name v : JsValue) (pg : Page) :
  invalid name ->
  (exists f, sampler_get name pg = (Throw f, pg) /\ kind f = InvalidArgument)
  /\ (exists f, sampler_set isTrueBoolean sanitize name v pg = (Throw f, pg)
                /\ kind f = InvalidArgument).
Proof.
  intros H. split; exists (nameFailure name); split;
    auto using get_invalid, set_invalid, nameFailure_kind.
Qed.

(** X2. The list the enumerator returns does not depend on the inline
    display, visibility and opacity of the panel: a panel hidden by an
    inline [display: none] gives the parameters it gives when it is shown. *)
Theorem enumerate_ignores_inline_style (g : Dom.Style -> Dom.Style) (d : Dom.Document) :
  fst (enumerateSamplerParameters (setPanelStyle g d))
  = fst (enumerateSamplerParameters d).
Proof. apply enumerate_restyled. Qed.

(** X3. Enumerating a second time returns the same list and leaves the
    document as the first enumeration left it. *)
Theorem enumerate_twice (d : Dom.Document) :
  enumerateSamplerParameters (snd (enumerateSamplerParameters d))
  = (fst (enumerateSamplerParameters d), snd (enumerateSamplerParameters d)).
Proof.
  pose proof (enumerate_fst_again d) as H1. pose proof (enumerate_snd_again d) as H2.
  destruct (enumerateSamplerParameters (snd (enumerateSamplerParameters d))) as [l d'].
  cbn [fst snd] in H1, H2. rewrite H1, H2. reflexivity.
Qed.

(** X4. Whatever its argument, [sampler-get] changes no value and no
    checked state and dispatches no event; and what a [sampler-get] returns
    is not changed by a [sampler-get] run before it. *)
Theorem get_reads_only (n0 n1 : JsValue) (pg : Page) :
  dispatched (snd (sampler_get n0 pg)) = dispatched pg
  /\ (forall c,
        option_map Dom.value (Dom.getElem (document (snd (sampler_get n0 pg))) c)
        = option_map Dom.value (Dom.getElem (document pg) c)
        /\ option_map Dom.checked (Dom.getElem (document (snd (sampler_get n0 pg))) c)
           = option_map Dom.checked (Dom.getElem (document pg) c))
  /\ fst (sampler_get n1 (snd (sampler_get n0 pg))) = fst (sampler_get n1 pg)
  /\ sampler_get n0 (snd (sampler_get n0 pg)) = sampler_get n0 pg.
Proof.
  split; [| split; [| split]].
  - destruct (get_page n0 pg) as [-> | ->]; reflexivity.
  - intros c. destruct (get_page n0 pg) as [-> | ->];
      [split; reflexivity | apply afterLookup_frame].
  - apply get_fst_lookup. intros s.
    destruct (get_page n0 pg) as [-> | ->]; [reflexivity | apply lookup_afterLookup].
  - destruct (value_cases n0) as [Hv | (s & -> & Hs)].
    + rewrite !(get_invalid n0 _ Hv). reflexivity.
    + rewrite (get_unfold pg s Hs).
      assert (E : snd (match lookup pg s with
                       | Some p => (Return (readout p), afterLookup pg)
                       | None => (Throw (ParameterNotFound (normalize s)), afterLookup pg)
                       end) = afterLookup pg) by (destruct (lookup pg s); reflexivity).
      rewrite E, (get_unfold _ s Hs), lookup_afterLookup, afterLookup_again.
      reflexivity.
Qed.

Section Sequences.

Variable isTrueBoolean : string -> bool.
Variable sanitize : Dom.Elem -> string -> string.

(** X5. A checkbox reads back what was set: after a [sampler-set] of a
    non-empty value on a checkbox parameter, [sampler-get] with the same
    name returns ["true"] if the host takes the value for a true literal and
    ["false"] otherwise. *)
Theorem get_after_set_checkbox (pg : Page) (s v : string) (p : SamplerParameter) :
  lookup pg s = Some p ->
  type p = "checkbox" ->
  v <> "" ->
  fst (sampler_get (VString s)
         (snd (sampler_set isTrueBoolean sanitize (VString s) (VString v) pg)))
  = Return (String_boolean (isTrueBoolean v)).
Proof.
  intros Hl Hty Hv. pose proof (lookup_nonempty _ _ _ Hl) as Hs.
  rewrite (set_unfold _ _ _ _ _ Hs), Hl, (ToBoolean_string v Hv). cbn [negb].
  rewrite Hty, String.eqb_refl. cbn [snd].
  rewrite (get_unfold _ _ Hs), (lookup_written_checked _ _ _ _ (lookup_In _ _ _ Hl)), Hl.
  cbn [option_map]. unfold rewritten.
  destruct (list_eq_dec Nat.eq_dec (control p) (control p)) as [_ | E]; [| congruence].
  unfold readout, withChecked. cbn [type checked fst]. rewrite Hty, String.eqb_refl.
  reflexivity.
Qed.

(** X6. A number reads back as the control holds it: after a
    [sampler-set] of a value that parses to a finite number on a range or
    number parameter, the control holds its sanitization of the string of
    the clamped number, and [sampler-get] with the same name returns the
    string of the number parsed from that; this is the string of the
    clamped number whenever what the control holds parses to the clamped
    number. *)
Theorem get_after_set_number (pg : Page) (s v : string) (p : SamplerParameter) :
  lookup pg s = Some p ->
  type p <> "checkbox" ->
  isFinite (parseFloat v) = true ->
  let c := clamp (parseFloat v) (min p) (max p) in
  let after := snd (sampler_set isTrueBoolean sanitize (VString s) (VString v) pg) in
  option_map Dom.value (Dom.getElem (document after) (control p))
  = Some (held sanitize pg p (toString c))
  /\ fst (sampler_get (VString s) after)
     = Return (toString (parseFloat (held sanitize pg p (toString c))))
  /\ (parseFloat (held sanitize pg p (toString c)) = c ->
      fst (sampler_get (VString s) after) = Return (toString c)).
Proof.
  intros Hl Hty Hfin c after. subst after.
  pose proof (lookup_nonempty _ _ _ Hl) as Hs.
  assert (Hv : v <> "") by (intros ->; discriminate Hfin).
  rewrite (set_unfold _ _ _ _ _ Hs), Hl, (ToBoolean_string v Hv). cbn [negb].
  apply String.eqb_neq in Hty. rewrite Hty.
  destruct (finite_passes _ Hfin) as [Hpass _]. rewrite Hpass. cbn [snd]. fold c.
  destruct (control_afterLookup _ _ (lookup_In _ _ _ Hl)) as (e0 & e & _ & He & _).
  destruct (written_spec pg p (setValue sanitize (toString c)) e He) as [Hw _].
  assert (Hget : fst (sampler_get (VString s) (written p (setValue sanitize (toString c)) pg))
                 = Return (toString (parseFloat (held sanitize pg p (toString c))))).
  { rewrite (get_unfold _ _ Hs),
      (lookup_written_value _ _ _ _ _ e (lookup_In _ _ _ Hl) He), Hl.
    cbn [option_map]. unfold rewritten.
    destruct (list_eq_dec Nat.eq_dec (control p) (control p)) as [_ | E]; [| congruence].
    unfold readout, withValue, held. cbn [type value fst]. rewrite Hty, He. reflexivity. }
  split; [rewrite Hw; unfold held; rewrite He; reflexivity |].
  split; [exact Hget |]. intros E. rewrite Hget, E. reflexivity.
Qed.

(** Every way a [sampler-set] can end. *)
Lemma set_cases (name v : JsValue) (pg : Page) :
  (exists f pg', sampler_set isTrueBoolean sanitize name v pg = (Throw f, pg')
                 /\ (pg' = pg \/ pg' = afterLookup pg))
  \/ (exists s p g,
         name = VString s /\ lookup pg s = Some p
         /\ sampler_set isTrueBoolean sanitize name v pg = (Return "", written p g pg)
         /\ ((exists b, g = setChecked b) \/ (exists x, g = setValue sanitize x))).
Proof.
  destruct (value_cases name) as [Hn | (s & -> & Hs)].
  - left. exists (nameFailure name), pg. split; [apply set_invalid, Hn | left; reflexivity].
  - rewrite (set_unfold _ _ _ _ _ Hs).
    destruct (lookup pg s) as [p |] eqn:Hl;
      [| left; eexists; eexists; split; [reflexivity | right; reflexivity]].
    destruct (negb (ToBoolean v));
      [left; eexists; eexists; split; [reflexivity | right; reflexivity] |].
    destruct v as [| | b | n | x |];
      try (left; eexists; eexists; split; [reflexivity | right; reflexivity]).
    destruct (type p =? "checkbox")%string.
    + right. exists s, p, (setChecked (isTrueBoolean x)).
      repeat split; try reflexivity; try exact Hl. left. eexists. reflexivity.
    + destruct (isNaN (parseFloat x) || negb (isFinite (parseFloat x))).
      * left. eexists; eexists; split; [reflexivity | right; reflexivity].
      * right. eexists s, p, _. repeat split; try reflexivity; try exact Hl.
        right. eexists. reflexivity.
Qed.

(** X7. [sampler-set] is all or nothing.  When it fails, no element has
    changed its value or checked state and no event was dispatched.  When it
    succeeds, it returns the empty string, it has dispatched exactly one
    event, a bubbling [input] event on the control of the parameter the
    name selects, and every other element has the value and the checked
    state it had. *)
Theorem set_all_or_nothing (name v : JsValue) (pg : Page) :
  let r := sampler_set isTrueBoolean sanitize name v pg in
  (forall f, fst r = Throw f ->
     dispatched (snd r) = dispatched pg
     /\ forall c,
          option_map Dom.value (Dom.getElem (document (snd r)) c)
          = option_map Dom.value (Dom.getElem (document pg) c)
          /\ option_map Dom.checked (Dom.getElem (document (snd r)) c)
             = option_map Dom.checked (Dom.getElem (document pg) c))
  /\ (forall x, fst r = Return x ->
        x = ""
        /\ exists s p,
             name = VString s /\ lookup pg s = Some p
             /\ (exists e, dispatched (snd r)
                           = (dispatched pg
                              ++ [mkDispatched (control p) "input" true (Some e)])%list
                           /\ Dom.getElem (document (snd r)) (control p) = Some e)
             /\ forall c, c <> control p ->
                  option_map Dom.value (Dom.getElem (document (snd r)) c)
                  = option_map Dom.value (Dom.getElem (document pg) c)
                  /\ option_map Dom.checked (Dom.getElem (document (snd r)) c)
                     = option_map Dom.checked (Dom.getElem (document pg) c)).
Proof.
  intros r. subst r.
  destruct (set_cases name v pg)
    as [(f0 & pg' & -> & Hpg) | (s & p & g & -> & Hl & -> & Hg)]; cbn [fst snd].
  - split; [| discriminate]. intros f _.
    destruct Hpg as [-> | ->]; [split; [| split]; reflexivity |].
    split; [reflexivity | intros c; apply afterLookup_frame].
  - split; [discriminate |]. intros x Hx. injection Hx as <-.
    split; [reflexivity |]. exists s, p. split; [reflexivity |]. split; [exact Hl |].
    destruct (control_afterLookup _ _ (lookup_In _ _ _ Hl)) as (e0 & e & _ & He & _).
    destruct (written_spec pg p g e He) as [Hw Hd]. split.
    + exists (g e). split; assumption.
    + intros c Hc. unfold written, dispatchEvent. cbn [document].
      rewrite (getElem_updateElem_other g (control p) c _ Hc).
      apply afterLookup_frame.
Qed.

Lemma get_fst_lookup_at (s : string) (pg pg' : Page) :
  lookup pg' s = lookup pg s ->
  fst (sampler_get (VString s) pg') = fst (sampler_get (VString s) pg).
Proof.
  intros H. destruct (String.eqb_spec s "") as [-> | Hs]; [reflexivity |].
  rewrite !(get_unfold _ _ Hs), H. destruct (lookup pg s); reflexivity.
Qed.

(** X8. A [sampler-set], whether it succeeds or fails, does not change what
    [sampler-get] returns for a name that selects another control, or
    that selects nothing. *)
Theorem set_leaves_other_readouts (name v : JsValue) (s2 : string) (pg : Page) :
  (forall s p q, name = VString s -> lookup pg s = Some p -> lookup pg s2 = Some q ->
                 control q <> control p) ->
  fst (sampler_get (VString s2) (snd (sampler_set isTrueBoolean sanitize name v pg)))
  = fst (sampler_get (VString s2) pg).
Proof.
  intros H. apply get_fst_lookup_at.
  destruct (set_cases name v pg)
    as [(f0 & pg' & -> & Hpg) | (s & p & g & -> & Hl & -> & Hg)]; cbn [snd].
  - destruct Hpg as [-> | ->]; [reflexivity | apply lookup_afterLookup].
  - assert (Hq : forall change,
               option_map (rewritten (control p) change) (lookup pg s2) = lookup pg s2).
    { intros change. destruct (lookup pg s2) as [q |] eqn:Hq; [| reflexivity].
      cbn [option_map]. unfold rewritten.
      destruct (list_eq_dec Nat.eq_dec (control q) (control p)) as [E | _];
        [| reflexivity].
      exfalso. apply (H s p q eq_refl Hl eq_refl E). }
    destruct Hg as [[b ->] | [x ->]].
    + rewrite (lookup_written_checked _ _ _ _ (lookup_In _ _ _ Hl)). apply Hq.
    + destruct (control_afterLookup _ _ (lookup_In _ _ _ Hl)) as (e0 & e & _ & He & _).
      rewrite (lookup_written_value _ _ _ _ _ e (lookup_In _ _ _ Hl) He). apply Hq.
Qed.

End Sequences.

(** ** Bounds that are not proper *)
Module BoundFacts.

Import NumberFacts.

(** With min above max the clamp gives max, whatever the number. *)
Lemma clamp_crossed (x lo hi : number) :
  isNaN x = false -> lt hi lo = true -> clamp x lo hi = hi.
Proof.
  intros Hx Hb. destruct (lt_not_nan _ _ Hb) as [Hhi Hlo]. unfold clamp.
  destruct (Math_max_pair_spec x lo Hx Hlo) as (Hm & Hlm & _).
  destruct (Math_min_pair_spec (Math_max [x; lo]) hi Hm Hhi) as (_ & _ & Hc & _).
  apply Hc. apply lt_le_trans with lo; assumption.
Qed.

End BoundFacts.

Section ImproperBounds.

Variable isTrueBoolean : string -> bool.
Variable sanitize : Dom.Elem -> string -> string.

(** X10. When the min of a range or number parameter is above its max,
    [sampler-set] assigns the string of the max to the control's value for
    every value that parses to a finite number; the control then holds its
    sanitization of that string. *)
Theorem set_with_crossed_bounds_assigns_max
        (pg : Page) (s v : string) (p : SamplerParameter) :
  lookup pg s = Some p ->
  type p <> "checkbox" ->
  isFinite (parseFloat v) = true ->
  lt (max p) (min p) = true ->
  let r := sampler_set isTrueBoolean sanitize (VString s) (VString v) pg in
  r = (Return "", written p (setValue sanitize (toString (max p))) pg)
  /\ option_map Dom.value (Dom.getElem (document (snd r)) (control p))
     = Some (held sanitize pg p (toString (max p))).
Proof.
  intros Hl Hty Hfin Hb r. subst r.
  pose proof (lookup_nonempty _ _ _ Hl) as Hs.
  assert (Hv : v <> "") by (intros ->; discriminate Hfin).
  rewrite (set_unfold _ _ _ _ _ Hs), Hl, (ToBoolean_string v Hv). cbn [negb].
  apply String.eqb_neq in Hty. rewrite Hty.
  destruct (finite_passes _ Hfin) as [Hpass Hnan]. rewrite Hpass. cbn [fst snd].
  change (Math_min [Math_max [parseFloat v; min p]; max p])
    with (clamp (parseFloat v) (min p) (max p)).
  rewrite (BoundFacts.clamp_crossed _ _ _ Hnan Hb).
  destruct (control_afterLookup _ _ (lookup_In _ _ _ Hl)) as (e0 & e & _ & He & _).
  destruct (written_spec pg p (setValue sanitize (toString (max p))) e He) as [Hw _].
  split; [reflexivity |]. rewrite Hw. unfold held. rewrite He. reflexivity.
Qed.

End ImproperBounds.

(** ** Names as the enumerator lists them *)
Module TrimFacts.

Lemma trimEnd_kept (c : ascii) (s : string) :
  isWhiteSpace c = false -> trimEnd (String c s) = String c (trimEnd s).
Proof.
  intros H. cbn [trimEnd]. destruct (trimEnd s); [rewrite H |]; reflexivity.
Qed.

Lemma trimEnd_again (s : string) : trimEnd (trimEnd s) = trimEnd s.
Proof.
  induction s as [| c s IH]; [reflexivity |].
  cbn [trimEnd]. destruct (trimEnd s) as [| a t] eqn:E.
  - destruct (isWhiteSpace c) eqn:Hc; [reflexivity |].
    cbn [trimEnd]. rewrite Hc. reflexivity.
  - change (trimEnd (String c (String a t))) with
      (match trimEnd (String a t) with
       | EmptyString => if isWhiteSpace c then EmptyString else String c EmptyString
       | String _ _ as u => String c u
       end).
    rewrite IH. reflexivity.
Qed.

(** What [trimStart] leaves does not begin with white space. *)
Lemma trimStart_head (s : string) :
  trimStart s = "" \/
  exists c r, trimStart s = String c r /\ isWhiteSpace c = false.
Proof.
  induction s as [| c s IH]; [left; reflexivity |].
  cbn [trimStart]. destruct (isWhiteSpace c) eqn:Hc; [exact IH |].
  right. exists c, s. split; [reflexivity | exact Hc].
Qed.

Lemma trim_again (s : string) : trim (trim s) = trim s.
Proof.
  unfold trim. destruct (trimStart_head s) as [-> | (c & r & -> & Hc)];
    [reflexivity |].
  rewrite (trimEnd_kept _ _ Hc). cbn [trimStart]. rewrite Hc.
  rewrite <- (trimEnd_kept _ _ Hc). apply trimEnd_again.
Qed.

Lemma find_some_first {A : Type} (f : A -> bool) (l : list A) (x : A) :
  In x l -> f x = true -> exists y, find f l = Some y.
Proof.
  intros Hin Hf. destruct (find f l) as [y |] eqn:E; [exists y; reflexivity |].
  rewrite (find_none f l E x Hin) in Hf. discriminate.
Qed.

Lemma toLowerCase_nonempty (s : string) : s <> "" -> toLowerCase s <> "".
Proof. destruct s; [congruence | discriminate]. Qed.

End TrimFacts.

(** X11. A name under which the enumerator lists a parameter has no white
    space at either end, and [sampler-get] with that name, or with any
    input that names a listed parameter after trimming and lower-casing,
    returns the readout of a parameter of that name: it does not fail. *)
Theorem get_by_listed_name_returns (pg : Page) (p : SamplerParameter) :
  In p (fst (enumerateSamplerParameters (document pg))) ->
  trim (name p) = name p
  /\ (forall s, named (normalize s) p ->
        exists q, lookup pg s = Some q
                  /\ named (normalize s) q
                  /\ sampler_get (VString s) pg = (Return (readout q), afterLookup pg))
  /\ named (normalize (name p)) p.
Proof.
  intros Hin.
  assert (Ht : trim (name p) = name p).
  { apply In_enumerated in Hin. destruct Hin as (c & _ & Hp).
    destruct (samplerOf_Some _ _ _ Hp) as (e & _ & _ & _ & Hn & _).
    unfold titleOf in Hn.
    destruct (getTitleParent (Dom.chainOf (shown (document pg)) c)) as [t |];
      [| discriminate].
    cbn [option_map] in Hn. injection Hn as Hn. rewrite <- Hn.
    apply TrimFacts.trim_again. }
  split; [exact Ht |]. split.
  - intros s Hs.
    destruct (TrimFacts.find_some_first (matchesName (normalize s)) _ p Hin)
      as [q Hq]; [apply matchesName_true, Hs |].
    exists q. split; [exact Hq |].
    destruct (find_first _ _ _ Hq) as (_ & _ & _ & Hm & _).
    split; [apply matchesName_true, Hm |].
    assert (Hne : s <> "").
    { intros ->. destruct (enumerated_nonempty _ _ Hin) as [Hi Hn].
      destruct Hs as [Hs | Hs]; change (normalize "") with "" in Hs;
        [apply (TrimFacts.toLowerCase_nonempty _ Hn) |
         apply (TrimFacts.toLowerCase_nonempty _ Hi)]; exact Hs. }
    rewrite (get_unfold _ _ Hne). unfold lookup. rewrite Hq. reflexivity.
  - left. unfold normalize. rewrite Ht. reflexivity.
Qed.

(** ** Paths and the tree listing *)
Module TreeFacts.

Lemma childrenFrom_In (cs : list Dom.Node) :
  forall i p m,
    In (p, m) (childrenFrom i cs) <->
    exists j c p', p = (i + j)%nat :: p' /\ nth_error cs j = Some c
                   /\ In (p', m) (Dom.subtree c).
Proof.
  induction cs as [| c cs IH]; intros i p m; cbn [childrenFrom].
  - split; [intros [] |]. intros (j & c & p' & _ & H & _). destruct j; discriminate.
  - rewrite in_app_iff, in_map_iff. split.
    + intros [([p' m'] & E & Hin) | H].
      * cbn [fst snd] in E. injection E as <- <-. exists 0%nat, c, p'.
        rewrite Nat.add_0_r. repeat split; assumption.
      * apply IH in H. destruct H as (j & c' & p' & -> & Hn & Hin).
        exists (S j), c', p'. split; [f_equal; lia |]. split; assumption.
    + intros (j & c' & p' & -> & Hn & Hin). destruct j as [| j].
      * cbn [nth_error] in Hn. injection Hn as ->. left. exists (p', m).
        rewrite Nat.add_0_r. split; [reflexivity | assumption].
      * right. apply IH. exists j, c', p'. split; [f_equal; lia |].
        split; assumption.
Qed.

(** The tree listing has a node at a path exactly when the path leads to
    that node. *)
Lemma subtree_getNode :
  forall n p m, In (p, m) (Dom.subtree n) <-> Dom.getNode p n = Some m.
Proof.
  apply (Node_induction
           (fun n => forall p m, In (p, m) (Dom.subtree n) <-> Dom.getNode p n = Some m)).
  - intros d p m. cbn [Dom.subtree]. split.
    + intros [E | []]. injection E as <- <-. reflexivity.
    + destruct p; cbn [Dom.getNode]; [| discriminate].
      intros E. injection E as <-. left. reflexivity.
  - intros e cs IH p m. rewrite subtree_unfold. cbn [In].
    rewrite childrenFrom_In. rewrite Forall_forall in IH. split.
    + intros [E | (j & c & p' & -> & Hn & Hin)].
      * injection E as <- <-. reflexivity.
      * cbn [Dom.getNode Nat.add]. rewrite Hn.
        apply (IH c (nth_error_In _ _ Hn)). exact Hin.
    + destruct p as [| i p']; cbn [Dom.getNode].
      * intros E. injection E as <-. left. reflexivity.
      * destruct (nth_error cs i) as [c |] eqn:Hn; [| discriminate].
        intros H. right. exists i, c, p'. split; [reflexivity |].
        split; [exact Hn |]. apply (IH c (nth_error_In _ _ Hn)). exact H.
Qed.

Lemma childrenFrom_head (cs : list Dom.Node) :
  forall i x, In x (map fst (childrenFrom i cs)) ->
              exists j p', x = j :: p' /\ (i <= j)%nat.
Proof.
  intros i x H. apply in_map_iff in H. destruct H as ([p m] & <- & H).
  apply childrenFrom_In in H. destruct H as (j & c & p' & -> & _).
  exists (i + j)%nat, p'. split; [reflexivity | lia].
Qed.

Lemma NoDup_map_cons (i : nat) (l : list Dom.Path) :
  NoDup l -> NoDup (map (cons i) l).
Proof.
  induction 1 as [| x l Hx _ IH]; cbn [map]; constructor; [| exact IH].
  intros H. apply in_map_iff in H. destruct H as (y & E & Hy).
  injection E as ->. contradiction.
Qed.

(** No path is listed twice. *)
Lemma subtree_NoDup : forall n, NoDup (map fst (Dom.subtree n)).
Proof.
  apply Node_induction.
  - intros d. cbn. constructor; [intros [] | constructor].
  - intros e cs IH. rewrite subtree_unfold. cbn [map fst]. constructor.
    + intros H. destruct (childrenFrom_head _ _ _ H) as (j & p' & E & _).
      discriminate.
    + generalize 0%nat. induction IH as [| c cs Hc _ IHcs]; intros i;
        cbn [childrenFrom]; [constructor |].
      rewrite map_app, map_map. cbn [fst]. apply NoDup_app.
      * rewrite <- (map_map fst (cons i)).
        apply NoDup_map_cons, Hc.
      * apply IHcs.
      * intros a Ha Hb. apply in_map_iff in Ha. destruct Ha as (x & <- & _).
        destruct (childrenFrom_head _ _ _ Hb) as (j & p' & E & Hle).
        injection E as E _. lia.
Qed.

Lemma NoDup_map_filter {A B : Type} (g : A -> B) (f : A -> bool) (l : list A) :
  NoDup (map g l) -> NoDup (map g (filter f l)).
Proof.
  induction l as [| x l IH]; cbn [map filter]; intros H; [constructor |].
  apply NoDup_cons_iff in H. destruct H as [Hx Hl].
  destruct (f x); cbn [map]; [| apply IH, Hl].
  constructor; [| apply IH, Hl].
  intros Hin. apply Hx. apply in_map_iff in Hin. destruct Hin as (y & E & Hy).
  apply in_map_iff. exists y. split; [exact E |].
  apply filter_In in Hy. apply Hy.
Qed.

Lemma querySelectorAll_NoDup (sels : list Dom.Selector) (d : Dom.Document) :
  NoDup (Dom.querySelectorAll sels d).
Proof.
  unfold Dom.querySelectorAll. apply NoDup_map_filter.
  unfold Dom.descendants. pose proof (subtree_NoDup (Dom.panelNode d)) as H.
  destruct (Dom.subtree (Dom.panelNode d)); [constructor |].
  cbn [map tl] in *. apply NoDup_cons_iff in H. apply H.
Qed.

(** What [querySelectorAll] on the panel lists: the paths that lead, from
    the panel and not staying at it, to an element that a selector of the
    list matches. *)
Lemma querySelectorAll_In (sels : list Dom.Selector) (d : Dom.Document) (c : Dom.Path) :
  In c (Dom.querySelectorAll sels d) <->
  c <> [] /\ exists e, Dom.getElem d c = Some e
                       /\ existsb (fun s => Dom.matches s e) sels = true.
Proof.
  unfold Dom.querySelectorAll, Dom.descendants, Dom.getElem, Dom.panelNode.
  rewrite in_map_iff. split.
  - intros ([p m] & <- & H). cbn [fst]. apply filter_In in H. destruct H as [Hin Hm].
    cbn [snd] in Hm. rewrite subtree_unfold in Hin. cbn [tl] in Hin.
    split; [apply (childrenFrom_nonempty _ _ _ Hin) |].
    assert (Hg : Dom.getNode p (Dom.ElementNode (Dom.panelElem d) (Dom.panelChildren d))
                 = Some m).
    { apply subtree_getNode. rewrite subtree_unfold. right. exact Hin. }
    rewrite Hg. destruct m as [t | e cs]; [discriminate |].
    exists e. split; [reflexivity | exact Hm].
  - intros (Hc & e & Hg & Hm).
    destruct (Dom.getNode c (Dom.ElementNode (Dom.panelElem d) (Dom.panelChildren d)))
      as [[t | e' cs] |] eqn:E; try discriminate.
    injection Hg as ->. exists (c, Dom.ElementNode e cs). split; [reflexivity |].
    apply filter_In. split; [| exact Hm].
    apply subtree_getNode in E. rewrite subtree_unfold in E.
    destruct E as [E | E]; [| exact E]. injection E as E _. congruence.
Qed.

Lemma map_control_enumerated (d : Dom.Document) :
  map control (enumerated d)
  = filter (fun c => match samplerOf (shown d) c with Some _ => true | None => false end)
      (rangeSliders d).
Proof.
  unfold enumerated. induction (rangeSliders d) as [| c l IH]; [reflexivity |].
  cbn [flat_map filter]. rewrite map_app, IH.
  destruct (samplerOf (shown d) c) as [p |] eqn:E; [| reflexivity].
  destruct (samplerOf_Some _ _ _ E) as (e & _ & _ & _ & _ & Heq & _).
  rewrite Heq. reflexivity.
Qed.

Lemma selectors_cases (e : Dom.Elem) :
  existsb (fun s => Dom.matches s e) controlSelectors = true <->
  Dom.localName e = "input"
  /\ (Dom.type e = "range" \/ Dom.type e = "checkbox"
      \/ (Dom.type e = "number" /\ Dom.dataFor e = false)).
Proof.
  unfold controlSelectors. cbn [existsb Dom.matches]. rewrite orb_false_r.
  rewrite !orb_true_iff, !andb_true_iff, negb_true_iff, !String.eqb_eq.
  tauto.
Qed.

End TreeFacts.

(** X12. Every parameter the enumerator returns stands for an [input]
    element below the panel whose type is range, checkbox or number, a
    number input having no [data-for] attribute; the element is laid out
    with a box of positive width and height while the panel is shown, and
    it has no ancestor with the id [openai_settings].  The type of the
    parameter is the type of that element. *)
Theorem enumerated_controls_are_visible_inputs (d : Dom.Document) (p : SamplerParameter) :
  In p (fst (enumerateSamplerParameters d)) ->
  control p <> []
  /\ (exists e,
        Dom.getElem d (control p) = Some e
        /\ Dom.instanceofHTMLInputElement e = true
        /\ Dom.localName e = "input"
        /\ type p = Dom.type e
        /\ (type p = "range" \/ type p = "checkbox"
            \/ (type p = "number" /\ Dom.dataFor e = false)))
  /\ 0 < Dom.offsetHeight (Dom.chainOf (shown d) (control p))
  /\ 0 < Dom.offsetWidth (Dom.chainOf (shown d) (control p))
  /\ Dom.closest [Dom.ById "openai_settings"] (Dom.chainOf (shown d) (control p)) = None.
Proof.
  intros Hin. pose proof Hin as Hin'. apply In_enumerated in Hin.
  destruct Hin as (c & Hc & Hp).
  destruct (samplerOf_Some _ _ _ Hp) as (e' & He' & Hi' & Hcl & _ & Heq & _).
  assert (E : control p = c) by (rewrite Heq; reflexivity).
  assert (Ety : type p = Dom.type e') by (rewrite Heq; reflexivity).
  rewrite E. unfold rangeSliders in Hc. apply filter_In in Hc.
  destruct Hc as [Hq Hvis]. apply TreeFacts.querySelectorAll_In in Hq.
  destruct Hq as (Hne & e1 & He1 & Hm). rewrite He' in He1. injection He1 as <-.
  apply TreeFacts.selectors_cases in Hm. destruct Hm as [Hln Hty].
  split; [exact Hne |]. split.
  - pose proof (getElem_shown d c) as Hs. rewrite He' in Hs.
    destruct (Dom.getElem d c) as [e |]; [| discriminate].
    cbn [option_map] in Hs.
    assert (Hu : unstyled e' = unstyled e) by congruence.
    assert (H1 : Dom.iface e' = Dom.iface e)
      by (change (Dom.iface (unstyled e') = Dom.iface (unstyled e)); rewrite Hu; reflexivity).
    assert (H2 : Dom.localName e' = Dom.localName e)
      by (change (Dom.localName (unstyled e') = Dom.localName (unstyled e));
          rewrite Hu; reflexivity).
    assert (H3 : Dom.type e' = Dom.type e)
      by (change (Dom.type (unstyled e') = Dom.type (unstyled e)); rewrite Hu; reflexivity).
    assert (H4 : Dom.dataFor e' = Dom.dataFor e)
      by (change (Dom.dataFor (unstyled e') = Dom.dataFor (unstyled e));
          rewrite Hu; reflexivity).
    exists e. split; [reflexivity |].
    unfold Dom.instanceofHTMLInputElement in *. rewrite <- H1, <- H2, <- H4, Ety, <- H3.
    repeat split; assumption.
  - unfold isVisible in Hvis.
    destruct (Dom.chainOf (shown d) c) as [| [t | e2 cs2] rest] eqn:Hch;
      try discriminate.
    apply andb_true_iff in Hvis. destruct Hvis as [Hvis Hw].
    apply andb_true_iff in Hvis. destruct Hvis as [_ Hh].
    apply Z.ltb_lt in Hw, Hh. repeat split; assumption.
Qed.

(** X13. The enumerator returns at most one parameter for a control: no
    two entries of its list have the same control. *)
Theorem enumerated_controls_distinct (d : Dom.Document) :
  NoDup (map control (fst (enumerateSamplerParameters d))).
Proof.
  rewrite enumerate_fst, TreeFacts.map_control_enumerated.
  apply NoDup_filter. unfold rangeSliders. apply NoDup_filter.
  apply TreeFacts.querySelectorAll_NoDup.
Qed.

(** X14. The enumerator leaves out no control that qualifies: an [input]
    element below the panel of type range, checkbox or number without
    [data-for], laid out with a positive box while the panel is shown, not
    inside [#openai_settings], with a non-empty sanitized identifier and a
    non-empty title, has an entry in the list, with that identifier and
    that title. *)
Theorem qualifying_control_is_enumerated
        (d : Dom.Document) (c : Dom.Path) (e : Dom.Elem) (title : string) :
  c <> [] ->
  Dom.getElem (shown d) c = Some e ->
  Dom.instanceofHTMLInputElement e = true ->
  Dom.localName e = "input" ->
  Dom.type e = "range" \/ Dom.type e = "checkbox"
  \/ (Dom.type e = "number" /\ Dom.dataFor e = false) ->
  isVisible (Dom.chainOf (shown d) c) = true ->
  Dom.closest [Dom.ById "openai_settings"] (Dom.chainOf (shown d) c) = None ->
  sanitizeId (Dom.id e) <> "" ->
  titleOf (shown d) c = Some title ->
  title <> "" ->
  exists p, In p (fst (enumerateSamplerParameters d))
            /\ control p = c /\ id p = sanitizeId (Dom.id e) /\ name p = title
            /\ type p = Dom.type e.
Proof.
  intros Hne He Hi Hln Hty Hvis Hcl Hid Ht Htitle.
  assert (Hq : In c (rangeSliders d)).
  { unfold rangeSliders. apply filter_In. split; [| exact Hvis].
    apply TreeFacts.querySelectorAll_In. split; [exact Hne |]. exists e.
    split; [exact He |]. apply TreeFacts.selectors_cases. split; assumption. }
  assert (Hs : exists p, samplerOf (shown d) c = Some p
                         /\ control p = c /\ id p = sanitizeId (Dom.id e)
                         /\ name p = title /\ type p = Dom.type e).
  { unfold samplerOf. unfold titleOf in Ht. unfold isVisible in Hvis.
    destruct (Dom.chainOf (shown d) c) as [| [t | e2 cs2] rest] eqn:Hch;
      try discriminate.
    pose proof (chain_getElem _ _ _ _ _ Hch) as He2. rewrite He in He2.
    injection He2 as <-. rewrite Hi. cbn [negb]. rewrite Hcl, Ht. cbn [id name].
    apply String.eqb_neq in Hid, Htitle. rewrite Hid, Htitle. cbn [orb].
    eexists. split; [reflexivity |]. repeat split. }
  destruct Hs as (p & Hp & Hrest). exists p. split; [| exact Hrest].
  apply In_enumerated. exists c. split; assumption.
Qed.

(** ** The suggestions *)
Module SortFacts.

Lemma insertInOrder_perm {A : Type} (cmp : A -> A -> Z) (x : A) (l : list A) :
  Permutation (x :: l) (insertInOrder cmp x l).
Proof.
  induction l as [| y l IH]; cbn [insertInOrder]; [apply Permutation_refl |].
  destruct (cmp x y <=? 0); [apply Permutation_refl |].
  apply perm_trans with (y :: x :: l); [apply perm_swap |].
  apply perm_skip, IH.
Qed.

Lemma Array_sort_perm {A : Type} (cmp : A -> A -> Z) (l : list A) :
  Permutation l (Array_sort cmp l).
Proof.
  induction l as [| x l IH]; cbn [Array_sort]; [apply perm_nil |].
  apply perm_trans with (x :: Array_sort cmp l);
    [apply perm_skip, IH | apply insertInOrder_perm].
Qed.

Section Ordered.

Context {A : Type} (cmp : A -> A -> Z).
Hypothesis total : forall a b, cmp a b <= 0 \/ cmp b a <= 0.
Hypothesis transitive : forall a b c, cmp a b <= 0 -> cmp b c <= 0 -> cmp a c <= 0.

Lemma insertInOrder_sorted (x : A) (l : list A) :
  StronglySorted (fun a b => cmp a b <= 0) l ->
  StronglySorted (fun a b => cmp a b <= 0) (insertInOrder cmp x l).
Proof.
  induction 1 as [| y l Hl IH Hy]; cbn [insertInOrder].
  - constructor; constructor.
  - destruct (Z.leb_spec (cmp x y) 0) as [Hle | Hgt].
    + constructor; [constructor; assumption |].
      constructor; [exact Hle |].
      apply Forall_forall. intros z Hz. rewrite Forall_forall in Hy.
      apply transitive with y; [exact Hle | apply Hy, Hz].
    + constructor; [exact IH |].
      apply Forall_forall. intros z Hz.
      apply (Permutation_in _ (Permutation_sym (insertInOrder_perm cmp x l))) in Hz.
      destruct Hz as [<- | Hz].
      * destruct (total x y) as [H | H]; [lia | exact H].
      * rewrite Forall_forall in Hy. apply Hy, Hz.
Qed.

Lemma Array_sort_sorted (l : list A) :
  StronglySorted (fun a b => cmp a b <= 0) (Array_sort cmp l).
Proof.
  induction l as [| x l IH]; cbn [Array_sort]; [constructor |].
  apply insertInOrder_sorted, IH.
Qed.

End Ordered.

Lemma StronglySorted_map {A B : Type} (f : A -> B) (R : B -> B -> Prop) (l : list A) :
  StronglySorted (fun a b => R (f a) (f b)) l -> StronglySorted R (map f l).
Proof.
  induction 1 as [| x l _ IH Hx]; cbn [map]; constructor; [exact IH |].
  apply Forall_forall. intros y Hy. apply in_map_iff in Hy.
  destruct Hy as (z & <- & Hz). rewrite Forall_forall in Hx. apply Hx, Hz.
Qed.

(** Comparing strings by their code units is a total order. *)
Lemma byteCompare_le (a b : string) :
  byteCompare a b <= 0 <-> String.compare a b <> Gt.
Proof.
  unfold byteCompare. destruct (String.compare a b); split; intros H;
    try lia; try discriminate; congruence.
Qed.

Lemma byteCompare_total (a b : string) :
  byteCompare a b <= 0 \/ byteCompare b a <= 0.
Proof.
  rewrite !byteCompare_le, (String.compare_antisym b a).
  destruct (String.compare a b); cbn [CompOpp];
    [left | left | right]; discriminate.
Qed.

Lemma byteCompare_trans (a b c : string) :
  byteCompare a b <= 0 -> byteCompare b c <= 0 -> byteCompare a c <= 0.
Proof.
  rewrite !byteCompare_le. intros H1 H2.
  destruct (String.compare a b) eqn:E1; [| | congruence].
  - apply OrderedTypeEx.String_as_OT.cmp_eq in E1. subst. exact H2.
  - destruct (String.compare b c) eqn:E2; [| | congruence].
    + apply OrderedTypeEx.String_as_OT.cmp_eq in E2. subst. rewrite E1. discriminate.
    + apply OrderedTypeEx.String_as_OT.cmp_lt in E1, E2.
      pose proof (OrderedTypeEx.String_as_OT.lt_trans _ _ _ E1 E2) as H.
      apply OrderedTypeEx.String_as_OT.cmp_lt in H.
      unfold OrderedTypeEx.String_as_OT.cmp in H. rewrite H. discriminate.
Qed.

End SortFacts.

Section SuggestionProperties.

Variable localeCompare : string -> string -> Z.
Variables enumTypes_number enumIcons_number enumIcons_boolean : string.

(** X15. The suggestions of the two commands are one per enumerated
    parameter, none lost and none doubled by the sorting: value the id,
    description the name, the number type, and the number icon for type
    range only, so that a number input has the boolean icon like a
    checkbox.  Asking for the suggestions changes the page as one
    enumeration does. *)
Theorem enumProvider_one_per_parameter (d : Dom.Document) :
  let r := enumProvider localeCompare enumTypes_number enumIcons_number
             enumIcons_boolean d in
  Permutation
    (map (fun p => mkEnumValue (id p) (name p) enumTypes_number
                     (if (type p =? "range")%string then enumIcons_number
                      else enumIcons_boolean))
       (fst (enumerateSamplerParameters d)))
    (fst r)
  /\ snd r = snd (enumerateSamplerParameters d)
  /\ forall v, In v (fst r) ->
       enumValue v <> "" /\ description v <> ""
       /\ exists p, In p (fst (enumerateSamplerParameters d))
                    /\ enumValue v = id p /\ description v = name p
                    /\ (type p = "range" -> typeIcon v = enumIcons_number)
                    /\ (type p = "checkbox" \/ type p = "number" ->
                        typeIcon v = enumIcons_boolean).
Proof.
  intros r. subst r. unfold enumProvider.
  destruct (enumerateSamplerParameters d) as [parameters d'] eqn:E.
  assert (Hf : parameters = fst (enumerateSamplerParameters d)) by (rewrite E; reflexivity).
  cbn [fst snd]. split; [| split; [reflexivity |]].
  - apply Permutation_map, SortFacts.Array_sort_perm.
  - intros v Hv. apply in_map_iff in Hv. destruct Hv as (p & <- & Hp).
    apply (Permutation_in _ (Permutation_sym (SortFacts.Array_sort_perm _ parameters)))
      in Hp.
    cbn [enumValue description typeIcon]. rewrite Hf in Hp.
    destruct (enumerated_nonempty _ _ Hp) as [Hi Hn].
    split; [exact Hi |]. split; [exact Hn |]. exists p. rewrite <- Hf in Hp.
    split; [exact Hp |]. split; [reflexivity |]. split; [reflexivity |]. split.
    + intros ->. reflexivity.
    + intros [-> | ->]; reflexivity.
Qed.

(** X16. When [localeCompare] is a total and transitive comparison, the
    suggestions are in ascending order of their descriptions, the names of
    the parameters: no suggestion comes after one that compares greater. *)
Theorem enumProvider_sorted_by_name (d : Dom.Document) :
  (forall a b, localeCompare a b <= 0 \/ localeCompare b a <= 0) ->
  (forall a b c, localeCompare a b <= 0 -> localeCompare b c <= 0 ->
                 localeCompare a c <= 0) ->
  StronglySorted (fun v w => localeCompare (description v) (description w) <= 0)
    (fst (enumProvider localeCompare enumTypes_number enumIcons_number
            enumIcons_boolean d)).
Proof.
  intros Htotal Htrans. unfold enumProvider.
  destruct (enumerateSamplerParameters d) as [parameters d']. cbn [fst].
  apply SortFacts.StronglySorted_map. cbn [description].
  apply (SortFacts.Array_sort_sorted (fun a b => localeCompare (name a) (name b))).
  - intros a b. apply Htotal.
  - intros a b c. apply Htrans.
Qed.

End SuggestionProperties.

(** ** The length of an id *)
Module LengthFacts.

Lemma length_append (a b : string) :
  String.length (a ++ b) = (String.length a + String.length b)%nat.
Proof. induction a as [| c a IH]; cbn; [reflexivity | rewrite IH; reflexivity]. Qed.

Lemma cut_length (tok s s' : string) :
  cut tok s s' ->
  (String.length s' <= String.length s)%nat
  /\ (tok <> "" -> String.length s' = String.length s -> includes tok s = false).
Proof.
  intros [[Hno ->] | (a & b & -> & _ & ->)].
  - split; [lia |]. intros _ _. apply not_includes, Hno.
  - rewrite !length_append. split; [lia |]. intros Ht H.
    destruct tok; [congruence |]. cbn [String.length] in H. lia.
Qed.

End LengthFacts.

(** X17. The id is never longer than the raw identifier, and it is the raw
    identifier itself exactly when the raw identifier contains none of the
    six tokens. *)
Theorem sanitizeId_unchanged_iff (raw : string) :
  (String.length (sanitizeId raw) <= String.length raw)%nat
  /\ (sanitizeId raw = raw <-> forall t, In t tokens -> includes t raw = false).
Proof.
  destruct (sanitizeId_cuts raw) as (s1 & s2 & s3 & s4 & s5 & C1 & C2 & C3 & C4 & C5 & C6).
  destruct (LengthFacts.cut_length _ _ _ C1) as [L1 N1].
  destruct (LengthFacts.cut_length _ _ _ C2) as [L2 N2].
  destruct (LengthFacts.cut_length _ _ _ C3) as [L3 N3].
  destruct (LengthFacts.cut_length _ _ _ C4) as [L4 N4].
  destruct (LengthFacts.cut_length _ _ _ C5) as [L5 N5].
  destruct (LengthFacts.cut_length _ _ _ C6) as [L6 N6].
  split; [lia |]. split.
  - intros Heq. rewrite Heq in L6, N6.
    assert (I1 : includes "_counter" raw = false) by (apply N1; [discriminate | lia]).
    assert (E1 : s1 = raw).
    { destruct C1 as [[_ E] | (a & b & -> & _ & _)]; [exact E |].
      apply not_includes in I1. exfalso. apply I1. exists a, b. reflexivity. }
    subst s1.
    assert (I2 : includes "_textgenerationwebui" raw = false)
      by (apply N2; [discriminate | lia]).
    assert (E2 : s2 = raw).
    { destruct C2 as [[_ E] | (a & b & -> & _ & _)]; [exact E |].
      apply not_includes in I2. exfalso. apply I2. exists a, b. reflexivity. }
    subst s2.
    assert (I3 : includes "_openai" raw = false) by (apply N3; [discriminate | lia]).
    assert (E3 : s3 = raw).
    { destruct C3 as [[_ E] | (a & b & -> & _ & _)]; [exact E |].
      apply not_includes in I3. exfalso. apply I3. exists a, b. reflexivity. }
    subst s3.
    assert (I4 : includes "_novel" raw = false) by (apply N4; [discriminate | lia]).
    assert (E4 : s4 = raw).
    { destruct C4 as [[_ E] | (a & b & -> & _ & _)]; [exact E |].
      apply not_includes in I4. exfalso. apply I4. exists a, b. reflexivity. }
    subst s4.
    assert (I5 : includes "openai_" raw = false) by (apply N5; [discriminate | lia]).
    assert (E5 : s5 = raw).
    { destruct C5 as [[_ E] | (a & b & -> & _ & _)]; [exact E |].
      apply not_includes in I5. exfalso. apply I5. exists a, b. reflexivity. }
    subst s5.
    assert (I6 : includes "oai_" raw = false) by (apply N6; [discriminate | lia]).
    intros t Ht. unfold tokens, suffixTokens, prefixTokens in Ht. cbn [app In] in Ht.
    destruct Ht as [<- | [<- | [<- | [<- | [<- | [<- | []]]]]]]; assumption.
  - intros H. unfold sanitizeId.
    assert (Hin : Forall (fun t => includes t raw = false) tokens)
      by (apply Forall_forall, H).
    unfold tokens, suffixTokens, prefixTokens in Hin. cbn [app] in Hin.
    inversion Hin as [| ? ? H1 Hin1]; subst. inversion Hin1 as [| ? ? H2 Hin2]; subst.
    inversion Hin2 as [| ? ? H3 Hin3]; subst. inversion Hin3 as [| ? ? H4 Hin4]; subst.
    inversion Hin4 as [| ? ? H5 Hin5]; subst. inversion Hin5 as [| ? ? H6 _]; subst.
    rewrite (replace_absent _ _ H1), (replace_absent _ _ H2), (replace_absent _ _ H3),
      (replace_absent _ _ H4), (replace_absent _ _ H5).
    apply replace_absent, H6.
Qed.

(** ** The title of a control *)
Module TitleFacts.

Lemma matchesAny_incl (sels sels' : list Dom.Selector) (n : Dom.Node) :
  incl sels sels' -> Dom.matchesAny sels n = true -> Dom.matchesAny sels' n = true.
Proof.
  intros Hi. destruct n as [t | e cs]; cbn [Dom.matchesAny]; [discriminate |].
  rewrite !existsb_exists. intros (s & Hs & Hm). exists s.
  split; [apply Hi, Hs | exact Hm].
Qed.

Lemma closest_found (sels sels' : list Dom.Selector) (chain : list Dom.Node) (n : Dom.Node) :
  incl sels sels' ->
  Dom.closest sels chain = Some n -> In n chain /\ Dom.matchesAny sels' n = true.
Proof.
  intros Hi H. apply find_some in H. destruct H as [Hin Hm].
  split; [exact Hin | apply (matchesAny_incl _ _ _ Hi Hm)].
Qed.

Lemma querySelector_found (sels sels' : list Dom.Selector) (n t : Dom.Node) :
  incl sels sels' ->
  Dom.querySelector sels n = Some t ->
  In t (map snd (Dom.descendants n)) /\ Dom.matchesAny sels' t = true.
Proof.
  intros Hi. unfold Dom.querySelector.
  destruct (find _ (Dom.descendants n)) as [[p m] |] eqn:E; [| discriminate].
  cbn [option_map snd]. intros H. injection H as <-.
  apply find_some in E. destruct E as [Hin Hm]. cbn [snd] in Hm. split.
  - apply in_map_iff. exists (p, m). split; [reflexivity | exact Hin].
  - apply (matchesAny_incl _ _ _ Hi Hm).
Qed.

Lemma hasTitle_text (t : Dom.Node) :
  hasTitle (Some t) = true -> trim (Dom.textContent t) <> "".
Proof.
  destruct t as [d | e cs]; cbn [hasTitle]; [discriminate |].
  intros H. apply andb_true_iff in H. destruct H as [_ H].
  apply negb_true_iff, String.eqb_neq in H. exact H.
Qed.

Ltac among := subst; intros ? ?; cbn [In] in *; tauto.

End TitleFacts.

(** X18. What [getTitleParent] returns for a control is either the block
    it chose, which is the control itself or an ancestor of it matching
    [.range-block], [label], [h4] or [div], or an element below that block
    matching [.range-block-title], [small] or [.checkbox_label] whose text
    is not blank.  So the name of a parameter can only be blank, and the
    control left out for it, when the whole block is taken. *)
Theorem getTitleParent_result (chain : list Dom.Node) (t : Dom.Node) :
  getTitleParent chain = Some t ->
  exists parent,
    In parent chain
    /\ Dom.matchesAny [Dom.ByClass "range-block"; Dom.ByTag "label"; Dom.ByTag "h4";
                       Dom.ByTag "div"] parent = true
    /\ (t = parent
        \/ (In t (map snd (Dom.descendants parent))
            /\ Dom.matchesAny [Dom.ByClass "range-block-title"; Dom.ByTag "small";
                               Dom.ByClass "checkbox_label"] t = true
            /\ trim (Dom.textContent t) <> "")).
Proof.
  unfold getTitleParent.
  remember [Dom.ByClass "range-block"; Dom.ByTag "label"; Dom.ByTag "h4";
            Dom.ByTag "div"] as all eqn:Eall.
  remember [Dom.ByClass "range-block-title"; Dom.ByTag "small";
            Dom.ByClass "checkbox_label"] as titles eqn:Etitles.
  assert (Hparent : forall n,
             orElse (Dom.closest [Dom.ByClass "range-block"] chain)
               (orElse (Dom.closest [Dom.ByTag "label"] chain)
                  (orElse (Dom.closest [Dom.ByTag "h4"] chain)
                     (Dom.closest [Dom.ByTag "div"] chain))) = Some n ->
             In n chain /\ Dom.matchesAny all n = true).
  { intros n. unfold orElse.
    destruct (Dom.closest [Dom.ByClass "range-block"] chain) eqn:E1;
      [intros H; injection H as <-; revert E1; apply TitleFacts.closest_found;
       TitleFacts.among |].
    destruct (Dom.closest [Dom.ByTag "label"] chain) eqn:E2;
      [intros H; injection H as <-; revert E2; apply TitleFacts.closest_found;
       TitleFacts.among |].
    destruct (Dom.closest [Dom.ByTag "h4"] chain) eqn:E3;
      [intros H; injection H as <-; revert E3; apply TitleFacts.closest_found;
       TitleFacts.among |].
    apply TitleFacts.closest_found. TitleFacts.among. }
  destruct (orElse _ _) as [[d | pe cs] |] eqn:Ep; try discriminate.
  destruct (Hparent _ eq_refl) as [Hin Hm]. clear Hparent.
  destruct (negb (Dom.instanceofHTMLElement pe)); [discriminate |].
  intros H. exists (Dom.ElementNode pe cs). split; [exact Hin |].
  split; [exact Hm |].
  assert (Hfound : forall sels,
             incl sels titles ->
             hasTitle (Dom.querySelector sels (Dom.ElementNode pe cs)) = true ->
             Dom.querySelector sels (Dom.ElementNode pe cs) = Some t ->
             In t (map snd (Dom.descendants (Dom.ElementNode pe cs)))
             /\ Dom.matchesAny titles t = true
             /\ trim (Dom.textContent t) <> "").
  { intros sels Hi Hh Hq. rewrite Hq in Hh.
    destruct (TitleFacts.querySelector_found _ _ _ _ Hi Hq) as [H1 H2].
    split; [exact H1 |]. split; [exact H2 | apply TitleFacts.hasTitle_text, Hh]. }
  destruct (hasTitle (Dom.querySelector [Dom.ByClass "range-block-title"] _)) eqn:T1;
    [right; apply (Hfound [Dom.ByClass "range-block-title"]); [TitleFacts.among | exact T1 | exact H] |].
  destruct (hasTitle (Dom.querySelector [Dom.ByTag "small"] _)) eqn:T2;
    [right; apply (Hfound [Dom.ByTag "small"]); [TitleFacts.among | exact T2 | exact H] |].
  destruct (hasTitle (Dom.querySelector [Dom.ByClass "checkbox_label"] _)) eqn:T3;
    [right; apply (Hfound [Dom.ByClass "checkbox_label"]); [TitleFacts.among | exact T3 | exact H] |].
  left. injection H as <-. reflexivity.
Qed.

(** ** The further properties on the example pages *)

(** A name that is [true], not a string, given to both commands. *)
Lemma invalid_name_touches_nothing_witness :
  invalid (VBoolean true)
  /\ (exists f, sampler_get (VBoolean true) closedPage = (Throw f, closedPage)
                /\ kind f = InvalidArgument)
  /\ (exists f, sampler_set hostIsTrueBoolean Html.sanitize (VBoolean true) (VString "1") closedPage
                = (Throw f, closedPage)
                /\ kind f = InvalidArgument).
Proof.
  assert (H : invalid (VBoolean true)) by (right; reflexivity).
  split; [exact H |].
  exact (invalid_name_touches_nothing hostIsTrueBoolean Html.sanitize (VBoolean true) (VString "1")
           closedPage H).
Defined.

(** Unchecking the checkbox of the closed page and reading it back. *)
Lemma get_after_set_checkbox_witness :
  lookup closedPage "do_sample" = Some do_sample
  /\ type do_sample = "checkbox"
  /\ "no" <> ""
  /\ fst (sampler_get (VString "do_sample")
            (snd (sampler_set hostIsTrueBoolean Html.sanitize (VString "do_sample") (VString "no")
                    closedPage)))
     = Return "false".
Proof.
  assert (H1 : lookup closedPage "do_sample" = Some do_sample) by (vm_compute; reflexivity).
  assert (H2 : type do_sample = "checkbox") by reflexivity.
  assert (H3 : "no" <> "") by discriminate.
  split; [exact H1 |]. split; [exact H2 |]. split; [exact H3 |].
  rewrite (get_after_set_checkbox hostIsTrueBoolean Html.sanitize
      closedPage "do_sample" "no" do_sample
             H1 H2 H3).
  reflexivity.
Defined.

(** Setting the temperature slider, within and above its bounds, and
    reading it back; on the slider with step 0.01 the value 1.234 reads
    back as 1.23. *)
Lemma get_after_set_number_witness :
  lookup closedPage "temp" = Some temp
  /\ type temp <> "checkbox"
  /\ isFinite (parseFloat "1.10") = true /\ isFinite (parseFloat "5") = true
  /\ fst (sampler_get (VString "temp")
            (snd (sampler_set hostIsTrueBoolean Html.sanitize (VString "temp")
                    (VString "1.10") closedPage)))
     = Return "1.1"
  /\ fst (sampler_get (VString "temp")
            (snd (sampler_set hostIsTrueBoolean Html.sanitize (VString "temp")
                    (VString "5") closedPage)))
     = Return "2"
  /\ lookup steppedPage "temp" = Some stepped
  /\ fst (sampler_get (VString "temp")
            (snd (sampler_set hostIsTrueBoolean Html.sanitize (VString "temp")
                    (VString "1.234") steppedPage)))
     = Return "1.23".
Proof.
  assert (H1 : lookup closedPage "temp" = Some temp) by (vm_compute; reflexivity).
  assert (H2 : type temp <> "checkbox") by discriminate.
  assert (H3 : isFinite (parseFloat "1.10") = true) by reflexivity.
  assert (H3' : isFinite (parseFloat "5") = true) by reflexivity.
  assert (H4 : lookup steppedPage "temp" = Some stepped) by (vm_compute; reflexivity).
  assert (H5 : isFinite (parseFloat "1.234") = true) by reflexivity.
  split; [exact H1 |]. split; [exact H2 |]. split; [exact H3 |].
  split; [exact H3' |]. split; [| split; [| split; [exact H4 |]]].
  - pose proof (get_after_set_number hostIsTrueBoolean Html.sanitize closedPage "temp"
                  "1.10" temp H1 H2 H3) as H.
    cbv zeta in H. apply (proj2 (proj2 H)). vm_compute. reflexivity.
  - pose proof (get_after_set_number hostIsTrueBoolean Html.sanitize closedPage "temp"
                  "5" temp H1 H2 H3') as H.
    cbv zeta in H. apply (proj2 (proj2 H)). vm_compute. reflexivity.
  - pose proof (get_after_set_number hostIsTrueBoolean Html.sanitize steppedPage "temp"
                  "1.234" stepped H4 H2 H5) as H.
    cbv zeta in H. rewrite (proj1 (proj2 H)). vm_compute. reflexivity.
Defined.

(** A value that is not a number leaves the closed page without an
    event. *)
Lemma set_all_or_nothing_witness :
  fst (sampler_set hostIsTrueBoolean Html.sanitize (VString "temp") (VString "abc") closedPage)
  = Throw ValueNotFinite
  /\ dispatched (snd (sampler_set hostIsTrueBoolean Html.sanitize (VString "temp") (VString "abc")
                        closedPage))
     = dispatched closedPage.
Proof.
  assert (H : fst (sampler_set hostIsTrueBoolean Html.sanitize
      (VString "temp") (VString "abc") closedPage)
              = Throw ValueNotFinite) by (vm_compute; reflexivity).
  split; [exact H |].
  exact (proj1 (proj1 (set_all_or_nothing hostIsTrueBoolean Html.sanitize (VString "temp")
                         (VString "abc") closedPage) ValueNotFinite H)).
Defined.

(** Setting the temperature does not change what Top P reads. *)
Lemma set_leaves_other_readouts_witness :
  lookup closedPage "temp" = Some temp
  /\ lookup closedPage "top p" = Some top_p
  /\ control top_p <> control temp
  /\ fst (sampler_get (VString "top p")
            (snd (sampler_set hostIsTrueBoolean Html.sanitize (VString "temp") (VString "1.5")
                    closedPage)))
     = Return "0.9".
Proof.
  assert (H1 : lookup closedPage "temp" = Some temp) by (vm_compute; reflexivity).
  assert (H2 : lookup closedPage "top p" = Some top_p) by (vm_compute; reflexivity).
  assert (H3 : control top_p <> control temp) by discriminate.
  split; [exact H1 |]. split; [exact H2 |]. split; [exact H3 |].
  rewrite (set_leaves_other_readouts hostIsTrueBoolean Html.sanitize
      (VString "temp") (VString "1.5")
             "top p" closedPage).
  - vm_compute. reflexivity.
  - intros s p q E Hp Hq. injection E as <-.
    rewrite H1 in Hp. rewrite H2 in Hq.
    injection Hp as <-. injection Hq as <-. exact H3.
Defined.

(** The slider with min 2 and max 0: assigned its max, it takes its min. *)
Lemma set_with_crossed_bounds_assigns_max_witness :
  lookup crossedPage "crossed" = Some crossed
  /\ type crossed <> "checkbox"
  /\ isFinite (parseFloat "7") = true
  /\ lt (max crossed) (min crossed) = true
  /\ toString (max crossed) = "0"
  /\ option_map Dom.value
       (Dom.getElem
          (document (snd (sampler_set hostIsTrueBoolean Html.sanitize (VString "crossed")
                            (VString "7") crossedPage)))
          (control crossed))
     = Some "2".
Proof.
  assert (H1 : lookup crossedPage "crossed" = Some crossed) by (vm_compute; reflexivity).
  assert (H2 : type crossed <> "checkbox") by discriminate.
  assert (H3 : isFinite (parseFloat "7") = true) by reflexivity.
  assert (H4 : lt (max crossed) (min crossed) = true) by reflexivity.
  split; [exact H1 |]. split; [exact H2 |]. split; [exact H3 |]. split; [exact H4 |].
  split; [vm_compute; reflexivity |].
  pose proof (set_with_crossed_bounds_assigns_max hostIsTrueBoolean Html.sanitize
                crossedPage "crossed" "7" crossed H1 H2 H3 H4) as H.
  cbv zeta in H. rewrite (proj2 H). vm_compute. reflexivity.
Defined.

(** The temperature slider fetched by its title in capitals. *)
Lemma get_by_listed_name_returns_witness :
  In temp (fst (enumerateSamplerParameters (document closedPage)))
  /\ named (normalize " TEMPERATURE ") temp
  /\ exists q, lookup closedPage " TEMPERATURE " = Some q
               /\ named (normalize " TEMPERATURE ") q
               /\ sampler_get (VString " TEMPERATURE ") closedPage
                  = (Return (readout q), afterLookup closedPage).
Proof.
  assert (H1 : In temp (fst (enumerateSamplerParameters (document closedPage))))
    by (vm_compute; left; reflexivity).
  assert (H2 : named (normalize " TEMPERATURE ") temp) by (left; vm_compute; reflexivity).
  split; [exact H1 |]. split; [exact H2 |].
  exact (proj1 (proj2 (get_by_listed_name_returns closedPage temp H1)) " TEMPERATURE " H2).
Defined.

(** The seed input of the closed page, found while the panel is shown. *)
Lemma enumerated_controls_are_visible_inputs_witness :
  In seed (fst (enumerateSamplerParameters (document closedPage)))
  /\ 0 < Dom.offsetHeight (Dom.chainOf (shown (document closedPage)) (control seed))
  /\ Dom.offsetHeight (Dom.chainOf (document closedPage) (control seed)) = 0.
Proof.
  assert (H1 : In seed (fst (enumerateSamplerParameters (document closedPage))))
    by (vm_compute; do 3 right; left; reflexivity).
  split; [exact H1 |]. split; [| reflexivity].
  exact (proj1 (proj2 (proj2 (enumerated_controls_are_visible_inputs
                                (document closedPage) seed H1)))).
Defined.

(** The temperature slider qualifies. *)
Lemma qualifying_control_is_enumerated_witness :
  Dom.getElem (shown (document closedPage)) [0; 1]%nat
  = Some (input "temp_textgenerationwebui" "range" "0" "2" "0.7" false)
  /\ titleOf (shown (document closedPage)) [0; 1]%nat = Some "Temperature"
  /\ exists p, In p (fst (enumerateSamplerParameters (document closedPage)))
               /\ control p = [0; 1]%nat
               /\ id p = "temp"
               /\ name p = "Temperature"
               /\ type p = "range".
Proof.
  assert (H0 : [0; 1]%nat <> @nil nat) by discriminate.
  assert (H1 : Dom.getElem (shown (document closedPage)) [0; 1]%nat
               = Some (input "temp_textgenerationwebui" "range" "0" "2" "0.7" false))
    by reflexivity.
  assert (H2 : Dom.instanceofHTMLInputElement
                 (input "temp_textgenerationwebui" "range" "0" "2" "0.7" false) = true)
    by reflexivity.
  assert (H3 : Dom.localName (input "temp_textgenerationwebui" "range" "0" "2" "0.7" false)
               = "input") by reflexivity.
  assert (H4 : Dom.type (input "temp_textgenerationwebui" "range" "0" "2" "0.7" false)
               = "range") by reflexivity.
  assert (H5 : isVisible (Dom.chainOf (shown (document closedPage)) [0; 1]%nat) = true)
    by reflexivity.
  assert (H6 : Dom.closest [Dom.ById "openai_settings"]
                 (Dom.chainOf (shown (document closedPage)) [0; 1]%nat) = None)
    by reflexivity.
  assert (H7 : sanitizeId
                 (Dom.id (input "temp_textgenerationwebui" "range" "0" "2" "0.7" false))
               <> "") by (vm_compute; discriminate).
  assert (H8 : titleOf (shown (document closedPage)) [0; 1]%nat = Some "Temperature")
    by reflexivity.
  assert (H9 : "Temperature" <> "") by discriminate.
  split; [exact H1 |]. split; [exact H8 |].
  exact (qualifying_control_is_enumerated (document closedPage) [0; 1]%nat
           (input "temp_textgenerationwebui" "range" "0" "2" "0.7" false) "Temperature"
           H0 H1 H2 H3 (or_introl H4) H5 H6 H7 H8 H9).
Defined.

(** The suggestion for the seed input of the closed page has the boolean
    icon. *)
Lemma enumProvider_one_per_parameter_witness :
  In (mkEnumValue "seed" "Seed" "number" "?")
    (fst (enumProvider byteCompare "number" "#" "?" (document closedPage)))
  /\ exists p, In p (fst (enumerateSamplerParameters (document closedPage)))
               /\ "seed" = id p /\ "Seed" = name p
               /\ (type p = "range" -> "?" = "#")
               /\ (type p = "checkbox" \/ type p = "number" -> "?" = "?").
Proof.
  assert (H : In (mkEnumValue "seed" "Seed" "number" "?")
                (fst (enumProvider byteCompare "number" "#" "?" (document closedPage))))
    by (vm_compute; do 1 right; left; reflexivity).
  split; [exact H |].
  exact (proj2 (proj2 (proj2 (proj2 (enumProvider_one_per_parameter byteCompare "number"
                                       "#" "?" (document closedPage)))
                         (mkEnumValue "seed" "Seed" "number" "?") H))).
Defined.

(** The suggestions of the closed page under the comparison by code
    units. *)
Lemma enumProvider_sorted_by_name_witness :
  (forall a b, byteCompare a b <= 0 \/ byteCompare b a <= 0)
  /\ (forall a b c, byteCompare a b <= 0 -> byteCompare b c <= 0 -> byteCompare a c <= 0)
  /\ map description (fst (enumProvider byteCompare "number" "#" "?" (document closedPage)))
     = ["Do Sample"; "Seed"; "Temperature"; "Top P"]
  /\ StronglySorted (fun v w => byteCompare (description v) (description w) <= 0)
       (fst (enumProvider byteCompare "number" "#" "?" (document closedPage))).
Proof.
  split; [exact SortFacts.byteCompare_total |].
  split; [exact SortFacts.byteCompare_trans |].
  split; [vm_compute; reflexivity |].
  exact (enumProvider_sorted_by_name byteCompare "number" "#" "?" (document closedPage)
           SortFacts.byteCompare_total SortFacts.byteCompare_trans).
Defined.

(** An identifier without any token. *)
Lemma sanitizeId_unchanged_iff_witness :
  (forall t, In t tokens -> includes t "top_k" = false)
  /\ sanitizeId "top_k" = "top_k".
Proof.
  assert (H : forall t, In t tokens -> includes t "top_k" = false).
  { intros t Ht. unfold tokens, suffixTokens, prefixTokens in Ht. cbn [app In] in Ht.
    destruct Ht as [<- | [<- | [<- | [<- | [<- | [<- | []]]]]]]; reflexivity. }
  split; [exact H |].
  exact (proj2 (proj2 (sanitizeId_unchanged_iff "top_k")) H).
Defined.

(** The title of the temperature slider is the title element of its range
    block. *)
Lemma getTitleParent_result_witness :
  getTitleParent (Dom.chainOf (shown (document closedPage)) (control temp))
  = Some (text "div" ["range-block-title"] " Temperature ")
  /\ exists parent,
       In parent (Dom.chainOf (shown (document closedPage)) (control temp))
       /\ Dom.matchesAny [Dom.ByClass "range-block"; Dom.ByTag "label"; Dom.ByTag "h4";
                          Dom.ByTag "div"] parent = true
       /\ (text "div" ["range-block-title"] " Temperature " = parent
           \/ (In (text "div" ["range-block-title"] " Temperature ")
                 (map snd (Dom.descendants parent))
               /\ Dom.matchesAny [Dom.ByClass "range-block-title"; Dom.ByTag "small";
                                  Dom.ByClass "checkbox_label"]
                    (text "div" ["range-block-title"] " Temperature ") = true
               /\ trim (Dom.textContent (text "div" ["range-block-title"] " Temperature "))
                  <> "")).
Proof.
  assert (H : getTitleParent (Dom.chainOf (shown (document closedPage)) (control temp))
              = Some (text "div" ["range-block-title"] " Temperature ")) by reflexivity.
  split; [exact H |].
  exact (getTitleParent_result _ _ H).
Defined.
